(** * BILL-DIGITIZER: invoice extraction, normalisation, persistence and NL2SQL

    A shallow embedding of the backend of the repository
    ([backend/nvidia_ocr.py], [backend/nat_sql_nvidia.py],
    [backend/streamlit_app.py], [backend/db.py]) together with the
    properties its specification states about it.

    Layout:
    - [PyStr]      the [str] methods the source calls;
    - values, exceptions and the library interface [PyLib]
      ([float()], [int()], [json.loads], [json.dumps]);
    - [parse_ocr_response] (the Response Normalizer);
    - the sqlite connection, [save_ocr_to_db], [save_invoice_to_db] and the
      fallback of [process_image];
    - [generate] and the upload boundary;
    - [NL2SQLConverter.convert] and the join clean-up of [execute_nl_query];
    - a reference instance of [PyLib];
    - the statements of the specification, the invariants of the tables,
      [db.init_db], [NL2SQLConverter.__init__], [nl_to_sql] and
      [execute_nl_query];
    - the theorems: those the specification states, then further properties
      of the code. *)

From Stdlib Require Import String Ascii List ZArith Lia Bool.
Import ListNotations.

Local Open Scope string_scope.
Local Open Scope Z_scope.

(** ** Python [str] methods

    A text is a Rocq [string]; its characters stand for code points below
    256.  [upper] and [lower] are the ASCII case maps (the SQL and file names
    the source handles are ASCII; Python's case maps differ on a few
    non-ASCII letters). *)
Module PyStr.

Definition nl : string := String "010"%char "".
Definition dq : string := String "034"%char "".

(** [str.isspace] on one character. *)
Definition isspace (c : ascii) : bool :=
  let n := Z.of_nat (nat_of_ascii c) in
  ((9 <=? n) && (n <=? 13)) || ((28 <=? n) && (n <=? 32))
  || (n =? 133) || (n =? 160).

Fixpoint lstrip (s : string) : string :=
  match s with
  | String c s' => if isspace c then lstrip s' else s
  | EmptyString => EmptyString
  end.

Fixpoint rstrip (s : string) : string :=
  match s with
  | String c s' =>
      match rstrip s' with
      | EmptyString => if isspace c then EmptyString else String c EmptyString
      | r => String c r
      end
  | EmptyString => EmptyString
  end.

Definition strip (s : string) : string := rstrip (lstrip s).

Definition startswith (s p : string) : bool := prefix p s.

Fixpoint rev (s : string) : string :=
  match s with
  | String c s' => rev s' ++ String c EmptyString
  | EmptyString => EmptyString
  end.

Definition endswith (s p : string) : bool := prefix (rev p) (rev s).

Definition len (s : string) : Z := Z.of_nat (String.length s).

(** [s.find(sub)]: lowest index of [sub] in [s], or [-1]. *)
Fixpoint find_from (sub s : string) (i : Z) : Z :=
  if prefix sub s then i
  else match s with
       | String _ s' => find_from sub s' (i + 1)
       | EmptyString => -1
       end.

Definition find (s sub : string) : Z := find_from sub s 0.

(** [s.rfind(sub)]: highest index of [sub] in [s], or [-1]. *)
Fixpoint rfind_from (sub s : string) (i : Z) : Z :=
  match s with
  | String _ s' =>
      let r := rfind_from sub s' (i + 1) in
      if r =? -1 then (if prefix sub s then i else -1) else r
  | EmptyString => if prefix sub EmptyString then i else -1
  end.

Definition rfind (s sub : string) : Z := rfind_from sub s 0.

(** [sub in s]. *)
Definition contains (s sub : string) : bool := negb (find s sub =? -1).

(** A slice bound, as Python clamps it. *)
Definition clamp (n i : Z) : Z :=
  if i <? 0 then Z.max 0 (n + i) else Z.min i n.

(** [s[a:b]]. *)
Definition slice (s : string) (a b : Z) : string :=
  let a' := clamp (len s) a in
  let b' := clamp (len s) b in
  substring (Z.to_nat a') (Z.to_nat (b' - a')) s.

(** [s[:b]]. *)
Definition slice_to (s : string) (b : Z) : string := slice s 0 b.

Fixpoint replace_go (old new : string) (skip : nat) (s : string) : string :=
  match s with
  | String c s' =>
      match skip with
      | S k => replace_go old new k s'
      | O => if prefix old s
             then new ++ replace_go old new (String.length old - 1) s'
             else String c (replace_go old new 0 s')
      end
  | EmptyString => EmptyString
  end.

Fixpoint intersperse (new s : string) : string :=
  match s with
  | String c s' => new ++ String c (intersperse new s')
  | EmptyString => new
  end.

(** [s.replace(old, new)]: every non-overlapping occurrence, leftmost
    first. *)
Definition replace (s old new : string) : string :=
  match old with
  | EmptyString => intersperse new s
  | _ => replace_go old new 0 s
  end.

Definition upper_char (c : ascii) : ascii :=
  let n := nat_of_ascii c in
  if ((97 <=? n) && (n <=? 122))%nat then ascii_of_nat (n - 32) else c.

Definition lower_char (c : ascii) : ascii :=
  let n := nat_of_ascii c in
  if ((65 <=? n) && (n <=? 90))%nat then ascii_of_nat (n + 32) else c.

Fixpoint map (f : ascii -> ascii) (s : string) : string :=
  match s with
  | String c s' => String (f c) (map f s')
  | EmptyString => EmptyString
  end.

Definition upper : string -> string := map upper_char.
Definition lower : string -> string := map lower_char.

(** The one-character strings of [s], as iteration over a [str] yields
    them. *)
Fixpoint chars (s : string) : list string :=
  match s with
  | String c s' => String c EmptyString :: chars s'
  | EmptyString => []
  end.

End PyStr.

(** ** Python values, exceptions, and the library interface *)

(** The exceptions the modelled code can see.  [Exception prefix cause] is
    [Exception(f"{prefix}{str(cause)}")], the way the source re-raises. *)
Inductive exn : Type :=
| AttributeError
| TypeError
| ValueError (msg : string)
| OverflowError
| OSError
| SqliteError
| JSONDecodeError (msg : string)
| Exception (prefix : string) (cause : exn).

Inductive result (A : Type) : Type :=
| Ok (a : A)
| Raise (e : exn).
Arguments Ok {A} a.
Arguments Raise {A} e.

Definition rbind {A B} (r : result A) (k : A -> result B) : result B :=
  match r with
  | Ok a => k a
  | Raise e => Raise e
  end.

Declare Scope result_scope.
Delimit Scope result_scope with result.
Notation "x <- r ;; k" := (rbind r (fun x => k))
  (at level 61, r at next level, right associativity) : result_scope.

(** The objects [json.loads] builds (plus tuples, which [fetchone] returns);
    [F] carries the floats.  A [dict] keeps its insertion order. *)
#[warnings="-register-all"]
Inductive value (F : Type) : Type :=
| VNone
| VBool (b : bool)
| VInt (n : Z)
| VFloat (f : F)
| VStr (s : string)
| VList (l : list (value F))
| VTuple (l : list (value F))
| VDict (d : list (string * value F)).
Arguments VNone {F}.
Arguments VBool {F} b.
Arguments VInt {F} n.
Arguments VFloat {F} f.
Arguments VStr {F} s.
Arguments VList {F} l.
Arguments VTuple {F} l.
Arguments VDict {F} d.

(** What the source takes from Python itself: [float()], [int()], float
    comparison with an integer, and the [json] module.  [json_loads] raises
    [JSONDecodeError msg] on text that is not a JSON document. *)
Class PyLib : Type := {
  pyfloat : Type;
  fzero : pyfloat;                                  (* 0.0 *)
  float_of_int : Z -> result pyfloat;               (* float(n) *)
  float_of_str : string -> result pyfloat;          (* float(s) *)
  int_of_float : pyfloat -> result Z;               (* int(f) *)
  int_of_str : string -> result Z;                  (* int(s) *)
  float_eq_int : pyfloat -> Z -> bool;              (* f == n *)
  json_loads : string -> result (value pyfloat);    (* json.loads(s) *)
  json_dumps : value pyfloat -> string              (* json.dumps(v) *)
}.

Section Values.
Context {L : PyLib}.

Definition pyvalue : Type := value pyfloat.
Definition pydict : Type := list (string * pyvalue).

(** *** dict operations *)

Fixpoint dict_get (d : pydict) (k : string) : option pyvalue :=
  match d with
  | (k', v) :: d' => if String.eqb k' k then Some v else dict_get d' k
  | [] => None
  end.

Definition dict_has (d : pydict) (k : string) : bool :=
  match dict_get d k with Some _ => true | None => false end.

(** [d[k] = v]: an existing key keeps its place, a new one goes last. *)
Fixpoint dict_set (d : pydict) (k : string) (v : pyvalue) : pydict :=
  match d with
  | (k', v') :: d' =>
      if String.eqb k' k then (k', v) :: d' else (k', v') :: dict_set d' k v
  | [] => [(k, v)]
  end.

(** [obj.get(k, default)]; only a dict has [get]. *)
Definition py_get (obj : pyvalue) (k : string) (default : pyvalue)
  : result pyvalue :=
  match obj with
  | VDict d => Ok (match dict_get d k with Some v => v | None => default end)
  | _ => Raise AttributeError
  end.

Definition is_str_eq (k : string) (v : pyvalue) : bool :=
  match v with VStr s => String.eqb s k | _ => false end.

(** [k in obj] for a string [k]. *)
Definition py_in (k : string) (obj : pyvalue) : result bool :=
  match obj with
  | VDict d => Ok (dict_has d k)
  | VList l | VTuple l => Ok (existsb (is_str_eq k) l)
  | VStr s => Ok (PyStr.contains s k)
  | _ => Raise TypeError
  end.

(** [obj[k] = v] for a string [k]. *)
Definition py_setitem (obj : pyvalue) (k : string) (v : pyvalue)
  : result pyvalue :=
  match obj with
  | VDict d => Ok (VDict (dict_set d k v))
  | _ => Raise TypeError
  end.

(** *** builtins *)

Definition Z_of_bool (b : bool) : Z := if b then 1 else 0.

(** [v == n] for an integer [n]. *)
Definition py_eq_int (v : pyvalue) (n : Z) : bool :=
  match v with
  | VInt m => m =? n
  | VBool b => Z_of_bool b =? n
  | VFloat f => float_eq_int f n
  | _ => false
  end.

(** [bool(v)]. *)
Definition py_truthy (v : pyvalue) : bool :=
  match v with
  | VNone => false
  | VBool b => b
  | VInt n => negb (n =? 0)
  | VFloat f => negb (float_eq_int f 0)
  | VStr s => negb (String.eqb s "")
  | VList l | VTuple l => match l with [] => false | _ => true end
  | VDict d => match d with [] => false | _ => true end
  end.

(** [float(v)]. *)
Definition py_float (v : pyvalue) : result pyfloat :=
  match v with
  | VFloat f => Ok f
  | VInt n => float_of_int n
  | VBool b => float_of_int (Z_of_bool b)
  | VStr s => float_of_str s
  | _ => Raise TypeError
  end.

(** [int(v)]. *)
Definition py_int (v : pyvalue) : result Z :=
  match v with
  | VInt n => Ok n
  | VBool b => Ok (Z_of_bool b)
  | VFloat f => int_of_float f
  | VStr s => int_of_str s
  | _ => Raise TypeError
  end.

(** [len(v)]. *)
Definition py_len (v : pyvalue) : result Z :=
  match v with
  | VStr s => Ok (PyStr.len s)
  | VList l | VTuple l => Ok (Z.of_nat (List.length l))
  | VDict d => Ok (Z.of_nat (List.length d))
  | _ => Raise TypeError
  end.

(** The elements a [for] loop over [v] visits. *)
Definition py_iter (v : pyvalue) : result (list pyvalue) :=
  match v with
  | VList l | VTuple l => Ok l
  | VDict d => Ok (List.map (fun kv => VStr (fst kv)) d)
  | VStr s => Ok (List.map VStr (PyStr.chars s))
  | _ => Raise TypeError
  end.

(** [v[:n]]. *)
Definition py_slice_to (v : pyvalue) (n : Z) : result pyvalue :=
  match v with
  | VStr s => Ok (VStr (PyStr.slice_to s n))
  | VList l => Ok (VList (firstn (Z.to_nat (PyStr.clamp (Z.of_nat (List.length l)) n)) l))
  | VTuple l => Ok (VTuple (firstn (Z.to_nat (PyStr.clamp (Z.of_nat (List.length l)) n)) l))
  | _ => Raise TypeError
  end.

End Values.

(** ** The Response Normalizer: [nvidia_ocr.parse_ocr_response] *)
Section Normalizer.
Context {L : PyLib}.
Local Open Scope result_scope.

Definition default_structure : pydict :=
  [ ("vendor", VDict [("name", VStr ""); ("address", VStr "");
                      ("phone", VStr ""); ("email", VStr "")]);
    ("order_details", VDict [("invoice_number", VStr ""); ("invoice_date", VStr "");
                             ("due_date", VStr ""); ("po_number", VStr "")]);
    ("items", VList []);
    ("payment_details", VDict [("subtotal", VFloat fzero); ("tax", VFloat fzero);
                               ("total", VFloat fzero); ("currency", VStr "USD")]) ].

(** [for key in default_structure: if key not in parsed_data:
      parsed_data[key] = default_structure[key]] *)
Fixpoint merge_defaults (defaults : pydict) (parsed_data : pyvalue)
  : result pyvalue :=
  match defaults with
  | (key, dflt) :: rest =>
      present <- py_in key parsed_data ;;
      if present then merge_defaults rest parsed_data
      else parsed_data' <- py_setitem parsed_data key dflt ;;
           merge_defaults rest parsed_data'
  | [] => Ok parsed_data
  end.

(** The text after [strip()] and the removal of the code-fence markers. *)
Definition clean_response (response_text : string) : string :=
  let response_text := PyStr.strip response_text in
  if PyStr.startswith response_text "```json" then
    PyStr.strip (PyStr.replace (PyStr.replace response_text "```json" "") "```" "")
  else if PyStr.startswith response_text "```" then
    PyStr.strip (PyStr.replace response_text "```" "")
  else response_text.

(** The record of the [else] branch: no JSON found. *)
Definition no_json_record (response_text : string) : pyvalue :=
  VDict [ ("raw_response", VStr response_text);
          ("vendor", VDict [("name", VStr "Unknown")]);
          ("order_details", VDict []);
          ("items", VList []);
          ("payment_details", VDict []) ].

(** The record of the [except json.JSONDecodeError] handler. *)
Definition parse_error_record (msg response_text : string) : pyvalue :=
  VDict [ ("error", VStr ("Failed to parse JSON: " ++ msg));
          ("raw_response", VStr (PyStr.slice_to response_text 1000));
          ("vendor", VDict [("name", VStr "Parse Error")]);
          ("order_details", VDict []);
          ("items", VList []);
          ("payment_details", VDict []) ].

(** The body of [parse_ocr_response] once [response_text] is a [str]
    (the diagnostic prints of the handler are left out). *)
Definition parse_text (response_text : string) : result pyvalue :=
  let response_text := clean_response response_text in
  let start_idx := PyStr.find response_text "{" in
  let end_idx := PyStr.rfind response_text "}" + 1 in
  if negb (start_idx =? -1) && (end_idx >? start_idx) then
    let json_str := PyStr.slice response_text start_idx end_idx in
    match json_loads json_str with
    | Ok parsed_data => merge_defaults default_structure parsed_data
    | Raise (JSONDecodeError msg) => Ok (parse_error_record msg response_text)
    | Raise e => Raise e
    end
  else Ok (no_json_record response_text).

(** [parse_ocr_response(response_text)]: anything but a [str] has no
    [strip] method. *)
Definition parse_ocr_response (response_text : pyvalue) : result pyvalue :=
  match response_text with
  | VStr s => parse_text s
  | _ => Raise AttributeError
  end.

End Normalizer.

(** ** Stateful code: state and exceptions

    A Python function that mutates objects and may raise is a function from
    the state to an outcome and the state it leaves behind: what was done
    before an exception stays done. *)
Definition M (S A : Type) : Type := S -> result A * S.

Definition ret {S A} (a : A) : M S A := fun s => (Ok a, s).

Definition bind {S A B} (m : M S A) (k : A -> M S B) : M S B :=
  fun s => match m s with
           | (Ok a, s') => k a s'
           | (Raise e, s') => (Raise e, s')
           end.

Definition raise {S A} (e : exn) : M S A := fun s => (Raise e, s).

Definition lift {S A} (r : result A) : M S A := fun s => (r, s).

(** [try: body  except Exception as e: handler(e)] *)
Definition try_except {S A} (body : M S A) (handler : exn -> M S A) : M S A :=
  fun s => match body s with
           | (Ok a, s') => (Ok a, s')
           | (Raise e, s') => handler e s'
           end.

(** [try: body  finally: cleanup] *)
Definition try_finally {S A} (body : M S A) (cleanup : M S unit) : M S A :=
  fun s => match body s with
           | (r, s') => match cleanup s' with
                        | (Ok _, s'') => (r, s'')
                        | (Raise e, s'') => (Raise e, s'')
                        end
           end.

Definition get {S} : M S S := fun s => (Ok s, s).
Definition modify {S} (f : S -> S) : M S unit := fun s => (Ok tt, f s).

(** Run a computation on the first component of a pair of states. *)
Definition on_fst {S T A} (m : M S A) : M (S * T) A :=
  fun st => match m (fst st) with (r, s') => (r, (s', snd st)) end.

Declare Scope prog_scope.
Delimit Scope prog_scope with prog.
Notation "x <- m ;; k" := (bind m (fun x => k))
  (at level 61, m at next level, right associativity) : prog_scope.
Notation "m ;; k" := (bind m (fun _ => k))
  (at level 61, right associativity) : prog_scope.

(** ** The sqlite connection ([db.py] and the [sqlite3] module) *)
Section Database.
Context {L : PyLib}.

(** A stored or bound SQL value. *)
Inductive sqlval : Type :=
| SqlNull
| SqlInt (n : Z)
| SqlReal (f : pyfloat)
| SqlText (s : string).

(** A row of [documents]; [created_at] (the clock) is left out.  A column
    holds the value that was bound to it. *)
Record document_row : Type := mk_document {
  doc_id : Z;
  vendor_name : sqlval;
  vendor_address : sqlval;
  vendor_phone : sqlval;
  vendor_email : sqlval;
  invoice_number : sqlval;
  invoice_date : sqlval;
  due_date : sqlval;
  po_number : sqlval;
  subtotal : sqlval;
  tax : sqlval;
  total : sqlval;
  currency : sqlval;
  raw_data : sqlval
}.

(** A row of [items]. *)
Record item_row : Type := mk_item {
  item_id : Z;
  document_id : sqlval;
  description : sqlval;
  quantity : sqlval;
  unit_price : sqlval;
  amount : sqlval
}.

(** The two tables with their AUTOINCREMENT counters (the highest id ever
    given out, kept in [sqlite_sequence] and so part of the transaction). *)
Record tables : Type := mk_tables {
  documents : list document_row;
  items : list item_row;
  documents_seq : Z;
  items_seq : Z
}.

(** A connection: what is committed (and so what every other connection
    reads) and what this connection sees, its open transaction included. *)
Record connection : Type := mk_connection {
  committed : tables;
  working : tables
}.

Definition int64_range (n : Z) : bool :=
  (- 2 ^ 63 <=? n) && (n <? 2 ^ 63).

(** Binding one parameter of [cursor.execute]: [sqlite3] takes [None],
    [int] (64 bits; [bool] is an [int]), [float] and [str]. *)
Definition bind_param (v : pyvalue) : result sqlval :=
  match v with
  | VNone => Ok SqlNull
  | VBool b => Ok (SqlInt (Z_of_bool b))
  | VInt n => if int64_range n then Ok (SqlInt n) else Raise OverflowError
  | VFloat f => Ok (SqlReal f)
  | VStr s => Ok (SqlText s)
  | VList _ | VTuple _ | VDict _ => Raise SqliteError
  end.

Fixpoint bind_params (vs : list pyvalue) : result (list sqlval) :=
  match vs with
  | v :: vs' =>
      rbind (bind_param v) (fun x =>
      rbind (bind_params vs') (fun xs => Ok (x :: xs)))
  | [] => Ok []
  end.

Definition set_working (t : tables) (c : connection) : connection :=
  mk_connection (committed c) t.

(** [INSERT INTO documents (vendor_name, ..., raw_data) VALUES (?, ...)];
    returns [cursor.lastrowid]. *)
Definition insert_document (params : list pyvalue) : M connection Z :=
  fun c =>
    match bind_params params with
    | Ok [vn; va; vp; ve; inn; idt; dd; po; sb; tx; tl; cu; rd] =>
        let t := working c in
        let id := documents_seq t + 1 in
        let row := mk_document id vn va vp ve inn idt dd po sb tx tl cu rd in
        (Ok id, set_working (mk_tables (documents t ++ [row]) (items t)
                               id (items_seq t)) c)
    | Ok _ => (Raise SqliteError, c)
    | Raise e => (Raise e, c)
    end.

(** [INSERT INTO items (document_id, description, quantity, unit_price,
    amount) VALUES (?, ?, ?, ?, ?)]. *)
Definition insert_item (params : list pyvalue) : M connection unit :=
  fun c =>
    match bind_params params with
    | Ok [di; de; qu; up; am] =>
        let t := working c in
        let id := items_seq t + 1 in
        let row := mk_item id di de qu up am in
        (Ok tt, set_working (mk_tables (documents t) (items t ++ [row])
                               (documents_seq t) id) c)
    | Ok _ => (Raise SqliteError, c)
    | Raise e => (Raise e, c)
    end.

Definition sqlval_is_int (n : Z) (x : sqlval) : bool :=
  match x with SqlInt m => m =? n | _ => false end.

(** The rows of [items] whose [document_id] is [id]. *)
Definition items_of (id : Z) (t : tables) : list item_row :=
  filter (fun r => sqlval_is_int id (document_id r)) (items t).

(** [SELECT COUNT( * ) FROM items WHERE document_id = ?] on a table state. *)
Definition count_items (id : Z) (t : tables) : Z :=
  Z.of_nat (List.length (items_of id t)).

(** The same query through the cursor, followed by [fetchone()]: the row
    comes back as a tuple. *)
Definition select_count_items (id : Z) : M connection pyvalue :=
  fun c => (Ok (VTuple [VInt (count_items id (working c))]), c).

(** [conn.commit()] *)
Definition commit : M connection unit :=
  modify (fun c => mk_connection (working c) (working c)).

(** [conn.rollback()] *)
Definition rollback : M connection unit :=
  modify (fun c => mk_connection (committed c) (committed c)).

(** [conn.close()]: an open transaction is discarded. *)
Definition close : M connection unit := rollback.

Definition empty_tables : tables := mk_tables [] [] 0 0.

(** An item row refers to a document id that has been given out. *)
Definition item_ref_ok (seq : Z) (r : item_row) : bool :=
  match document_id r with
  | SqlInt m => m <=? seq
  | _ => true
  end.

(** The tables as the two insert statements leave them from the empty
    tables on, with room for one more document id. *)
Definition tables_ok (t : tables) : Prop :=
  0 <= documents_seq t < 2 ^ 63 - 1
  /\ forallb (item_ref_ok (documents_seq t)) (items t) = true.

End Database.

(** ** The Persistence Mapper: [nvidia_ocr.save_ocr_to_db],
    [streamlit_app.save_invoice_to_db] and the fallback of [process_image] *)
Section Persistence.
Context {L : PyLib}.
Local Open Scope prog_scope.

(** What [save_ocr_to_db] prints, one constructor per [print]. *)
Inductive line : Type :=
| InsertedDocument (doc_id : Z)
| FoundItems (n : Z)
| ItemsData (items : pyvalue)
| SkippingEmptyItem
| InsertedItem (label : pyvalue)
| FailedToInsertItem (e : exn)
| ItemData (item : pyvalue)
| Committed (items_inserted doc_id : Z)
| Verified (saved_items_count : pyvalue) (doc_id : Z)
| Warning (items_inserted : Z) (saved_items_count : pyvalue).

(** The connection passed in and the standard output. *)
Record world : Type := mk_world {
  conn : connection;
  stdout : list line
}.

Definition on_conn {A} (m : M connection A) : M world A :=
  fun w => match m (conn w) with
           | (r, c') => (r, mk_world c' (stdout w))
           end.

Definition print (l : line) : M world unit :=
  modify (fun w => mk_world (conn w) (stdout w ++ [l])).

Fixpoint for_each {S A} (xs : list A) (body : A -> M S unit) : M S unit :=
  match xs with
  | x :: xs' => body x ;; for_each xs' body
  | [] => ret tt
  end.

(** Run [m] with one more local variable, initially [init]; its final
    value is returned with the result. *)
Definition with_local {S T A} (init : T) (m : M (S * T) A) : M S (A * T) :=
  fun s => match m (s, init) with
           | (Ok a, (s', t)) => (Ok (a, t), s')
           | (Raise e, (s', _)) => (Raise e, s')
           end.

(** [float(d.get(k, default))] *)
Definition get_float (d : pyvalue) (k : string) (default : pyvalue)
  : result pyfloat :=
  rbind (py_get d k default) py_float.

(** One turn of the [for item in items] loop of [save_ocr_to_db]; the
    local variable is [items_inserted]. *)
Definition save_item (doc_id : Z) (item : pyvalue) : M (world * Z) unit :=
  try_except
    (description <- lift (py_get item "description" (VStr "")) ;;
     quantity <- lift (py_get item "quantity" (VInt 0)) ;;
     unit_price <- lift (py_get item "unit_price" (VFloat fzero)) ;;
     amount <- lift (py_get item "amount" (VFloat fzero)) ;;
     if negb (py_truthy description) && py_eq_int quantity 0 then
       on_fst (print SkippingEmptyItem)
     else
       q <- lift (py_int quantity) ;;
       up <- lift (py_float unit_price) ;;
       am <- lift (py_float amount) ;;
       on_fst (on_conn (insert_item
         [VInt doc_id; description; VInt q; VFloat up; VFloat am])) ;;
       modify (fun st => (fst st, snd st + 1)) ;;
       label <- lift (if py_truthy description
                      then py_slice_to description 50
                      else Ok (VStr "Unnamed item")) ;;
       on_fst (print (InsertedItem label)))
    (fun e =>
       on_fst (print (FailedToInsertItem e)) ;;
       on_fst (print (ItemData item))).

Definition save_ocr_to_db (ocr_result : pyvalue) : M world Z :=
  vendor <- lift (py_get ocr_result "vendor" (VDict [])) ;;
  vendor_name <- lift (py_get vendor "name" (VStr "Unknown")) ;;
  vendor_address <- lift (py_get vendor "address" (VStr "")) ;;
  vendor_phone <- lift (py_get vendor "phone" (VStr "")) ;;
  vendor_email <- lift (py_get vendor "email" (VStr "")) ;;
  order_details <- lift (py_get ocr_result "order_details" (VDict [])) ;;
  invoice_number <- lift (py_get order_details "invoice_number" (VStr "")) ;;
  invoice_date <- lift (py_get order_details "invoice_date" (VStr "")) ;;
  due_date <- lift (py_get order_details "due_date" (VStr "")) ;;
  po_number <- lift (py_get order_details "po_number" (VStr "")) ;;
  payment_details <- lift (py_get ocr_result "payment_details" (VDict [])) ;;
  subtotal <- lift (get_float payment_details "subtotal" (VFloat fzero)) ;;
  tax <- lift (get_float payment_details "tax" (VFloat fzero)) ;;
  total <- lift (get_float payment_details "total" (VFloat fzero)) ;;
  currency <- lift (py_get payment_details "currency" (VStr "USD")) ;;
  doc_id <- on_conn (insert_document
    [vendor_name; vendor_address; vendor_phone; vendor_email;
     invoice_number; invoice_date; due_date; po_number;
     VFloat subtotal; VFloat tax; VFloat total; currency;
     VStr (json_dumps ocr_result)]) ;;
  print (InsertedDocument doc_id) ;;
  items <- lift (py_get ocr_result "items" (VList [])) ;;
  n <- lift (py_len items) ;;
  print (FoundItems n) ;;
  print (ItemsData items) ;;
  elems <- lift (py_iter items) ;;
  r <- with_local 0 (for_each elems (save_item doc_id)) ;;
  let items_inserted := snd r in
  on_conn commit ;;
  print (Committed items_inserted doc_id) ;;
  saved_items_count <- on_conn (select_count_items doc_id) ;;
  print (Verified saved_items_count doc_id) ;;
  (if negb (py_eq_int saved_items_count items_inserted)
   then print (Warning items_inserted saved_items_count)
   else ret tt) ;;
  ret doc_id.

(** One turn of the loop of [save_invoice_to_db]. *)
Definition save_invoice_item (doc_id : Z) (item : pyvalue) : M world unit :=
  description <- lift (py_get item "description" (VStr "")) ;;
  quantity <- lift (rbind (py_get item "quantity" (VInt 0)) py_int) ;;
  unit_price <- lift (get_float item "unit_price" (VInt 0)) ;;
  amount <- lift (get_float item "amount" (VInt 0)) ;;
  on_conn (insert_item
    [VInt doc_id; description; VInt quantity; VFloat unit_price;
     VFloat amount]).

Definition save_invoice_to_db (ocr_result : pyvalue) : M world Z :=
  try_except
    (vendor <- lift (py_get ocr_result "vendor" (VDict [])) ;;
     vendor_name <- lift (py_get vendor "name" (VStr "")) ;;
     vendor_address <- lift (py_get vendor "address" (VStr "")) ;;
     vendor_phone <- lift (py_get vendor "phone" (VStr "")) ;;
     vendor_email <- lift (py_get vendor "email" (VStr "")) ;;
     order <- lift (py_get ocr_result "order_details" (VDict [])) ;;
     invoice_number <- lift (py_get order "invoice_number" (VStr "")) ;;
     invoice_date <- lift (py_get order "invoice_date" (VStr "")) ;;
     due_date <- lift (py_get order "due_date" (VStr "")) ;;
     po_number <- lift (py_get order "po_number" (VStr "")) ;;
     payment <- lift (py_get ocr_result "payment_details" (VDict [])) ;;
     subtotal <- lift (get_float payment "subtotal" (VInt 0)) ;;
     tax <- lift (get_float payment "tax" (VInt 0)) ;;
     total <- lift (get_float payment "total" (VInt 0)) ;;
     currency <- lift (py_get payment "currency" (VStr "USD")) ;;
     let raw_data := json_dumps ocr_result in
     doc_id <- on_conn (insert_document
       [vendor_name; vendor_address; vendor_phone; vendor_email;
        invoice_number; invoice_date; due_date; po_number;
        VFloat subtotal; VFloat tax; VFloat total; currency;
        VStr raw_data]) ;;
     items <- lift (py_get ocr_result "items" (VList [])) ;;
     elems <- lift (py_iter items) ;;
     for_each elems (save_invoice_item doc_id) ;;
     on_conn commit ;;
     ret doc_id)
    (fun e =>
       on_conn rollback ;;
       raise (Exception "Database save failed: " e)).

(** The database step of [process_image]:
    [try: try: save_ocr_to_db  except: save_invoice_to_db
     finally: conn.close()]. *)
Definition process_image_save (ocr_result : pyvalue) : M world Z :=
  try_finally
    (try_except (save_ocr_to_db ocr_result)
                (fun _ => save_invoice_to_db ocr_result))
    (on_conn close).

(** [get_db_connection()] on a database file holding [t]. *)
Definition open_world (t : tables) : world :=
  mk_world (mk_connection t t) [].

End Persistence.

(** ** The Extraction Adapter: [nvidia_ocr.generate], and the upload boundary

    The file system, base64 and the vision model are capabilities of the
    environment; the state is the list of calls made to them. *)
Section Extraction.
Context {L : PyLib}.
Local Open Scope prog_scope.

(** The [HumanMessage]: the fixed instruction and the image URL. *)
Record message : Type := mk_message {
  image_format : string;
  image_url : string
}.

Inductive call : Type :=
| CreateModel (model : string)
| ReadFile (path : string)
| Invoke (m : message).

Variable read_file : string -> result string.
Variable b64encode : string -> string.
Variable llm_invoke : message -> result pyvalue.

Definition record_call (c : call) : M (list call) unit :=
  modify (fun tr => (tr ++ [c])%list).

(** [encode_image_to_base64(image_path)] *)
Definition encode_image_to_base64 (image_path : string)
  : M (list call) string :=
  record_call (ReadFile image_path) ;;
  bytes <- lift (read_file image_path) ;;
  ret (b64encode bytes).

Definition unsupported_format : exn :=
  ValueError "Unsupported image format. Use JPG, JPEG, or PNG".

Definition generate (image_path : string) : M (list call) pyvalue :=
  try_except
    (record_call (CreateModel "meta/llama-3.2-90b-vision-instruct") ;;
     base64_image <- encode_image_to_base64 image_path ;;
     image_format <-
       (if PyStr.endswith (PyStr.lower image_path) ".jpg"
           || PyStr.endswith (PyStr.lower image_path) ".jpeg"
        then ret "jpeg"
        else if PyStr.endswith (PyStr.lower image_path) ".png"
        then ret "png"
        else raise unsupported_format) ;;
     let message :=
       mk_message image_format
         ("data:image/" ++ image_format ++ ";base64," ++ base64_image) in
     record_call (Invoke message) ;;
     content <- lift (llm_invoke message) ;;
     ocr_result <- lift (parse_ocr_response content) ;;
     ret ocr_result)
    (fun e => raise (Exception "Failed to process image with NVIDIA NIM: " e)).

(** The [type] list of [st.file_uploader] in [main]. *)
Definition uploader_types : list string := ["png"; "jpg"; "jpeg"; "pdf"].

(** The widget keeps a file whose extension, lower-cased, is one of
    [types]. *)
Definition file_uploader_accepts (types : list string) (name : string)
  : bool :=
  existsb (fun t => PyStr.endswith (PyStr.lower name) ("." ++ t)) types.

(** From the upload widget to the adapter: [main] hands an accepted file
    to [process_image], which stores it under [uploads/] and calls
    [generate] on its absolute path.  [None]: the widget refused it. *)
Definition upload_and_extract (cwd name : string)
  : option (M (list call) pyvalue) :=
  if file_uploader_accepts uploader_types name
  then Some (generate (cwd ++ "/uploads/" ++ name))
  else None.

End Extraction.

(** ** The NL2SQL Translator: [nat_sql_nvidia.NL2SQLConverter.convert] *)
Section Translator.
Context {L : PyLib}.

(** The chat model under the fixed system prompt: question to
    [response.content]. *)
Variable chat_invoke : string -> result pyvalue.

(** [content.strip()] then
    [sql.replace("```sql", "").replace("```", "").strip()]. *)
Definition clean_sql (content : string) : string :=
  let sql := PyStr.strip content in
  PyStr.strip (PyStr.replace (PyStr.replace sql "```sql" "") "```" "").

(** The clean-up and the [SELECT] check on a [str] content. *)
Definition check_sql (content : string) : result string :=
  let sql := clean_sql content in
  if negb (PyStr.startswith (PyStr.upper sql) "SELECT")
  then Raise (ValueError ("Generated query doesn't start with SELECT: " ++ sql))
  else Ok sql.

Definition convert (question : string) : result string :=
  match rbind (chat_invoke question)
              (fun content =>
                 match content with
                 | VStr c => check_sql c
                 | _ => Raise AttributeError
                 end) with
  | Ok sql => Ok sql
  | Raise e => Raise (Exception "Failed to convert question to SQL: " e)
  end.

End Translator.

(** ** The Query Safety Filter: the join clean-up of
    [streamlit_app.execute_nl_query] *)

Definition explicit_columns : string :=
  "SELECT items.id as item_id, items.description, items.quantity, items.unit_price, items.amount, documents.vendor_name, documents.invoice_number, documents.invoice_date, documents.total".

(** The test that guards the rewrite. *)
Definition join_wildcard (sql : string) : bool :=
  PyStr.contains (PyStr.upper sql) "JOIN"
  && PyStr.contains (PyStr.upper sql) "SELECT *"
  && (PyStr.contains (PyStr.lower sql) "items"
      && PyStr.contains (PyStr.lower sql) "documents").

Definition sanitize (sql : string) : string :=
  if PyStr.contains (PyStr.upper sql) "JOIN"
     && PyStr.contains (PyStr.upper sql) "SELECT *"
  then if PyStr.contains (PyStr.lower sql) "items"
          && PyStr.contains (PyStr.lower sql) "documents"
       then PyStr.replace sql "SELECT *" explicit_columns
       else sql
  else sql.

(** ** A reference instance of [PyLib]

    Used to run the model on concrete inputs.  Floats are exact decimals
    [mant / 10 ^ scale] here, and [loads] reads the JSON grammar without
    exponents, [NaN] and [Infinity]; the theorems below are stated for every
    [PyLib]. *)
Module Ref.

Record dec : Type := mk_dec { mant : Z; scale : nat }.

Definition digit (c : ascii) : option Z :=
  let n := Z.of_nat (nat_of_ascii c) in
  if (48 <=? n) && (n <=? 57) then Some (n - 48) else None.

(** Leading digits of [s]: their value after [acc], how many, and the rest. *)
Fixpoint take_digits (s : string) (acc : Z) (n : nat) : Z * nat * string :=
  match s with
  | String c s' =>
      match digit c with
      | Some d => take_digits s' (acc * 10 + d) (S n)
      | None => (acc, n, s)
      end
  | EmptyString => (acc, n, s)
  end.

(** Drop the trailing zeros of the fraction. *)
Fixpoint normalize (m : Z) (k : nat) : dec :=
  match k with
  | S k' => if m mod 10 =? 0 then normalize (m / 10) k' else mk_dec m k
  | O => mk_dec m O
  end.

(** An unsigned number: [inl n] for an integer, [inr d] with a fraction. *)
Definition unsigned_number (s : string) : option ((Z + dec) * string) :=
  match take_digits s 0 0 with
  | (_, O, _) => None
  | (i, S _, String "." r) =>
      match take_digits r i 0 with
      | (_, O, _) => None
      | (m, S k, r') => Some (inr (normalize m (S k)), r')
      end
  | (i, S _, r) => Some (inl i, r)
  end.

Definition negate (x : Z + dec) : Z + dec :=
  match x with
  | inl n => inl (- n)
  | inr d => inr (mk_dec (- mant d) (scale d))
  end.

Definition signed_number (s : string) : option ((Z + dec) * string) :=
  match s with
  | String "-" r => option_map (fun p => (negate (fst p), snd p)) (unsigned_number r)
  | _ => unsigned_number s
  end.

Definition float_of_int (n : Z) : result dec := Ok (mk_dec n 0).

Definition float_of_str (s : string) : result dec :=
  match signed_number (PyStr.strip s) with
  | Some (inl n, EmptyString) => Ok (mk_dec n 0)
  | Some (inr d, EmptyString) => Ok d
  | _ => Raise (ValueError "could not convert string to float")
  end.

Definition int_of_float (d : dec) : result Z :=
  Ok (Z.quot (mant d) (10 ^ Z.of_nat (scale d))).

Definition int_of_str (s : string) : result Z :=
  match signed_number (PyStr.strip s) with
  | Some (inl n, EmptyString) => Ok n
  | _ => Raise (ValueError "invalid literal for int() with base 10")
  end.

Definition float_eq_int (d : dec) (n : Z) : bool :=
  mant d =? n * 10 ^ Z.of_nat (scale d).

(** *** Reading JSON *)

Definition json_ws (c : ascii) : bool :=
  let n := Z.of_nat (nat_of_ascii c) in
  (n =? 32) || (n =? 9) || (n =? 10) || (n =? 13).

Fixpoint skip_ws (s : string) : string :=
  match s with
  | String c s' => if json_ws c then skip_ws s' else s
  | EmptyString => EmptyString
  end.

(** The characters of a string literal after its opening quote. *)
Fixpoint string_body (s : string) : option (string * string) :=
  match s with
  | String "034" r => Some (EmptyString, r)
  | String "\" (String e r) =>
      let unescaped :=
        match e with
        | "034"%char | "\"%char | "/"%char => Some e
        | "n"%char => Some "010"%char
        | "t"%char => Some "009"%char
        | "r"%char => Some "013"%char
        | "b"%char => Some "008"%char
        | "f"%char => Some "012"%char
        | _ => None
        end in
      match unescaped, string_body r with
      | Some c, Some (body, r') => Some (String c body, r')
      | _, _ => None
      end
  | String c r =>
      if (nat_of_ascii c <? 32)%nat then None
      else match string_body r with
           | Some (body, r') => Some (String c body, r')
           | None => None
           end
  | EmptyString => None
  end.

Definition of_number (x : Z + dec) : value dec :=
  match x with inl n => VInt n | inr d => VFloat d end.

Fixpoint set_key (d : list (string * value dec)) (k : string) (v : value dec)
  : list (string * value dec) :=
  match d with
  | (k', v') :: d' =>
      if String.eqb k' k then (k', v) :: d' else (k', v') :: set_key d' k v
  | [] => [(k, v)]
  end.

Fixpoint parse_value (fuel : nat) (s : string) : option (value dec * string) :=
  match fuel with
  | O => None
  | S fuel' =>
      match skip_ws s with
      | String "{" r =>
          match skip_ws r with
          | String "}" r' => Some (VDict [], r')
          | r1 => parse_members fuel' r1 []
          end
      | String "[" r =>
          match skip_ws r with
          | String "]" r' => Some (VList [], r')
          | r1 => parse_elems fuel' r1 []
          end
      | String "034" r =>
          option_map (fun p => (VStr (fst p), snd p)) (string_body r)
      | String "t" (String "r" (String "u" (String "e" r))) =>
          Some (VBool true, r)
      | String "f" (String "a" (String "l" (String "s" (String "e" r)))) =>
          Some (VBool false, r)
      | String "n" (String "u" (String "l" (String "l" r))) =>
          Some (VNone, r)
      | s1 => option_map (fun p => (of_number (fst p), snd p)) (signed_number s1)
      end
  end
with parse_elems (fuel : nat) (s : string) (acc : list (value dec))
  : option (value dec * string) :=
  match fuel with
  | O => None
  | S fuel' =>
      match parse_value fuel' s with
      | Some (v, r) =>
          match skip_ws r with
          | String "," r' => parse_elems fuel' r' (acc ++ [v])
          | String "]" r' => Some (VList (acc ++ [v]), r')
          | _ => None
          end
      | None => None
      end
  end
with parse_members (fuel : nat) (s : string) (acc : list (string * value dec))
  : option (value dec * string) :=
  match fuel with
  | O => None
  | S fuel' =>
      match skip_ws s with
      | String "034" r =>
          match string_body r with
          | Some (key, r1) =>
              match skip_ws r1 with
              | String ":" r2 =>
                  match parse_value fuel' r2 with
                  | Some (v, r3) =>
                      match skip_ws r3 with
                      | String "," r4 => parse_members fuel' r4 (set_key acc key v)
                      | String "}" r4 => Some (VDict (set_key acc key v), r4)
                      | _ => None
                      end
                  | None => None
                  end
              | _ => None
              end
          | None => None
          end
      | _ => None
      end
  end.

Definition loads (s : string) : result (value dec) :=
  match parse_value (2 * String.length s + 2) s with
  | Some (v, r) =>
      match skip_ws r with
      | EmptyString => Ok v
      | _ => Raise (JSONDecodeError "Extra data")
      end
  | None => Raise (JSONDecodeError "Expecting value")
  end.

End Ref.

Module RefDumps.
Import Ref.

Definition digit_char (d : Z) : ascii := ascii_of_nat (48 + Z.to_nat d).

(** The decimal digits of [n >= 0], at least [width] of them. *)
Fixpoint digits (fuel : nat) (width : nat) (n : Z) (acc : string) : string :=
  match fuel with
  | O => acc
  | S fuel' =>
      let acc' := String (digit_char (n mod 10)) acc in
      match width with
      | S (S w) => digits fuel' (S w) (n / 10) acc'
      | _ => if n / 10 =? 0 then acc' else digits fuel' width (n / 10) acc'
      end
  end.

Definition nat_digits (width : nat) (n : Z) : string :=
  digits (S (Z.to_nat (Z.log2 n)) + width) width n EmptyString.

Definition str_of_int (n : Z) : string :=
  if n <? 0 then "-" ++ nat_digits 1 (- n) else nat_digits 1 n.

(** [repr] of a decimal: always with a fraction, as Python prints floats. *)
Definition str_of_dec (d : dec) : string :=
  let p := 10 ^ Z.of_nat (scale d) in
  let a := Z.abs (mant d) in
  (if mant d <? 0 then "-" else "")
  ++ nat_digits 1 (a / p) ++ "."
  ++ match scale d with
     | O => "0"
     | S _ => nat_digits (scale d) (a mod p)
     end.

Definition hex_char (n : nat) : ascii :=
  if (n <? 10)%nat then ascii_of_nat (48 + n) else ascii_of_nat (87 + n).

Definition escape_char (c : ascii) : string :=
  let n := nat_of_ascii c in
  if (n =? 34)%nat then "\" ++ PyStr.dq
  else if (n =? 92)%nat then "\\"
  else if (n =? 10)%nat then "\n"
  else if (n =? 13)%nat then "\r"
  else if (n =? 9)%nat then "\t"
  else if ((n <? 32) || (126 <? n))%nat
  then "\u00" ++ String (hex_char (n / 16)) (String (hex_char (n mod 16)) "")
  else String c "".

Fixpoint escape (s : string) : string :=
  match s with
  | String c s' => escape_char c ++ escape s'
  | EmptyString => EmptyString
  end.

Definition quote (s : string) : string := PyStr.dq ++ escape s ++ PyStr.dq.

Fixpoint join (sep : string) (l : list string) : string :=
  match l with
  | [] => EmptyString
  | [x] => x
  | x :: l' => x ++ sep ++ join sep l'
  end.

Fixpoint dumps (v : value dec) : string :=
  match v with
  | VNone => "null"
  | VBool true => "true"
  | VBool false => "false"
  | VInt n => str_of_int n
  | VFloat d => str_of_dec d
  | VStr s => quote s
  | VList l | VTuple l => "[" ++ join ", " (List.map dumps l) ++ "]"
  | VDict d =>
      "{" ++ join ", " (List.map (fun kv => match kv with
                                            | (k, x) => quote k ++ ": " ++ dumps x
                                            end) d) ++ "}"
  end.

End RefDumps.

#[export] Instance ref_lib : PyLib := {|
  pyfloat := Ref.dec;
  fzero := Ref.mk_dec 0 0;
  float_of_int := Ref.float_of_int;
  float_of_str := Ref.float_of_str;
  int_of_float := Ref.int_of_float;
  int_of_str := Ref.int_of_str;
  float_eq_int := Ref.float_eq_int;
  json_loads := Ref.loads;
  json_dumps := RefDumps.dumps
|}.

(** The texts of the specification's examples ([q] is the double quote). *)
Module Sample.
Import PyStr.

Definition q (s : string) : string := dq ++ s ++ dq.

(** [```json\n{"vendor":{"name":"Acme"},"items":[{"description":"Widget",
    "quantity":2,"unit_price":5,"amount":10}]}\n```] *)
Definition fenced_invoice : string :=
  "```json" ++ nl
  ++ "{" ++ q "vendor" ++ ":{" ++ q "name" ++ ":" ++ q "Acme" ++ "},"
  ++ q "items" ++ ":[{" ++ q "description" ++ ":" ++ q "Widget" ++ ","
  ++ q "quantity" ++ ":2," ++ q "unit_price" ++ ":5," ++ q "amount" ++ ":10}]}"
  ++ nl ++ "```".

(** [Here is the SQL:\n```sql\nSELECT total FROM documents\n```] *)
Definition prose_fenced_sql : string :=
  "Here is the SQL:" ++ nl ++ "```sql" ++ nl
  ++ "SELECT total FROM documents" ++ nl ++ "```".

(** [```sql\nSELECT total FROM documents\n```] *)
Definition fenced_sql : string :=
  "```sql" ++ nl ++ "SELECT total FROM documents" ++ nl ++ "```".

(** [n] times the letter [x]. *)
Fixpoint xs (n : nat) : string :=
  match n with
  | S n' => String "x" (xs n')
  | O => EmptyString
  end.

Definition join_all : string :=
  "SELECT * FROM items JOIN documents ON items.document_id = documents.id".

Definition join_all_lower : string :=
  "select * from items join documents on items.document_id = documents.id".

End Sample.

(** ** What the specification speaks of *)
Section Statements.
Context {L : PyLib}.

(** What the source relies on from [json.loads]: it raises nothing but
    [JSONDecodeError], and a document that opens with a brace decodes to
    a [dict]. *)
Definition loads_contract : Prop :=
  (forall s e, json_loads s = Raise e -> exists msg, e = JSONDecodeError msg)
  /\ (forall s v, json_loads s = Ok v -> PyStr.startswith s "{" = true ->
                  exists d, v = VDict d).

(** [float(0)] is [0.0]. *)
Definition float_zero_contract : Prop := float_of_int 0 = Ok fzero.

Definition group_keys : list string :=
  ["vendor"; "order_details"; "items"; "payment_details"].

(** The four top-level group keys are present. *)
Definition has_groups (v : pyvalue) : bool :=
  match v with
  | VDict d => forallb (dict_has d) group_keys
  | _ => false
  end.




(** The [{...}] candidate of a cleaned text, when there is one. *)
Definition json_candidate (response_text : string) : option string :=
  let start_idx := PyStr.find response_text "{" in
  let end_idx := PyStr.rfind response_text "}" + 1 in
  if negb (start_idx =? -1) && (end_idx >? start_idx)
  then Some (PyStr.slice response_text start_idx end_idx)
  else None.

(** Normalisation degrades on [s]: no candidate, or the strict parse of
    the candidate fails. *)
Definition degrades (s : string) : Prop :=
  match json_candidate (clean_response s) with
  | None => True
  | Some c => exists msg, json_loads c = Raise (JSONDecodeError msg)
  end.

Definition field_of (v : pyvalue) (k : string) : option pyvalue :=
  match v with
  | VDict d => dict_get d k
  | _ => None
  end.


(** [raw_response] is the input cut to [bound] characters, on every input
    on which normalisation degrades. *)
Definition raw_response_is_bounded_input (bound : Z) : Prop :=
  forall s, degrades s ->
    exists r, parse_ocr_response (VStr s) = Ok r
              /\ field_of r "raw_response" = Some (VStr (PyStr.slice_to s bound)).



(** The shape of a degraded record for [s]. *)
Definition degraded_shape (s : string) : Prop :=
  exists d raw sentinel,
    parse_ocr_response (VStr s) = Ok (VDict d)
    /\ dict_get d "raw_response" = Some (VStr raw)
    /\ prefix raw (clean_response s) = true
    /\ dict_get d "vendor" = Some (VDict [("name", VStr sentinel)])
    /\ match json_candidate (clean_response s) with
       | None => sentinel = "Unknown"
       | Some _ =>
           sentinel = "Parse Error"
           /\ raw = PyStr.slice_to (clean_response s) 1000
           /\ PyStr.len raw <= 1000
       end.

End Statements.

(** The extension is one [generate] takes. *)
Definition supported_format (path : string) : bool :=
  PyStr.endswith (PyStr.lower path) ".jpg"
  || PyStr.endswith (PyStr.lower path) ".jpeg"
  || PyStr.endswith (PyStr.lower path) ".png".

(** Every upload with another extension is stopped before the adapter. *)
Definition rejected_before_adapter {L : PyLib} : Prop :=
  forall read_file b64encode llm_invoke cwd name,
    supported_format name = false ->
    upload_and_extract read_file b64encode llm_invoke cwd name = None.

(** What [generate] raises on a file it could open but does not take, and on
    one it could not open. *)
Definition rejection (read : result string) : exn :=
  Exception "Failed to process image with NVIDIA NIM: "
    match read with
    | Ok _ => unsupported_format
    | Raise e => e
    end.

(** The post-processing of the specification's example, as it states it. *)
Definition prose_example_passes : Prop :=
  clean_sql Sample.prose_fenced_sql = "SELECT total FROM documents"
  /\ check_sql Sample.prose_fenced_sql = Ok "SELECT total FROM documents".

Fixpoint has_char (c : ascii) (s : string) : bool :=
  match s with
  | String a s' => Ascii.eqb a c || has_char c s'
  | EmptyString => false
  end.

(** ** What the specification says of persistence *)
Section PersistenceStatements.
Context {L : PyLib}.

Definition converts {A} (r : result A) : bool :=
  match r with Ok _ => true | Raise _ => false end.

(** [d.get(k, default)] on the entries of a dict. *)
Definition get_or (d : pydict) (k : string) (default : pyvalue) : pyvalue :=
  match dict_get d k with Some v => v | None => default end.

(** The item is "(empty, 0)": no description and a zero quantity. *)
Definition item_is_empty (item : pyvalue) : bool :=
  match item with
  | VDict d =>
      negb (py_truthy (get_or d "description" (VStr "")))
      && py_eq_int (get_or d "quantity" (VInt 0)) 0
  | _ => false
  end.

(** The item can be stored: it is a dict, its quantity converts with
    [int()] to a 64-bit integer, its prices convert with [float()], and
    sqlite can bind its description. *)
Definition item_storable (item : pyvalue) : bool :=
  match item with
  | VDict d =>
      converts (bind_param (get_or d "description" (VStr "")))
      && converts (rbind (py_int (get_or d "quantity" (VInt 0)))
                         (fun q => bind_param (VInt q)))
      && converts (py_float (get_or d "unit_price" (VFloat fzero)))
      && converts (py_float (get_or d "amount" (VFloat fzero)))
  | _ => false
  end.

(** The items [save_ocr_to_db] inserts. *)
Definition item_saved (item : pyvalue) : bool :=
  negb (item_is_empty item) && item_storable item.

(** The parameters bound for a saved item. *)
Definition item_values (doc_id : Z) (item : pyvalue) : list pyvalue :=
  match item with
  | VDict d =>
      match py_int (get_or d "quantity" (VInt 0)),
            py_float (get_or d "unit_price" (VFloat fzero)),
            py_float (get_or d "amount" (VFloat fzero)) with
      | Ok q, Ok up, Ok am =>
          [VInt doc_id; get_or d "description" (VStr ""); VInt q; VFloat up;
           VFloat am]
      | _, _, _ => []
      end
  | _ => []
  end.

(** The effect of one turn of the loop of [save_ocr_to_db] on the
    connection. *)
Definition store_item (doc_id : Z) (c : connection) (item : pyvalue)
  : connection :=
  if item_saved item then snd (insert_item (item_values doc_id item) c) else c.

(** The parameters of the [documents] insert, with the default vendor
    name and the default amount of the path at hand. *)
Definition document_params (name_default zero ocr_result : pyvalue)
  : result (list pyvalue) :=
  (vendor <- py_get ocr_result "vendor" (VDict []) ;;
   vendor_name <- py_get vendor "name" name_default ;;
   vendor_address <- py_get vendor "address" (VStr "") ;;
   vendor_phone <- py_get vendor "phone" (VStr "") ;;
   vendor_email <- py_get vendor "email" (VStr "") ;;
   order_details <- py_get ocr_result "order_details" (VDict []) ;;
   invoice_number <- py_get order_details "invoice_number" (VStr "") ;;
   invoice_date <- py_get order_details "invoice_date" (VStr "") ;;
   due_date <- py_get order_details "due_date" (VStr "") ;;
   po_number <- py_get order_details "po_number" (VStr "") ;;
   payment_details <- py_get ocr_result "payment_details" (VDict []) ;;
   subtotal <- get_float payment_details "subtotal" zero ;;
   tax <- get_float payment_details "tax" zero ;;
   total <- get_float payment_details "total" zero ;;
   currency <- py_get payment_details "currency" (VStr "USD") ;;
   Ok [vendor_name; vendor_address; vendor_phone; vendor_email;
       invoice_number; invoice_date; due_date; po_number;
       VFloat subtotal; VFloat tax; VFloat total; currency;
       VStr (json_dumps ocr_result)])%result.

(** The connection after the loop of [save_ocr_to_db] and its commit. *)
Definition stored (doc_id : Z) (elems : list pyvalue) (c : connection)
  : connection :=
  let c' := fold_left (store_item doc_id) elems c in
  mk_connection (working c') (working c').

(** The elements of [record.items], as the loops visit them. *)
Definition items_of_record (ocr_result : pyvalue) : result (list pyvalue) :=
  rbind (py_get ocr_result "items" (VList [])) py_iter.

(** C3 as the specification states it: after [persist], the row count for
    the new id is the number of items that are not (empty, 0). *)
Definition count_is_nonempty_items : Prop :=
  forall ocr_result elems w id w',
    tables_ok (working (conn w)) ->
    items_of_record ocr_result = Ok elems ->
    save_ocr_to_db ocr_result w = (Ok id, w') ->
    count_items id (committed (conn w'))
    = Z.of_nat (List.length (filter (fun i => negb (item_is_empty i)) elems)).

(** C10 as stated: where both paths return, they leave the same tables. *)
Definition paths_equivalent : Prop :=
  forall ocr_result w id1 w1 id2 w2,
    save_ocr_to_db ocr_result w = (Ok id1, w1) ->
    save_invoice_to_db ocr_result w = (Ok id2, w2) ->
    committed (conn w1) = committed (conn w2).

(** The vendor group has a [name]. *)
Definition vendor_named (ocr_result : pyvalue) : bool :=
  match py_get ocr_result "vendor" (VDict []) with
  | Ok (VDict d) => dict_has d "name"
  | _ => false
  end.

End PersistenceStatements.

(** ** Invariants of the tables *)
Section TableInvariants.
Context {L : PyLib}.

(** No document id is beyond the counter. *)
Definition ids_bounded (t : tables) : bool :=
  forallb (fun d => doc_id d <=? documents_seq t) (documents t).

(** Every item row has a parent: its [document_id] is the id of a row of
    [documents]. *)
Definition referential (t : tables) : bool :=
  forallb (fun r => existsb (fun d => sqlval_is_int (doc_id d) (document_id r))
                            (documents t))
          (items t).

(** The tables as a sequence of saves leaves them. *)
Definition well_formed (t : tables) : Prop :=
  0 <= documents_seq t /\ ids_bounded t = true /\ referential t = true.

(** [record.get('vendor', {}).get('name', default)] *)
Definition vendor_name_of (ocr_result default : pyvalue) : result pyvalue :=
  rbind (py_get ocr_result "vendor" (VDict [])) (fun v => py_get v "name" default).

(** The row a degraded record is stored as. *)
Definition degraded_row (id : Z) (sentinel : string) (ocr_result : pyvalue)
  : document_row :=
  mk_document id (SqlText sentinel) (SqlText "") (SqlText "") (SqlText "")
    (SqlText "") (SqlText "") (SqlText "") (SqlText "")
    (SqlReal fzero) (SqlReal fzero) (SqlReal fzero) (SqlText "USD")
    (SqlText (json_dumps ocr_result)).

End TableInvariants.

(** ** Shapes of normalised records *)
Section RecordShapes.
Context {L : PyLib}.

(** The default groups that [parsed] lacks, in the order of the defaults. *)
Definition missing_defaults (parsed : pydict) : pydict :=
  filter (fun kv => negb (dict_has parsed (fst kv))) default_structure.

End RecordShapes.

(** ** What a caller of [generate] can rely on *)

(** The MIME subtype [generate] writes into the data URL of [path]. *)
Definition mime_subtype (path : string) : option string :=
  if PyStr.endswith (PyStr.lower path) ".jpg"
     || PyStr.endswith (PyStr.lower path) ".jpeg"
  then Some "jpeg"
  else if PyStr.endswith (PyStr.lower path) ".png" then Some "png"
  else None.

(** The message [generate] sends for an image of subtype [fmt] whose
    base64 text is [b64]. *)
Definition image_message (fmt b64 : string) : message :=
  mk_message fmt ("data:image/" ++ fmt ++ ";base64," ++ b64).

Definition is_invoke (c : call) : bool :=
  match c with Invoke _ => true | _ => false end.

(** ** The database file, [db.init_db], and the query path of the app

    [invoices.db] on disk, what the modules print, and the query history of
    the session.  A table of the file, when it exists, has the columns
    [init_db] gives it; its AUTOINCREMENT counter lives in
    [sqlite_sequence] and goes when the table is dropped. *)
Section Application.
Context {L : PyLib}.
Local Open Scope prog_scope.

Record db_file : Type := mk_db_file {
  documents_table : option (list document_row * Z);
  items_table : option (list item_row * Z)
}.

(** The file that holds the two tables [t]. *)
Definition file_of (t : tables) : db_file :=
  mk_db_file (Some (documents t, documents_seq t)) (Some (items t, items_seq t)).

(** The lines printed and the statements handed to [cursor.execute] by the
    query path, in order. *)
Inductive event : Type :=
| InitializedWithModel (model : string)
| DatabasePath
| CreatingNewTables
| TablesAlreadyExist
| DatabaseHas (doc_count : Z)
| ImportErrorShown
| Execute (sql : string).

(** An entry of [st.session_state.query_history]. *)
Record history_entry : Type := mk_entry {
  hist_question : string;
  hist_sql : string;
  hist_results : list (list sqlval)
}.

Record app_state : Type := mk_app {
  disk : db_file;
  events : list event;
  query_history : list history_entry
}.

Definition log (e : event) : M app_state unit :=
  modify (fun a => mk_app (disk a) (events a ++ [e]) (query_history a)).

Definition on_disk (f : db_file -> db_file) : M app_state unit :=
  modify (fun a => mk_app (f (disk a)) (events a) (query_history a)).

(** [DROP TABLE IF EXISTS items] *)
Definition drop_items (f : db_file) : db_file :=
  mk_db_file (documents_table f) None.

(** [DROP TABLE IF EXISTS documents] *)
Definition drop_documents (f : db_file) : db_file :=
  mk_db_file None (items_table f).

(** [CREATE TABLE IF NOT EXISTS documents (...)] *)
Definition create_documents (f : db_file) : db_file :=
  mk_db_file
    match documents_table f with
    | Some t => Some t
    | None => Some ([], 0)
    end
    (items_table f).

(** [CREATE TABLE IF NOT EXISTS items (...)] *)
Definition create_items (f : db_file) : db_file :=
  mk_db_file
    (documents_table f)
    match items_table f with
    | Some t => Some t
    | None => Some ([], 0)
    end.

(** [SELECT name FROM sqlite_master WHERE type='table' AND name='documents']
    and [cursor.fetchone() is not None]. *)
Definition documents_exists (f : db_file) : bool :=
  match documents_table f with
  | Some _ => true
  | None => false
  end.

(** [SELECT COUNT( * ) FROM documents] and [cursor.fetchone()[0]]. *)
Definition count_documents : M app_state Z :=
  fun a =>
    match documents_table (disk a) with
    | Some (rows, _) => (Ok (Z.of_nat (List.length rows)), a)
    | None => (Raise SqliteError, a)
    end.

(** [init_db()]; the connection it returns reads the file it leaves. *)
Definition init_db : M app_state unit :=
  log DatabasePath ;;
  a <- get ;;
  let table_exists := documents_exists (disk a) in
  (if negb table_exists then
     log CreatingNewTables ;;
     on_disk drop_items ;;
     on_disk drop_documents ;;
     on_disk create_documents ;;
     on_disk create_items
   else log TablesAlreadyExist) ;;
  doc_count <- count_documents ;;
  log (DatabaseHas doc_count).

(** [get_db_connection()] *)
Definition get_db_connection : M app_state unit := init_db.

(** [os.getenv("NVIDIA_API_KEY")] where the variable holds [env]. *)
Definition getenv (env : option string) : pyvalue :=
  match env with
  | Some s => VStr s
  | None => VNone
  end.

(** [a or b] *)
Definition py_or (a b : pyvalue) : pyvalue := if py_truthy a then a else b.

(** The defaults of [NL2SQLConverter.__init__]. *)
Definition default_api_key : pyvalue := VStr "your_nvidia_api_key".
Definition default_model : string := "meta/llama-3.1-70b-instruct".

Definition missing_key : exn :=
  ValueError "NVIDIA API key not found. Set NVIDIA_API_KEY environment variable or pass api_key parameter. Get key from: https://build.nvidia.com".

(** An [NL2SQLConverter]: the key and the model its [ChatNVIDIA] was built
    with. *)
Record converter : Type := mk_converter {
  api_key : pyvalue;
  llm : string
}.

(** [converter.llm.invoke] on the system prompt and the question, and
    [cursor.execute(sql)] followed by [cursor.fetchall()] on the file. *)
Variable chat : converter -> string -> result pyvalue.
Variable sqlite_query : db_file -> string -> result (list (list sqlval)).

(** [NL2SQLConverter(api_key=key, model=model)] *)
Definition NL2SQLConverter (env : option string) (key : pyvalue) (model : string)
  : M app_state converter :=
  let key := py_or key (getenv env) in
  if negb (py_truthy key) then raise missing_key
  else log (InitializedWithModel model) ;;
       ret (mk_converter key model).

(** [nl_to_sql(question)] *)
Definition nl_to_sql (env : option string) (question : string) : M app_state string :=
  converter <- NL2SQLConverter env default_api_key default_model ;;
  lift (convert (chat converter) question).

(** What [execute_nl_query] returns: [(True, sql, results)],
    [(False, "Import error", None)], or [(False, str(e), None)]. *)
Inductive answer : Type :=
| Answered (sql : string) (results : list (list sqlval))
| ImportError
| Failed (e : exn).

Definition execute_nl_query (USE_NL2SQL_CLASS : bool) (env : option string)
  (question : string) : M app_state answer :=
  try_except
    (if USE_NL2SQL_CLASS then
       converter <- NL2SQLConverter env default_api_key default_model ;;
       sql <- lift (convert (chat converter) question) ;;
       let sql := sanitize sql in
       get_db_connection ;;
       log (Execute sql) ;;
       a <- get ;;
       results <- lift (sqlite_query (disk a) sql) ;;
       modify (fun a => mk_app (disk a) (events a)
                          (query_history a ++ [mk_entry question sql results])) ;;
       ret (Answered sql results)
     else
       log ImportErrorShown ;;
       ret ImportError)
    (fun e => ret (Failed e)).

End Application.

(** ** The database over the life of the app *)
Section Lifetime.
Context {L : PyLib}.

(** The ids [1; 2; ...; n]. *)
Fixpoint ids_up_to (n : nat) : list Z :=
  match n with
  | S k => ids_up_to k ++ [Z.of_nat (S k)]
  | O => []
  end.

(** The tables the app can leave in [invoices.db]: the empty ones [init_db]
    creates and, from then on, what the database step of [process_image]
    commits on a fresh connection, while there is room for one more
    document id. *)
Inductive reachable : tables -> Prop :=
| reach_created : reachable empty_tables
| reach_processed (t : tables) (ocr_result : pyvalue) (r : result Z) (w' : world) :
    reachable t ->
    documents_seq t < 2 ^ 63 - 1 ->
    process_image_save ocr_result (open_world t) = (r, w') ->
    reachable (committed (conn w')).

End Lifetime.

(** * Properties *)

Example strip_ex : PyStr.strip "  a b  " = "a b".
Proof. reflexivity. Qed.
Example replace_ex : PyStr.replace "x```json{}```" "```" "" = "xjson{}".
Proof. reflexivity. Qed.
Example replace_ex2 : PyStr.replace "aaaa" "aa" "b" = "bb".
Proof. reflexivity. Qed.
Example replace_ex3 : PyStr.replace "abc" "" "-" = "-a-b-c-".
Proof. reflexivity. Qed.
Example find_ex : PyStr.find "ab{c}d}" "{" = 2 /\ PyStr.rfind "ab{c}d}" "}" = 6
  /\ PyStr.find "abc" "{" = -1 /\ PyStr.rfind "abc" "}" = -1.
Proof. repeat split. Qed.
Example slice_ex : PyStr.slice "ab{c}d}x" 2 7 = "{c}d}" /\ PyStr.slice_to "abc" 1000 = "abc"
  /\ PyStr.slice "abcdef" (-3) (-1) = "de".
Proof. repeat split. Qed.
Example endswith_ex : PyStr.endswith (PyStr.lower "/up/Bill.JPG") ".jpg" = true
  /\ PyStr.endswith "jpg" ".jpg" = false.
Proof. repeat split. Qed.
Example upper_ex : PyStr.upper "select * From" = "SELECT * FROM".
Proof. reflexivity. Qed.


(** ** Strings *)
Section StringFacts.

Lemma prefix_empty (s : string) : prefix "" s = true.
Proof. destruct s; reflexivity. Qed.

Lemma find_from_char (c : ascii) (s : string) (i : Z) :
  PyStr.find_from (String c "") s i <> -1 ->
  exists n : nat,
    PyStr.find_from (String c "") s i = i + Z.of_nat n
    /\ (n < String.length s)%nat
    /\ forall m, exists t, substring n (S m) s = String c t.
Proof.
  revert i. induction s as [|a s IH]; intros i H.
  - simpl in H. congruence.
  - cbn [PyStr.find_from prefix] in *.
    destruct (ascii_dec c a) as [->|Hne].
    + rewrite prefix_empty. exists O. split; [lia|]. split; [simpl; lia|].
      intros m. eexists. reflexivity.
    + destruct (IH (i + 1) H) as (n & Hn & Hlt & Hsub).
      exists (S n). split; [rewrite Hn; lia|]. split; [simpl; lia|].
      intros m. simpl. apply Hsub.
Qed.

(** The candidate that [parse_ocr_response] cuts out starts at the first
    opening brace. *)
Lemma slice_from_brace (s : string) (e : Z) :
  PyStr.find s "{" <> -1 ->
  e > PyStr.find s "{" ->
  PyStr.startswith (PyStr.slice s (PyStr.find s "{") e) "{" = true.
Proof.
  intros Hfound He. unfold PyStr.find in *.
  destruct (find_from_char "{" s 0 Hfound) as (n & Hn & Hlt & Hsub).
  rewrite Hn in *. unfold PyStr.slice, PyStr.clamp, PyStr.len.
  replace (0 + Z.of_nat n <? 0) with false by (symmetry; apply Z.ltb_ge; lia).
  replace (e <? 0) with false by (symmetry; apply Z.ltb_ge; lia).
  replace (Z.to_nat (Z.min (0 + Z.of_nat n) (Z.of_nat (String.length s))))
    with n by lia.
  remember (Z.to_nat (Z.min e (Z.of_nat (String.length s))
                      - Z.min (0 + Z.of_nat n) (Z.of_nat (String.length s))))
    as k eqn:Hk.
  destruct k as [|k]; [lia|].
  destruct (Hsub k) as [t ->].
  unfold PyStr.startswith. simpl.
  destruct (ascii_dec "{" "{"); [destruct t; reflexivity|congruence].
Qed.

Lemma substring_prefix (k : nat) (s : string) :
  prefix (substring 0 k s) s = true.
Proof.
  revert k. induction s as [|a s IH]; intros [|k]; simpl; try reflexivity.
  destruct (ascii_dec a a); [apply IH|congruence].
Qed.

Lemma substring_length_le (k : nat) (s : string) :
  (String.length (substring 0 k s) <= k)%nat.
Proof.
  revert k. induction s as [|a s IH]; intros [|k]; simpl; try lia.
  specialize (IH k). lia.
Qed.

(** [s[:n]] is a prefix of [s], of at most [n] characters. *)
Lemma slice_to_prefix (s : string) (n : Z) :
  prefix (PyStr.slice_to s n) s = true.
Proof.
  unfold PyStr.slice_to, PyStr.slice.
  replace (Z.to_nat (PyStr.clamp (PyStr.len s) 0)) with O.
  - apply substring_prefix.
  - unfold PyStr.clamp, PyStr.len. simpl. lia.
Qed.

Lemma slice_to_length (s : string) (n : Z) :
  0 <= n -> PyStr.len (PyStr.slice_to s n) <= n.
Proof.
  intros Hn. unfold PyStr.slice_to, PyStr.slice, PyStr.len at 1.
  replace (Z.to_nat (PyStr.clamp (PyStr.len s) 0)) with O
    by (unfold PyStr.clamp, PyStr.len; simpl; lia).
  match goal with |- Z.of_nat (String.length (substring 0 ?k s)) <= _ =>
    pose proof (substring_length_le k s) as Hle;
    assert (Z.of_nat k <= n)
  end.
  - unfold PyStr.clamp, PyStr.len.
    replace (n <? 0) with false by (symmetry; apply Z.ltb_ge; lia).
    simpl. lia.
  - lia.
Qed.

Lemma substring_length (k : nat) (s : string) :
  String.length (substring 0 k s) = Nat.min k (String.length s).
Proof.
  revert k. induction s as [|a s IH]; intros [|k]; simpl; try reflexivity.
  rewrite IH. reflexivity.
Qed.

Lemma slice_to_len (s : string) (n : Z) :
  PyStr.len (PyStr.slice_to s n) = PyStr.clamp (PyStr.len s) n.
Proof.
  unfold PyStr.slice_to, PyStr.slice, PyStr.len at 1.
  replace (Z.to_nat (PyStr.clamp (PyStr.len s) 0)) with O
    by (unfold PyStr.clamp, PyStr.len; simpl; lia).
  rewrite substring_length.
  unfold PyStr.clamp, PyStr.len. change (0 <? 0) with false. cbv iota.
  destruct (n <? 0) eqn:E; [apply Z.ltb_lt in E|apply Z.ltb_ge in E]; lia.
Qed.

End StringFacts.

(** ** The Response Normalizer *)
Section NormalizerFacts.
Context {L : PyLib}.

Lemma dict_get_set (d : pydict) (k k' : string) (v : pyvalue) :
  dict_get (dict_set d k v) k' =
  if String.eqb k k' then Some v else dict_get d k'.
Proof.
  induction d as [|[k0 v0] d IH]; simpl.
  - reflexivity.
  - destruct (String.eqb_spec k0 k) as [->|Hne]; simpl.
    + destruct (String.eqb k k'); reflexivity.
    + rewrite IH. destruct (String.eqb_spec k0 k') as [->|Hne'].
      * destruct (String.eqb_spec k k'); [congruence|reflexivity].
      * reflexivity.
Qed.

(** The merge keeps what was parsed and takes the rest from the defaults. *)
Lemma merge_defaults_dict (defaults d : pydict) :
  exists d',
    merge_defaults defaults (VDict d) = Ok (VDict d')
    /\ forall k, dict_get d' k =
                 match dict_get d k with
                 | Some v => Some v
                 | None => dict_get defaults k
                 end.
Proof.
  revert d. induction defaults as [|[key dflt] rest IH]; intros d.
  - exists d. split; [reflexivity|]. intros k. destruct (dict_get d k); reflexivity.
  - cbn [merge_defaults py_in py_setitem rbind]. unfold dict_has.
    destruct (dict_get d key) as [v0|] eqn:Hkey.
    + destruct (IH d) as (d' & Hm & Hget). exists d'. split; [exact Hm|].
      intros k. rewrite Hget. cbn [dict_get].
      destruct (String.eqb_spec key k) as [<-|Hne]; [rewrite Hkey|]; reflexivity.
    + destruct (IH (dict_set d key dflt)) as (d' & Hm & Hget).
      exists d'. split; [exact Hm|].
      intros k. rewrite Hget, dict_get_set. cbn [dict_get].
      destruct (String.eqb_spec key k) as [<-|Hne]; [rewrite Hkey|]; reflexivity.
Qed.

Lemma parse_text_cases (s : string) :
  parse_text s =
  match json_candidate (clean_response s) with
  | None => Ok (no_json_record (clean_response s))
  | Some c =>
      match json_loads c with
      | Ok parsed_data => merge_defaults default_structure parsed_data
      | Raise (JSONDecodeError msg) =>
          Ok (parse_error_record msg (clean_response s))
      | Raise e => Raise e
      end
  end.
Proof.
  unfold parse_text, json_candidate.
  destruct (negb _ && _); reflexivity.
Qed.

Lemma json_candidate_brace (t c : string) :
  json_candidate t = Some c -> PyStr.startswith c "{" = true.
Proof.
  unfold json_candidate.
  destruct (negb _ && _) eqn:Hc; [|discriminate].
  intros [= <-]. apply andb_true_iff in Hc as [Hs He].
  apply negb_true_iff, Z.eqb_neq in Hs.
  apply Z.gtb_lt in He.
  apply slice_from_brace; [exact Hs|lia].
Qed.

(** What [parse_ocr_response] returns on a string, case by case. *)
Lemma parse_text_result (H : loads_contract) (s : string) :
  match json_candidate (clean_response s) with
  | None => parse_text s = Ok (no_json_record (clean_response s))
  | Some c =>
      (exists msg, json_loads c = Raise (JSONDecodeError msg)
                   /\ parse_text s = Ok (parse_error_record msg (clean_response s)))
      \/ (exists p d, json_loads c = Ok (VDict p)
                      /\ parse_text s = Ok (VDict d)
                      /\ forall k, dict_get d k =
                                   match dict_get p k with
                                   | Some v => Some v
                                   | None => dict_get default_structure k
                                   end)
  end.
Proof.
  rewrite parse_text_cases.
  destruct (json_candidate (clean_response s)) as [c|] eqn:Hc; [|reflexivity].
  destruct H as [Hraise Hobj].
  destruct (json_loads c) as [v|e] eqn:Hl.
  - right. destruct (Hobj c v Hl (json_candidate_brace _ _ Hc)) as [p ->].
    destruct (merge_defaults_dict default_structure p) as (d & Hm & Hget).
    exists p, d. auto.
  - left. destruct (Hraise c e Hl) as [msg ->]. exists msg. auto.
Qed.

End NormalizerFacts.


(** ** The reference instance meets the contracts *)
Section ReferenceFacts.

Lemma parse_members_dict (fuel : nat) :
  forall s acc v r,
    Ref.parse_members fuel s acc = Some (v, r) -> exists d, v = VDict d.
Proof.
  induction fuel as [|fuel IH]; intros s acc v r Hp; [discriminate|].
  cbn [Ref.parse_members] in Hp.
  destruct (Ref.skip_ws s) as [|c0 r0]; [discriminate|].
  destruct (ascii_dec c0 "034") as [->|Hne].
  - destruct (Ref.string_body r0) as [[key r1]|]; [|discriminate].
    destruct (Ref.skip_ws r1) as [|c2 r2]; [discriminate|].
    destruct (ascii_dec c2 ":") as [->|Hne2].
    + destruct (Ref.parse_value fuel r2) as [[v3 r3]|]; [|discriminate].
      destruct (Ref.skip_ws r3) as [|c4 r4]; [discriminate|].
      destruct (ascii_dec c4 ",") as [->|Hn4].
      * eapply IH. exact Hp.
      * destruct (ascii_dec c4 "}") as [->|Hn5].
        -- injection Hp as <- _. eexists. reflexivity.
        -- destruct c4 as [[] [] [] [] [] [] [] []]; try discriminate; congruence.
    + destruct c2 as [[] [] [] [] [] [] [] []]; try discriminate; congruence.
  - destruct c0 as [[] [] [] [] [] [] [] []]; try discriminate; congruence.
Qed.

Lemma ref_loads_contract : @loads_contract ref_lib.
Proof.
  split.
  - intros s e. cbn [json_loads ref_lib]. unfold Ref.loads.
    destruct (Ref.parse_value _ s) as [[v r]|].
    + destruct (Ref.skip_ws r); intros [= <-]; eexists; reflexivity.
    + intros [= <-]. eexists. reflexivity.
  - intros s v. cbn [json_loads ref_lib]. unfold Ref.loads, PyStr.startswith.
    destruct s as [|c s]; [discriminate|].
    intros Hl Hp. cbn [prefix] in Hp.
    destruct (ascii_dec "{" c) as [<-|]; [|discriminate].
    remember (2 * String.length (String "{" s) + 2)%nat as fuel eqn:Hf.
    destruct fuel as [|fuel]; [simpl in Hf; lia|].
    cbn [Ref.parse_value Ref.skip_ws] in Hl.
    change (Ref.json_ws "{") with false in Hl. cbv iota in Hl.
    destruct (Ref.skip_ws s) as [|c1 r1] eqn:Hs.
    + destruct (Ref.parse_members fuel "" []) as [[v' r']|] eqn:Hm;
        [|discriminate].
      destruct (Ref.skip_ws r'); [|discriminate].
      injection Hl as <-. eapply parse_members_dict. exact Hm.
    + destruct (ascii_dec c1 "}") as [->|Hne].
      * destruct (Ref.skip_ws r1); [|discriminate].
        injection Hl as <-. eexists. reflexivity.
      * assert (Hl' : match Ref.parse_members fuel (String c1 r1) [] with
                      | Some (v0, r) =>
                          match Ref.skip_ws r with
                          | "" => Ok v0
                          | _ => Raise (JSONDecodeError "Extra data")
                          end
                      | None => Raise (JSONDecodeError "Expecting value")
                      end = Ok v).
        { destruct c1 as [[] [] [] [] [] [] [] []]; try exact Hl; congruence. }
        destruct (Ref.parse_members fuel (String c1 r1) []) as [[v' r']|] eqn:Hm;
          [|discriminate].
        destruct (Ref.skip_ws r'); [|discriminate].
        injection Hl' as <-. eapply parse_members_dict. exact Hm.
Qed.

Lemma ref_float_zero_contract : @float_zero_contract ref_lib.
Proof. reflexivity. Qed.

End ReferenceFacts.





(** C7 as stated fails, whichever bound is taken: a text of 1001 letters
    without braces is stored whole, and a text of 1002 characters whose
    braces hold no JSON is cut to 1000.  (Nor is [raw_response] taken from
    the input: it is taken from the cleaned text.) *)
Lemma raw_response_counterexample :
  ~ exists bound, @raw_response_is_bounded_input ref_lib bound.
Proof.
  intros [bound H].
  assert (Hlong : PyStr.clamp 1001 bound = 1001).
  { destruct (H (Sample.xs 1001) I) as (r & Hr & Hf).
    vm_compute in Hr. injection Hr as <-.
    cbn [field_of dict_get String.eqb Ascii.eqb Bool.eqb] in Hf.
    injection Hf as Hf. apply (f_equal PyStr.len) in Hf.
    rewrite slice_to_len in Hf.
    match type of Hf with
    | ?a = PyStr.clamp ?b bound =>
        let a' := eval vm_compute in a in
        let b' := eval vm_compute in b in
        change (a' = PyStr.clamp b' bound) in Hf
    end.
    symmetry. exact Hf. }
  assert (Hcut : PyStr.clamp 1002 bound = 1000).
  { assert (Hd : @degrades ref_lib ("{" ++ Sample.xs 1000 ++ "}")).
    { vm_compute. eexists. reflexivity. }
    destruct (H _ Hd) as (r & Hr & Hf).
    vm_compute in Hr. injection Hr as <-.
    cbn [field_of dict_get String.eqb Ascii.eqb Bool.eqb] in Hf.
    injection Hf as Hf. apply (f_equal PyStr.len) in Hf.
    rewrite slice_to_len in Hf.
    match type of Hf with
    | ?a = PyStr.clamp ?b bound =>
        let a' := eval vm_compute in a in
        let b' := eval vm_compute in b in
        change (a' = PyStr.clamp b' bound) in Hf
    end.
    symmetry. exact Hf. }
  unfold PyStr.clamp in *.
  destruct (bound <? 0) eqn:E; [apply Z.ltb_lt in E|apply Z.ltb_ge in E]; lia.
Qed.

(** The text that is kept is the cleaned one: for [" x"] it is ["x"]. *)
Lemma raw_response_is_cleaned :
  exists r,
    parse_ocr_response (L := ref_lib) (VStr " x") = Ok r
    /\ field_of r "raw_response" = Some (VStr "x").
Proof. eexists. split; [vm_compute; reflexivity|reflexivity]. Qed.

Lemma prefix_refl (s : string) : prefix s s = true.
Proof.
  induction s as [|a s IH]; simpl; [reflexivity|].
  destruct (ascii_dec a a); [exact IH|congruence].
Qed.

(** C7, amended.  On every text on which normalisation degrades,
    [raw_response] is a prefix of the cleaned text (the input stripped, and
    without its fence markers when it starts with one); when the strict
    parse fails it is the first 1000 characters of the cleaned text; the
    vendor name is ["Unknown"] when no candidate was found and
    ["Parse Error"] when the parse failed. *)
Theorem degraded_raw_response (L : PyLib) (s : string) :
  degrades s -> degraded_shape s.
Proof.
  unfold degrades, degraded_shape. cbn [parse_ocr_response].
  rewrite parse_text_cases.
  destruct (json_candidate (clean_response s)) as [c|].
  - intros [msg ->]. do 3 eexists.
    split; [reflexivity|]. split; [reflexivity|].
    split; [apply slice_to_prefix|]. split; [reflexivity|].
    split; [reflexivity|]. split; [reflexivity|].
    apply slice_to_length. lia.
  - intros _. do 3 eexists.
    split; [reflexivity|]. split; [reflexivity|].
    split; [apply prefix_refl|]. split; reflexivity.
Qed.

Lemma degraded_raw_response_witness :
  @degrades ref_lib "total: 12 {x}" /\ @degraded_shape ref_lib "total: 12 {x}".
Proof.
  assert (Hd : @degrades ref_lib "total: 12 {x}").
  { vm_compute. eexists. reflexivity. }
  split; [exact Hd|].
  apply (degraded_raw_response ref_lib "total: 12 {x}" Hd).
Defined.

(** The two sentinels differ. *)
Lemma sentinels_differ : "Unknown" <> "Parse Error".
Proof. discriminate. Qed.

(** ** The NL2SQL Translator *)

(** C5 as stated fails: the prose line in front of the fence stays. *)
Lemma prose_example_counterexample : ~ prose_example_passes.
Proof. intros [H _]. vm_compute in H. discriminate. Qed.

(** C5, amended.  On ["Here is the SQL:\n```sql\nSELECT total FROM
    documents\n```"] the post-processing removes the fence markers and the
    outer whitespace only: it yields
    ["Here is the SQL:\n\nSELECT total FROM documents"], which the [SELECT]
    check refuses, so [convert] raises.  On the same statement without the
    prose line it yields ["SELECT total FROM documents"], which passes. *)
Theorem clean_sql_examples (L : PyLib) :
  clean_sql Sample.prose_fenced_sql
  = "Here is the SQL:" ++ PyStr.nl ++ PyStr.nl ++ "SELECT total FROM documents"
  /\ convert (fun _ => Ok (VStr Sample.prose_fenced_sql)) "total?"
     = Raise (Exception "Failed to convert question to SQL: "
                (ValueError ("Generated query doesn't start with SELECT: "
                             ++ clean_sql Sample.prose_fenced_sql)))
  /\ clean_sql Sample.fenced_sql = "SELECT total FROM documents"
  /\ convert (fun _ => Ok (VStr Sample.fenced_sql)) "total?"
     = Ok "SELECT total FROM documents".
Proof. repeat split. Qed.

(** A text that does not start with [SELECT] after the clean-up is refused,
    whatever the case of its letters. *)
Lemma check_sql_refuses (content : string) :
  PyStr.startswith (PyStr.upper (clean_sql content)) "SELECT" = false ->
  exists msg, check_sql content = Raise (ValueError msg).
Proof. intros H. unfold check_sql. rewrite H. eexists. reflexivity. Qed.

Lemma check_sql_accepts (content sql : string) :
  check_sql content = Ok sql ->
  sql = clean_sql content
  /\ PyStr.startswith (PyStr.upper sql) "SELECT" = true.
Proof.
  unfold check_sql.
  destruct (PyStr.startswith _ "SELECT") eqn:H; [|discriminate].
  intros [= <-]. auto.
Qed.

(** ** The Query Safety Filter *)

Lemma sanitize_cases (sql : string) :
  sanitize sql =
  if join_wildcard sql then PyStr.replace sql "SELECT *" explicit_columns else sql.
Proof.
  unfold sanitize, join_wildcard.
  destruct (_ && _); simpl; [|reflexivity].
  destruct (_ && _); reflexivity.
Qed.

(** A statement outside the join-and-wildcard pattern is returned as it is. *)
Lemma sanitize_unmatched (sql : string) :
  join_wildcard sql = false -> sanitize sql = sql.
Proof. intros H. rewrite sanitize_cases, H. reflexivity. Qed.

(** The two examples of the specification. *)
Lemma sanitize_examples :
  sanitize Sample.join_all
  = explicit_columns ++ " FROM items JOIN documents ON items.document_id = documents.id"
  /\ sanitize "SELECT total FROM documents" = "SELECT total FROM documents".
Proof. split; reflexivity. Qed.

(** C6.  The pattern is tested on the upper-cased and lower-cased text, the
    replacement looks for the literal ["SELECT *"]: the lower-case join
    matches the pattern and comes back with its wildcard. *)
Theorem sanitize_lower_case_join :
  join_wildcard Sample.join_all_lower = true
  /\ sanitize Sample.join_all_lower = Sample.join_all_lower
  /\ PyStr.contains (sanitize Sample.join_all_lower) "*" = true.
Proof. repeat split. Qed.

(** ** The Extraction Adapter and the upload boundary *)
Section ExtractionFacts.
Context {L : PyLib}.
Variable read_file : string -> result string.
Variable b64encode : string -> string.
Variable llm_invoke : message -> result pyvalue.

(** On a path with another extension [generate] creates the model object
    and reads the file, then raises: the model is not invoked. *)
Lemma generate_unsupported (image_path : string) (tr : list call) :
  supported_format image_path = false ->
  generate read_file b64encode llm_invoke image_path tr
  = (Raise (rejection (read_file image_path)),
     tr ++ [CreateModel "meta/llama-3.2-90b-vision-instruct";
            ReadFile image_path])%list.
Proof.
  unfold supported_format. intros H.
  apply orb_false_iff in H as [H Hpng].
  unfold generate, try_except, bind, encode_image_to_base64, record_call,
    modify, lift, bind, raise, ret, rejection.
  rewrite H, Hpng. rewrite <- app_assoc. cbn [app].
  destruct (read_file image_path); reflexivity.
Qed.

End ExtractionFacts.

Section PathFacts.

Lemma append_assoc (a b c : string) : (a ++ b) ++ c = a ++ b ++ c.
Proof. induction a as [|x a IH]; simpl; [reflexivity|]. rewrite IH. reflexivity. Qed.

Lemma append_empty (a : string) : a ++ "" = a.
Proof. induction a as [|x a IH]; simpl; [reflexivity|]. rewrite IH. reflexivity. Qed.

Lemma rev_app (a b : string) : PyStr.rev (a ++ b) = PyStr.rev b ++ PyStr.rev a.
Proof.
  induction a as [|c a IH]; simpl.
  - symmetry. apply append_empty.
  - rewrite IH. apply append_assoc.
Qed.

Lemma lower_app (a b : string) :
  PyStr.lower (a ++ b) = PyStr.lower a ++ PyStr.lower b.
Proof.
  unfold PyStr.lower. induction a as [|c a IH]; simpl; [reflexivity|].
  rewrite IH. reflexivity.
Qed.

Lemma prefix_before_slash (q n r : string) :
  has_char "/" q = false ->
  prefix q (n ++ String "/" r) = true -> prefix q n = true.
Proof.
  revert q. induction n as [|a n IH]; intros [|c q] Hq Hp; try reflexivity.
  - cbn [has_char] in Hq. apply orb_false_iff in Hq as [Hc _].
    cbn [append prefix] in Hp.
    destruct (ascii_dec c "/") as [->|]; [discriminate Hc|discriminate Hp].
  - cbn [has_char] in Hq. apply orb_false_iff in Hq as [_ Hq].
    cbn [append prefix] in *.
    destruct (ascii_dec c a); [eauto|discriminate].
Qed.

(** The extension of [dir/name] is the extension of [name]. *)
Lemma endswith_in_directory (dir name ext : string) :
  has_char "/" (PyStr.rev ext) = false ->
  PyStr.endswith (PyStr.lower (dir ++ "/" ++ name)) ext = true ->
  PyStr.endswith (PyStr.lower name) ext = true.
Proof.
  unfold PyStr.endswith. intros Hext.
  rewrite !lower_app, !rev_app. change (PyStr.rev (PyStr.lower "/")) with "/".
  rewrite append_assoc.
  change ("/" ++ PyStr.rev (PyStr.lower dir))
    with (String "/" (PyStr.rev (PyStr.lower dir))).
  apply prefix_before_slash. exact Hext.
Qed.

Lemma supported_in_directory (dir name : string) :
  supported_format name = false ->
  supported_format (dir ++ "/" ++ name) = false.
Proof.
  unfold supported_format. intros H.
  apply orb_false_iff in H as [H Hpng]. apply orb_false_iff in H as [Hjpg Hjpeg].
  repeat (apply orb_false_iff; split);
    match goal with
    | |- ?b = false =>
        destruct b eqn:E; [|reflexivity];
        apply endswith_in_directory in E; [congruence|reflexivity]
    end.
Qed.

End PathFacts.

(** C8 as stated fails: the upload widget lets [.pdf] through, so such a
    file reaches [generate]. *)
Lemma rejected_before_adapter_counterexample : ~ @rejected_before_adapter ref_lib.
Proof.
  intros H.
  specialize (H (fun _ => Ok "bytes") (fun b => b) (fun _ => Ok (VStr "{}"))
                "/srv/app" "invoice.pdf" eq_refl).
  unfold upload_and_extract in H.
  replace (file_uploader_accepts uploader_types "invoice.pdf") with true in H
    by reflexivity.
  discriminate.
Qed.

(** C8, amended.  An upload whose extension is not [.jpg], [.jpeg] or
    [.png] never reaches the model: either the upload widget refuses it
    (every extension but [.pdf]), or [generate] receives it, creates the
    model object, reads the file and raises before invoking the model; the
    caller sees the ["Failed to process image with NVIDIA NIM: "] exception
    around the unsupported-format [ValueError] (or around the read
    error). *)
Theorem unsupported_upload_never_invokes
  (L : PyLib) (read_file : string -> result string) (b64encode : string -> string)
  (llm_invoke : message -> result pyvalue) (cwd name : string) (tr : list call) :
  supported_format name = false ->
  match upload_and_extract read_file b64encode llm_invoke cwd name with
  | None => file_uploader_accepts uploader_types name = false
  | Some run =>
      let path := cwd ++ "/uploads/" ++ name in
      run tr = (Raise (rejection (read_file path)),
                (tr ++ [CreateModel "meta/llama-3.2-90b-vision-instruct";
                        ReadFile path])%list)
      /\ forall m, In (Invoke m) (snd (run tr)) -> In (Invoke m) tr
  end.
Proof.
  intros H. unfold upload_and_extract.
  destruct (file_uploader_accepts uploader_types name); [|reflexivity].
  assert (Hp : supported_format (cwd ++ "/uploads/" ++ name) = false).
  { change (cwd ++ "/uploads/" ++ name) with (cwd ++ "/uploads" ++ "/" ++ name).
    replace (cwd ++ "/uploads" ++ "/" ++ name)
      with ((cwd ++ "/uploads") ++ "/" ++ name).
    - apply supported_in_directory. exact H.
    - apply append_assoc. }
  cbv zeta. rewrite (generate_unsupported _ _ _ _ tr Hp).
  split; [reflexivity|].
  intros m Hin. cbn [snd] in Hin. apply in_app_or in Hin as [Hin|Hin]; [exact Hin|].
  destruct Hin as [Hin|[Hin|[]]]; discriminate.
Qed.

Lemma unsupported_upload_never_invokes_witness :
  supported_format "invoice.pdf" = false
  /\ match upload_and_extract (L := ref_lib) (fun _ => Ok "bytes") (fun b => b)
             (fun _ => Ok (VStr "{}")) "/srv/app" "invoice.pdf" with
     | None => file_uploader_accepts uploader_types "invoice.pdf" = false
     | Some run =>
         let path := "/srv/app" ++ "/uploads/" ++ "invoice.pdf" in
         run [] = (Raise (rejection (Ok "bytes")),
                   ([] ++ [CreateModel "meta/llama-3.2-90b-vision-instruct";
                           ReadFile path])%list)
         /\ forall m, In (Invoke m) (snd (run [])) -> In (Invoke m) []
     end.
Proof.
  split; [reflexivity|].
  apply (unsupported_upload_never_invokes ref_lib (fun _ => Ok "bytes") (fun b => b)
           (fun _ => Ok (VStr "{}")) "/srv/app" "invoice.pdf" []).
  reflexivity.
Defined.

(** ** The Persistence Mapper *)
Section PersistenceFacts.
Context {L : PyLib}.

(** One turn of the loop of [save_ocr_to_db] never raises; it stores the
    item when [item_saved] holds and leaves the connection alone
    otherwise, and counts accordingly. *)
Lemma save_item_spec (doc_id : Z) (item : pyvalue) (w : world) (n : Z) :
  int64_range doc_id = true ->
  exists out,
    save_item doc_id item (w, n)
    = (Ok tt, (mk_world (store_item doc_id (conn w) item) out,
               n + (if item_saved item then 1 else 0))).
Proof.
  intros Hid.
  unfold save_item, store_item, item_saved, item_is_empty, item_storable,
    item_values, try_except, bind, lift, on_fst, on_conn, print, modify, ret,
    insert_item.
  destruct item as [| b | m | f | s | l | l | d];
    try (cbn; rewrite Z.add_0_r; destruct w; eexists; reflexivity).
  cbn [py_get]. fold (get_or d "description" (VStr "")).
  fold (get_or d "quantity" (VInt 0)).
  fold (get_or d "unit_price" (VFloat fzero)).
  fold (get_or d "amount" (VFloat fzero)).
  generalize (get_or d "description" (VStr "")) as desc.
  generalize (get_or d "quantity" (VInt 0)) as qty.
  generalize (get_or d "unit_price" (VFloat fzero)) as up.
  generalize (get_or d "amount" (VFloat fzero)) as am.
  intros am up qty desc.
  destruct (py_truthy desc) eqn:Ht, (py_eq_int qty 0) eqn:Hq0;
    cbn [negb andb fst snd];
    try (rewrite Z.add_0_r; destruct w; eexists; reflexivity);
    (destruct (py_int qty) as [q|e1];
     [|cbn; rewrite ?andb_false_r, Z.add_0_r; destruct w; eexists; reflexivity]);
    (destruct (py_float up) as [up'|e2];
     [|cbn; rewrite ?andb_false_r, Z.add_0_r; destruct w; eexists; reflexivity]);
    (destruct (py_float am) as [am'|e3];
     [|cbn; rewrite ?andb_false_r, Z.add_0_r; destruct w; eexists; reflexivity]);
    cbn [bind_params bind_param rbind converts andb]; rewrite Hid;
    destruct (bind_param desc) as [de|e4];
    destruct (int64_range q);
    cbn [bind_params bind_param rbind converts andb fst snd conn stdout];
    destruct (py_slice_to desc 50);
    rewrite ?Z.add_0_r; destruct w; eexists; reflexivity.
Qed.

(** The whole loop. *)
Lemma save_items_spec (doc_id : Z) (elems : list pyvalue) :
  int64_range doc_id = true ->
  forall (w : world) (n : Z),
  exists out,
    for_each elems (save_item doc_id) (w, n)
    = (Ok tt, (mk_world (fold_left (store_item doc_id) elems (conn w)) out,
               n + Z.of_nat (List.length (filter item_saved elems)))).
Proof.
  intros Hid. induction elems as [|item elems IH]; intros w n.
  - exists (stdout w). cbn. rewrite Z.add_0_r. destruct w; reflexivity.
  - destruct (save_item_spec doc_id item w n Hid) as [out1 H1].
    destruct (IH (mk_world (store_item doc_id (conn w) item) out1)
                 (n + (if item_saved item then 1 else 0))) as [out2 H2].
    exists out2. cbn [for_each]. unfold bind at 1. rewrite H1, H2.
    cbn [conn fold_left filter].
    replace (n + Z.of_nat (List.length (if item_saved item
                                        then item :: filter item_saved elems
                                        else filter item_saved elems)))
      with (n + (if item_saved item then 1 else 0)
            + Z.of_nat (List.length (filter item_saved elems)));
      [reflexivity|].
    destruct (item_saved item); cbn [List.length]; lia.
Qed.

(** A stored item adds one row for [doc_id] and touches nothing else. *)
Lemma store_item_tables (doc_id : Z) (c : connection) (item : pyvalue) :
  int64_range doc_id = true ->
  exists rows,
    working (store_item doc_id c item)
    = mk_tables (documents (working c)) (items (working c) ++ rows)
                (documents_seq (working c))
                (items_seq (working c) + Z.of_nat (List.length rows))
    /\ committed (store_item doc_id c item) = committed c
    /\ List.length rows = (if item_saved item then 1 else 0)%nat
    /\ Forall (fun r => document_id r = SqlInt doc_id) rows.
Proof.
  intros Hid. unfold store_item.
  destruct (item_saved item) eqn:Hs.
  - unfold item_saved, item_storable, item_values in *.
    apply andb_true_iff in Hs as [_ Hs].
    destruct item as [| | | | | | | d]; try discriminate.
    repeat (apply andb_true_iff in Hs as [Hs ?]).
    destruct (py_int (get_or d "quantity" (VInt 0))) as [q|]; [|discriminate].
    destruct (py_float (get_or d "unit_price" (VFloat fzero))); [|discriminate].
    destruct (py_float (get_or d "amount" (VFloat fzero))); [|discriminate].
    unfold insert_item. cbn [bind_params bind_param rbind] in *. rewrite Hid.
    destruct (bind_param (get_or d "description" (VStr ""))); [|discriminate].
    destruct (int64_range q); [|discriminate].
    cbn [rbind snd set_working working committed].
    eexists [_]. cbn [List.length document_id]. repeat split.
    repeat constructor.
  - exists []. cbn [List.length]. rewrite app_nil_r, Z.add_0_r.
    destruct c as [cm [ds its dseq iseq]]. repeat split. constructor.
Qed.

Lemma store_items_tables (doc_id : Z) (elems : list pyvalue) :
  int64_range doc_id = true ->
  forall c : connection,
  exists rows,
    working (fold_left (store_item doc_id) elems c)
    = mk_tables (documents (working c)) (items (working c) ++ rows)
                (documents_seq (working c))
                (items_seq (working c) + Z.of_nat (List.length rows))
    /\ committed (fold_left (store_item doc_id) elems c) = committed c
    /\ List.length rows = List.length (filter item_saved elems)
    /\ Forall (fun r => document_id r = SqlInt doc_id) rows.
Proof.
  intros Hid. induction elems as [|item elems IH]; intros c.
  - exists []. cbn. rewrite app_nil_r, Z.add_0_r.
    destruct c as [cm [ds its dseq iseq]]. repeat split. constructor.
  - destruct (store_item_tables doc_id c item Hid) as (r1 & Hw1 & Hc1 & Hl1 & Hf1).
    destruct (IH (store_item doc_id c item)) as (r2 & Hw2 & Hc2 & Hl2 & Hf2).
    exists (r1 ++ r2)%list. cbn [fold_left filter].
    rewrite Hw2, Hc2, Hw1, Hc1. cbn [documents items documents_seq items_seq].
    rewrite <- app_assoc, length_app, Nat2Z.inj_add, Z.add_assoc.
    repeat split.
    + rewrite Hl1, Hl2. destruct (item_saved item); reflexivity.
    + apply Forall_app. auto.
Qed.

(** No item row refers to an id that has not been given out. *)
Lemma count_items_fresh (t : tables) (id : Z) :
  tables_ok t -> documents_seq t < id -> count_items id t = 0.
Proof.
  intros [_ Hok] Hlt. unfold count_items, items_of.
  induction (items t) as [|r rs IH]; [reflexivity|].
  cbn [forallb filter] in *. apply andb_true_iff in Hok as [Hr Hrs].
  unfold item_ref_ok in Hr. unfold sqlval_is_int at 1.
  destruct (document_id r) as [|m| |]; try (apply IH; exact Hrs).
  apply Z.leb_le in Hr.
  replace (m =? id) with false by (symmetry; apply Z.eqb_neq; lia).
  apply IH. exact Hrs.
Qed.

Lemma count_items_app (id : Z) (ds : list document_row) (its rows : list item_row)
      (dseq iseq : Z) :
  Forall (fun r => document_id r = SqlInt id) rows ->
  count_items id (mk_tables ds (its ++ rows) dseq iseq)
  = count_items id (mk_tables ds its dseq iseq) + Z.of_nat (List.length rows).
Proof.
  intros Hf. unfold count_items, items_of. cbn [items].
  rewrite filter_app, length_app, Nat2Z.inj_add. f_equal. f_equal.
  induction Hf as [|r rows Hr _ IH]; [reflexivity|].
  cbn [filter]. rewrite Hr. cbn [sqlval_is_int]. rewrite Z.eqb_refl.
  cbn [List.length]. rewrite IH. reflexivity.
Qed.

End PersistenceFacts.

(** Take the first call of the chain whose outcome decides the rest. *)
Ltac head_result :=
  match goal with
  | |- context [match ?x with Ok _ => _ | Raise _ => _ end] =>
      lazymatch x with
      | context [match _ with Ok _ => _ | Raise _ => _ end] => fail
      | _ => destruct x eqn:?
      end
  end.

Lemma run_result {S A : Type} (p : result A * S) (r : result A) :
  fst p = r -> p = (r, snd p).
Proof. intros <-. destruct p; reflexivity. Qed.

Section PrimaryPath.
Context {L : PyLib}.

Lemma save_item_total (doc_id : Z) (item : pyvalue) (st : world * Z) :
  exists st', save_item doc_id item st = (Ok tt, st').
Proof.
  unfold save_item, try_except.
  match goal with
  | |- context [match ?b st with _ => _ end] => destruct (b st) as [[[]|e] s']
  end; eexists; reflexivity.
Qed.

(** The loop of [save_ocr_to_db] never raises. *)
Lemma save_items_total (doc_id : Z) (elems : list pyvalue) (st : world * Z) :
  exists st', for_each elems (save_item doc_id) st = (Ok tt, st').
Proof.
  revert st. induction elems as [|item elems IH]; intros st.
  - eexists. reflexivity.
  - destruct (save_item_total doc_id item st) as [st1 H1].
    destruct (IH st1) as [st2 H2].
    exists st2. cbn [for_each]. unfold bind. rewrite H1. exact H2.
Qed.

(** What a run of [save_ocr_to_db] that returns has done. *)
Lemma save_ocr_to_db_ok (ocr_result : pyvalue) (w : world) (id : Z) (w' : world) :
  save_ocr_to_db ocr_result w = (Ok id, w') ->
  exists params c1 elems out w2 n,
    document_params (VStr "Unknown") (VFloat fzero) ocr_result = Ok params
    /\ insert_document params (conn w) = (Ok id, c1)
    /\ items_of_record ocr_result = Ok elems
    /\ for_each elems (save_item id) (mk_world c1 out, 0) = (Ok tt, (w2, n))
    /\ conn w' = mk_connection (working (conn w2)) (working (conn w2))
    /\ stdout w' =
       (stdout w2 ++
        [Committed n id;
         Verified (VTuple [VInt (count_items id (working (conn w2)))]) id;
         Warning n (VTuple [VInt (count_items id (working (conn w2)))])])%list.
Proof.
  unfold save_ocr_to_db, document_params, items_of_record.
  cbv beta iota delta [bind lift ret rbind].
  repeat (head_result; [|discriminate]).
  unfold on_conn at 1.
  match goal with
  | |- context [insert_document ?p (conn w)] =>
      destruct (insert_document p (conn w)) as [[id'|e] c1] eqn:Hins;
      [|discriminate]
  end.
  unfold print at 1, modify at 1. cbv beta iota.
  destruct (py_get ocr_result "items" (VList [])) as [items|]; [|discriminate].
  destruct (py_len items) as [len|]; [|discriminate].
  unfold print at 1, modify at 1. cbv beta iota.
  unfold print at 1, modify at 1. cbv beta iota.
  destruct (py_iter items) as [elems|]; [|discriminate].
  unfold with_local.
  match goal with
  | |- context [for_each elems (save_item id') ?st] =>
      destruct (save_items_total id' elems st) as [[w2 n] Hloop]
  end.
  rewrite Hloop.
  unfold on_conn, commit, select_count_items, print, modify.
  cbn [fst snd conn stdout working committed py_eq_int negb].
  intros [= <- <-].
  do 6 eexists. split; [reflexivity|]. split; [exact Hins|].
  split; [reflexivity|]. split; [exact Hloop|].
  cbn [conn stdout]. rewrite <- !app_assoc. split; reflexivity.
Qed.

(** The [documents] insert gives out the next id and adds one row to the
    open transaction. *)
Lemma insert_document_ok (params : list pyvalue) (c c1 : connection) (id : Z) :
  insert_document params c = (Ok id, c1) ->
  id = documents_seq (working c) + 1
  /\ committed c1 = committed c
  /\ items (working c1) = items (working c)
  /\ documents_seq (working c1) = id
  /\ exists row, documents (working c1) = (documents (working c) ++ [row])%list
                 /\ doc_id row = id.
Proof.
  unfold insert_document.
  destruct (bind_params params) as [vals|]; [|discriminate].
  do 13 (destruct vals as [|? vals]; [discriminate|]).
  destruct vals; [|discriminate].
  intros [= <- <-]. cbn. repeat split. eexists. split; reflexivity.
Qed.

Lemma next_id_in_range (t : tables) :
  tables_ok t -> int64_range (documents_seq t + 1) = true.
Proof.
  intros [[Hlo Hhi] _]. unfold int64_range.
  apply andb_true_iff. split; [apply Z.leb_le|apply Z.ltb_lt]; lia.
Qed.

(** The connection a returning run of [save_ocr_to_db] leaves. *)
Lemma save_ocr_to_db_conn (ocr_result : pyvalue) (w : world) (id : Z) (w' : world) :
  tables_ok (working (conn w)) ->
  save_ocr_to_db ocr_result w = (Ok id, w') ->
  exists params c1 elems,
    document_params (VStr "Unknown") (VFloat fzero) ocr_result = Ok params
    /\ insert_document params (conn w) = (Ok id, c1)
    /\ items_of_record ocr_result = Ok elems
    /\ conn w' = stored id elems c1.
Proof.
  intros Hok Hrun.
  destruct (save_ocr_to_db_ok _ _ _ _ Hrun)
    as (params & c1 & elems & out & w2 & n & Hp & Hins & Hit & Hloop & Hc & _).
  exists params, c1, elems. repeat (split; [assumption|]).
  destruct (insert_document_ok _ _ _ _ Hins) as (-> & _).
  destruct (save_items_spec _ elems (next_id_in_range _ Hok) (mk_world c1 out) 0)
    as [out' Hspec].
  rewrite Hspec in Hloop. injection Hloop as <- _.
  rewrite Hc. reflexivity.
Qed.

End PrimaryPath.

(** C9.  Whenever [save_ocr_to_db] returns, it has re-queried the item count
    after the commit and compared the number inserted with the row that
    [fetchone] returned; an integer is never equal to a tuple, so the
    warning is the last thing printed, on every run, and nothing is raised:
    the document id is returned. *)
Theorem verification_always_warns
  (L : PyLib) (ocr_result : pyvalue) (w : world) (id : Z) (w' : world) :
  save_ocr_to_db ocr_result w = (Ok id, w') ->
  exists out n,
    let saved_items_count := VTuple [VInt (count_items id (committed (conn w')))] in
    stdout w' = (out ++ [Committed n id; Verified saved_items_count id;
                         Warning n saved_items_count])%list
    /\ py_eq_int saved_items_count n = false.
Proof.
  intros Hrun.
  destruct (save_ocr_to_db_ok _ _ _ _ Hrun)
    as (params & c1 & elems & out & w2 & n & _ & _ & _ & _ & Hc & Hout).
  exists (stdout w2), n. rewrite Hc, Hout. split; reflexivity.
Qed.

Lemma verification_always_warns_witness :
  let r := @VDict Ref.dec
             [("items", VList [VDict [("description", VStr "Widget");
                                      ("quantity", VInt 2)]])] in
  let w := open_world (L := ref_lib) empty_tables in
  exists w',
    save_ocr_to_db (L := ref_lib) r w = (Ok 1, w')
    /\ exists out n,
         let saved_items_count := VTuple [VInt (count_items 1 (committed (conn w')))] in
         stdout w' = (out ++ [Committed n 1; Verified saved_items_count 1;
                              Warning n saved_items_count])%list
         /\ py_eq_int saved_items_count n = false.
Proof.
  intros r w.
  assert (Hrun : save_ocr_to_db (L := ref_lib) r w
                 = (Ok 1, snd (save_ocr_to_db (L := ref_lib) r w))).
  { apply run_result. vm_compute. reflexivity. }
  exists (snd (save_ocr_to_db (L := ref_lib) r w)). split; [exact Hrun|].
  apply (verification_always_warns ref_lib r w 1 _ Hrun).
Defined.

(** C3 as stated fails: an item with a description whose quantity is
    [null] is not (empty, 0), and is not stored. *)
Lemma count_is_nonempty_items_counterexample : ~ @count_is_nonempty_items ref_lib.
Proof.
  intros H.
  pose (r := @VDict Ref.dec
               [("items", VList [VDict [("description", VStr "Widget");
                                        ("quantity", VNone)]])]).
  pose (w := open_world (L := ref_lib) empty_tables).
  assert (Hok : tables_ok (working (conn w))) by (split; [cbn; lia|reflexivity]).
  assert (Hrun : save_ocr_to_db (L := ref_lib) r w
                 = (Ok 1, snd (save_ocr_to_db (L := ref_lib) r w))).
  { apply run_result. vm_compute. reflexivity. }
  specialize (H r _ w 1 _ Hok eq_refl Hrun).
  vm_compute in H. discriminate.
Qed.

(** C3, amended.  Whenever [save_ocr_to_db] returns, the row count of
    [items] for the new id is the number of items that are not (empty, 0)
    and can be stored: a dict whose quantity [int()] converts to a 64-bit
    integer, whose prices [float()] converts, and whose description sqlite
    binds.  The other items are skipped. *)
Theorem count_is_saved_items
  (L : PyLib) (ocr_result : pyvalue) (elems : list pyvalue)
  (w : world) (id : Z) (w' : world) :
  tables_ok (working (conn w)) ->
  items_of_record ocr_result = Ok elems ->
  save_ocr_to_db ocr_result w = (Ok id, w') ->
  count_items id (committed (conn w'))
  = Z.of_nat (List.length (filter item_saved elems)).
Proof.
  intros Hok Hit Hrun.
  destruct (save_ocr_to_db_conn _ _ _ _ Hok Hrun)
    as (params & c1 & elems' & _ & Hins & Hit' & Hc).
  rewrite Hit in Hit'. injection Hit' as <-.
  destruct (insert_document_ok _ _ _ _ Hins) as (Hid & _ & Hitems & Hseq & _).
  assert (Hr : int64_range id = true) by (subst id; apply next_id_in_range, Hok).
  destruct (store_items_tables id elems Hr c1) as (rows & Hw & _ & Hlen & Hrows).
  rewrite Hc. unfold stored. cbn [committed]. rewrite Hw.
  rewrite (count_items_app _ _ _ _ _ _ Hrows), Hlen, Hitems.
  replace (count_items id _) with (count_items id (working (conn w))) by reflexivity.
  rewrite (count_items_fresh _ id Hok) by lia. reflexivity.
Qed.

Lemma count_is_saved_items_witness :
  let r := @VDict Ref.dec
             [("items", VList [VDict [("description", VStr "Widget");
                                      ("quantity", VInt 2)];
                               VDict [("description", VStr "Gadget");
                                      ("quantity", VNone)];
                               VDict [("description", VStr "");
                                      ("quantity", VInt 0)]])] in
  let w := open_world (L := ref_lib) empty_tables in
  exists elems w',
    tables_ok (working (conn w))
    /\ items_of_record r = Ok elems
    /\ save_ocr_to_db (L := ref_lib) r w = (Ok 1, w')
    /\ count_items 1 (committed (conn w'))
       = Z.of_nat (List.length (filter item_saved elems)).
Proof.
  intros r w.
  assert (Hok : tables_ok (working (conn w))) by (split; [cbn; lia|reflexivity]).
  assert (Hrun : save_ocr_to_db (L := ref_lib) r w
                 = (Ok 1, snd (save_ocr_to_db (L := ref_lib) r w))).
  { apply run_result. vm_compute. reflexivity. }
  eexists. exists (snd (save_ocr_to_db (L := ref_lib) r w)).
  split; [exact Hok|]. split; [reflexivity|]. split; [exact Hrun|].
  apply (count_is_saved_items ref_lib r _ w 1 _ Hok eq_refl Hrun).
Defined.

(** ** The backup path and the fallback *)
Section BackupPath.
Context {L : PyLib}.

(** With [float(0) = 0.0] the two defaults give the same amount. *)
Lemma get_float_default (Hz : float_zero_contract) (d : pyvalue) (k : string) :
  get_float d k (VInt 0) = get_float d k (VFloat fzero).
Proof.
  unfold get_float, py_get. destruct d; try reflexivity.
  destruct (dict_get d k); [reflexivity|]. exact Hz.
Qed.

Lemma py_float_default (Hz : float_zero_contract) (d : pydict) (k : string) :
  py_float (get_or d k (VInt 0)) = py_float (get_or d k (VFloat fzero)).
Proof. unfold get_or. destruct (dict_get d k); [reflexivity|exact Hz]. Qed.

Lemma document_params_agree (Hz : float_zero_contract) (ocr_result : pyvalue) :
  vendor_named ocr_result = true ->
  document_params (VStr "") (VInt 0) ocr_result
  = document_params (VStr "Unknown") (VFloat fzero) ocr_result.
Proof.
  unfold vendor_named, document_params. intros Hv.
  destruct (py_get ocr_result "vendor" (VDict [])) as [vendor|]; [|discriminate].
  destruct vendor as [| | | | | | | d]; try discriminate.
  unfold dict_has in Hv. cbn [rbind py_get].
  destruct (dict_get d "name"); [|discriminate].
  cbv beta iota delta [rbind].
  repeat (try rewrite !(get_float_default Hz); head_result; [|reflexivity]).
  reflexivity.
Qed.

(** On an item the primary path stores, the backup path stores the same
    row. *)
Lemma save_invoice_item_saved (Hz : float_zero_contract) (doc_id : Z)
      (item : pyvalue) (w : world) :
  int64_range doc_id = true ->
  item_saved item = true ->
  save_invoice_item doc_id item w
  = (Ok tt, mk_world (store_item doc_id (conn w) item) (stdout w)).
Proof.
  intros Hid Hs. unfold store_item. rewrite Hs.
  unfold item_saved, item_storable, item_values in *.
  apply andb_true_iff in Hs as [_ Hs].
  destruct item as [| | | | | | | d]; try discriminate.
  repeat (apply andb_true_iff in Hs as [Hs ?]).
  unfold save_invoice_item, get_float, bind, lift, on_conn. cbn [py_get rbind].
  fold (get_or d "description" (VStr "")).
  fold (get_or d "quantity" (VInt 0)).
  fold (get_or d "unit_price" (VInt 0)).
  fold (get_or d "amount" (VInt 0)).
  rewrite !(py_float_default Hz).
  destruct (py_int (get_or d "quantity" (VInt 0))) as [q|]; [|discriminate].
  destruct (py_float (get_or d "unit_price" (VFloat fzero))); [|discriminate].
  destruct (py_float (get_or d "amount" (VFloat fzero))); [|discriminate].
  match goal with |- context [insert_item ?p (conn w)] =>
    destruct (insert_item p (conn w)) as [[[]|e] c'] eqn:Hins end.
  - reflexivity.
  - exfalso. unfold insert_item in Hins.
    cbn [bind_params bind_param rbind converts] in *. rewrite Hid in Hins.
    destruct (bind_param (get_or d "description" (VStr ""))); [|discriminate].
    destruct (int64_range q); discriminate.
Qed.

Lemma save_invoice_items_saved (Hz : float_zero_contract) (doc_id : Z)
      (elems : list pyvalue) :
  int64_range doc_id = true ->
  forallb item_saved elems = true ->
  forall w,
    for_each elems (save_invoice_item doc_id) w
    = (Ok tt, mk_world (fold_left (store_item doc_id) elems (conn w)) (stdout w)).
Proof.
  intros Hid. induction elems as [|item elems IH]; intros Hall w.
  - destruct w; reflexivity.
  - cbn [forallb] in Hall. apply andb_true_iff in Hall as [Hs Hall].
    cbn [for_each fold_left]. unfold bind.
    rewrite (save_invoice_item_saved Hz _ _ _ Hid Hs), (IH Hall). reflexivity.
Qed.

(** A run of [save_invoice_to_db] whose steps all succeed. *)
Lemma save_invoice_to_db_run (ocr_result : pyvalue) (w w3 : world)
      (params elems : list pyvalue) (id : Z) (c1 : connection) :
  document_params (VStr "") (VInt 0) ocr_result = Ok params ->
  insert_document params (conn w) = (Ok id, c1) ->
  items_of_record ocr_result = Ok elems ->
  for_each elems (save_invoice_item id) (mk_world c1 (stdout w)) = (Ok tt, w3) ->
  save_invoice_to_db ocr_result w
  = (Ok id, mk_world (mk_connection (working (conn w3)) (working (conn w3)))
                     (stdout w3)).
Proof.
  unfold save_invoice_to_db, document_params, items_of_record, try_except.
  cbv beta iota delta [bind lift ret rbind].
  repeat (head_result; [|discriminate]).
  intros [= <-] Hins [= <-] Hloop.
  unfold on_conn at 1. rewrite Hins, Hloop. reflexivity.
Qed.

End BackupPath.

(** C10 as stated fails: on the item of the extraction prompt's template
    (no description, quantity 0) the primary path stores no row and the
    backup path stores one. *)
Lemma paths_equivalent_counterexample : ~ @paths_equivalent ref_lib.
Proof.
  intros H.
  pose (r := @VDict Ref.dec
               [("vendor", VDict [("name", VStr "Acme")]);
                ("items", VList [VDict [("description", VStr "");
                                        ("quantity", VInt 0);
                                        ("unit_price", VFloat (Ref.mk_dec 0 0));
                                        ("amount", VFloat (Ref.mk_dec 0 0))]])]).
  pose (w := open_world (L := ref_lib) empty_tables).
  assert (H1 : save_ocr_to_db (L := ref_lib) r w
               = (Ok 1, snd (save_ocr_to_db (L := ref_lib) r w))).
  { apply run_result. vm_compute. reflexivity. }
  assert (H2 : save_invoice_to_db (L := ref_lib) r w
               = (Ok 1, snd (save_invoice_to_db (L := ref_lib) r w))).
  { apply run_result. vm_compute. reflexivity. }
  specialize (H r w _ _ _ _ H1 H2).
  apply (f_equal (fun t => List.length (items t))) in H.
  vm_compute in H. discriminate.
Qed.

(** C10, amended.  For a record whose vendor group has a [name] and whose
    items are all stored by the primary path (none is (empty, 0), all
    convert), the backup path returns the same document id and leaves the
    same tables as the primary path: the same [documents] row and the same
    [items] rows.  Elsewhere the two differ: a missing vendor name is
    ["Unknown"] on the primary path and empty on the backup path, and the
    primary path skips the items that the backup path stores or fails on. *)
Theorem paths_agree_on_plain_records
  (L : PyLib) (ocr_result : pyvalue) (elems : list pyvalue)
  (w : world) (id : Z) (w1 : world) :
  float_zero_contract ->
  tables_ok (working (conn w)) ->
  vendor_named ocr_result = true ->
  items_of_record ocr_result = Ok elems ->
  forallb item_saved elems = true ->
  save_ocr_to_db ocr_result w = (Ok id, w1) ->
  exists w2,
    save_invoice_to_db ocr_result w = (Ok id, w2) /\ conn w2 = conn w1.
Proof.
  intros Hz Hok Hv Hit Hall Hrun.
  destruct (save_ocr_to_db_conn _ _ _ _ Hok Hrun)
    as (params & c1 & elems' & Hp & Hins & Hit' & Hc).
  rewrite Hit in Hit'. injection Hit' as <-.
  destruct (insert_document_ok _ _ _ _ Hins) as (Hid & _).
  assert (Hr : int64_range id = true) by (subst id; apply next_id_in_range, Hok).
  rewrite <- (document_params_agree Hz _ Hv) in Hp.
  pose proof (save_invoice_items_saved Hz id elems Hr Hall (mk_world c1 (stdout w)))
    as Hloop.
  pose proof (save_invoice_to_db_run ocr_result w _ params elems id c1
                Hp Hins Hit Hloop) as Hb.
  eexists. split; [exact Hb|].
  cbn [conn]. rewrite Hc. reflexivity.
Qed.

Lemma paths_agree_on_plain_records_witness :
  let r := @VDict Ref.dec
             [("vendor", VDict [("name", VStr "Acme")]);
              ("items", VList [VDict [("description", VStr "Widget");
                                      ("quantity", VInt 2);
                                      ("unit_price", VInt 5);
                                      ("amount", VInt 10)]])] in
  let w := open_world (L := ref_lib) empty_tables in
  @float_zero_contract ref_lib
  /\ tables_ok (working (conn w))
  /\ vendor_named r = true
  /\ exists elems w1 w2,
       items_of_record r = Ok elems
       /\ forallb item_saved elems = true
       /\ save_ocr_to_db (L := ref_lib) r w = (Ok 1, w1)
       /\ save_invoice_to_db (L := ref_lib) r w = (Ok 1, w2)
       /\ conn w2 = conn w1.
Proof.
  intros r w.
  assert (Hok : tables_ok (working (conn w))) by (split; [cbn; lia|reflexivity]).
  assert (Hv : vendor_named r = true) by reflexivity.
  assert (Hit : items_of_record r
                = Ok [VDict [("description", VStr "Widget"); ("quantity", VInt 2);
                             ("unit_price", VInt 5); ("amount", VInt 10)]])
    by reflexivity.
  assert (Hall : forallb item_saved
                   [@VDict Ref.dec [("description", VStr "Widget");
                                    ("quantity", VInt 2);
                                    ("unit_price", VInt 5);
                                    ("amount", VInt 10)]] = true)
    by (vm_compute; reflexivity).
  assert (Hrun : save_ocr_to_db (L := ref_lib) r w
                 = (Ok 1, snd (save_ocr_to_db (L := ref_lib) r w))).
  { apply run_result. vm_compute. reflexivity. }
  split; [exact ref_float_zero_contract|]. split; [exact Hok|]. split; [exact Hv|].
  destruct (paths_agree_on_plain_records ref_lib r _ w 1 _
              ref_float_zero_contract Hok Hv Hit Hall Hrun) as (w2 & H2 & Hc).
  eexists. exists (snd (save_ocr_to_db (L := ref_lib) r w)), w2.
  repeat (split; [eassumption|]). exact Hc.
Defined.

(** ** Failures of the persistence paths *)
Section Failure.
Context {L : PyLib}.

Lemma insert_document_committed (params : list pyvalue) (c c1 : connection)
      (r : result Z) :
  insert_document params c = (r, c1) -> committed c1 = committed c.
Proof.
  unfold insert_document.
  destruct (bind_params params) as [vals|]; [|intros [= _ <-]; reflexivity].
  do 13 (destruct vals as [|? vals]; [intros [= _ <-]; reflexivity|]).
  destruct vals; intros [= _ <-]; reflexivity.
Qed.

Lemma insert_item_committed (params : list pyvalue) (c c1 : connection)
      (r : result unit) :
  insert_item params c = (r, c1) -> committed c1 = committed c.
Proof.
  unfold insert_item.
  destruct (bind_params params) as [vals|]; [|intros [= _ <-]; reflexivity].
  do 5 (destruct vals as [|? vals]; [intros [= _ <-]; reflexivity|]).
  destruct vals; intros [= _ <-]; reflexivity.
Qed.

Lemma save_invoice_item_committed (doc_id : Z) (item : pyvalue) (w w1 : world)
      (r : result unit) :
  save_invoice_item doc_id item w = (r, w1) ->
  committed (conn w1) = committed (conn w) /\ stdout w1 = stdout w.
Proof.
  unfold save_invoice_item.
  cbv beta iota delta [bind lift ret rbind].
  repeat (head_result; [|intros [= _ <-]; split; reflexivity]).
  unfold on_conn.
  match goal with
  | |- context [insert_item ?p (conn w)] =>
      destruct (insert_item p (conn w)) as [r' c'] eqn:Hins
  end.
  intros [= _ <-]. cbn. split; [|reflexivity].
  eapply insert_item_committed. exact Hins.
Qed.

Lemma save_invoice_items_committed (doc_id : Z) (elems : list pyvalue) :
  forall (w w1 : world) (r : result unit),
    for_each elems (save_invoice_item doc_id) w = (r, w1) ->
    committed (conn w1) = committed (conn w) /\ stdout w1 = stdout w.
Proof.
  induction elems as [|item elems IH]; intros w w1 r.
  - intros [= _ <-]. split; reflexivity.
  - cbn [for_each]. unfold bind.
    destruct (save_invoice_item doc_id item w) as [[[]|e] w0] eqn:H0.
    + intros H1. apply IH in H1 as [-> ->].
      eapply save_invoice_item_committed. exact H0.
    + intros [= _ <-]. eapply save_invoice_item_committed. exact H0.
Qed.

(** A failure of the backup path: everything it did is rolled back, and
    the caller gets ["Database save failed: "]. *)
Lemma save_invoice_to_db_rolls_back (ocr_result : pyvalue) (w w' : world) (e : exn) :
  save_invoice_to_db ocr_result w = (Raise e, w') ->
  (exists cause, e = Exception "Database save failed: " cause)
  /\ conn w' = mk_connection (committed (conn w)) (committed (conn w))
  /\ stdout w' = stdout w.
Proof.
  unfold save_invoice_to_db, try_except.
  cbv beta iota delta [bind lift ret rbind].
  repeat (head_result;
          [|cbn; intros [= <- <-]; split; [eexists; reflexivity|split; reflexivity]]).
  unfold on_conn at 1.
  match goal with
  | |- context [insert_document ?p (conn w)] =>
      destruct (insert_document p (conn w)) as [[id|e0] c1] eqn:Hins;
      apply insert_document_committed in Hins
  end.
  2:{ cbn. intros [= <- <-]. rewrite Hins.
      split; [eexists; reflexivity|split; reflexivity]. }
  repeat (head_result;
          [|cbn; intros [= <- <-]; rewrite Hins;
            split; [eexists; reflexivity|split; reflexivity]]).
  match goal with
  | |- context [for_each ?l ?b ?s] =>
      destruct (for_each l b s) as [[[]|e1] w3] eqn:Hloop;
      apply save_invoice_items_committed in Hloop as [Hc Hs]
  end.
  - cbn. discriminate.
  - cbn. intros [= <- <-]. rewrite Hc, Hs. cbn. rewrite Hins.
    split; [eexists; reflexivity|split; reflexivity].
Qed.

(** A failure of the primary path happens before its commit: what is
    committed has not changed (what is pending stays pending). *)
Lemma save_ocr_to_db_raises_uncommitted (ocr_result : pyvalue) (w w' : world)
      (e : exn) :
  save_ocr_to_db ocr_result w = (Raise e, w') ->
  committed (conn w') = committed (conn w).
Proof.
  unfold save_ocr_to_db.
  cbv beta iota delta [bind lift ret rbind].
  repeat (head_result; [|intros [= _ <-]; reflexivity]).
  unfold on_conn at 1.
  match goal with
  | |- context [insert_document ?p (conn w)] =>
      destruct (insert_document p (conn w)) as [[id|e0] c1] eqn:Hins;
      apply insert_document_committed in Hins
  end.
  2:{ intros [= _ <-]. exact Hins. }
  unfold print at 1, modify at 1. cbv beta iota.
  repeat (head_result; [|intros [= _ <-]; exact Hins]).
  unfold print at 1, modify at 1. cbv beta iota.
  unfold print at 1, modify at 1. cbv beta iota.
  repeat (head_result; [|intros [= _ <-]; exact Hins]).
  unfold with_local.
  match goal with
  | |- context [for_each ?l (save_item id) ?st] =>
      destruct (save_items_total id l st) as [[w2 n] Hloop]
  end.
  rewrite Hloop. cbn. discriminate.
Qed.

(** The database step of [process_image]: when it fails, nothing has been
    saved and the caller is told so. *)
Lemma process_image_save_raises (ocr_result : pyvalue) (w w' : world) (e : exn) :
  process_image_save ocr_result w = (Raise e, w') ->
  (exists cause, e = Exception "Database save failed: " cause)
  /\ conn w' = mk_connection (committed (conn w)) (committed (conn w)).
Proof.
  unfold process_image_save, try_finally, try_except.
  destruct (save_ocr_to_db ocr_result w) as [[id|e0] w1] eqn:H1.
  - cbn. discriminate.
  - apply save_ocr_to_db_raises_uncommitted in H1.
    destruct (save_invoice_to_db ocr_result w1) as [[id|e1] w2] eqn:H2.
    + cbn. discriminate.
    + apply save_invoice_to_db_rolls_back in H2 as (Hcause & Hc & _).
      cbn. intros [= <- <-]. split; [exact Hcause|].
      cbn. rewrite Hc. cbn. rewrite H1. reflexivity.
Qed.
End Failure.

(** ** The fallback of [process_image] *)
Section Fallback.
Context {L : PyLib}.

Lemma bind_params_length (params : list pyvalue) (vals : list sqlval) :
  bind_params params = Ok vals -> List.length vals = List.length params.
Proof.
  revert vals. induction params as [|v params IH]; intros vals.
  - intros [= <-]. reflexivity.
  - cbn [bind_params rbind]. destruct (bind_param v); [|discriminate].
    destruct (bind_params params) as [xs|]; [|discriminate].
    intros [= <-]. cbn. rewrite (IH xs eq_refl). reflexivity.
Qed.

Lemma py_iter_len (v : pyvalue) (l : list pyvalue) :
  py_iter v = Ok l -> exists n, py_len v = Ok n.
Proof. destruct v; try discriminate; intros _; eexists; reflexivity. Qed.

(** [save_ocr_to_db] returns as soon as the document parameters can be
    computed and bound and [items] can be iterated. *)
Lemma save_ocr_to_db_returns (ocr_result : pyvalue) (w : world)
      (params : list pyvalue) (vals : list sqlval) (elems : list pyvalue) :
  document_params (VStr "Unknown") (VFloat fzero) ocr_result = Ok params ->
  bind_params params = Ok vals ->
  items_of_record ocr_result = Ok elems ->
  exists id w', save_ocr_to_db ocr_result w = (Ok id, w').
Proof.
  unfold save_ocr_to_db, document_params, items_of_record.
  cbv beta iota delta [bind lift ret rbind].
  repeat (head_result; [|discriminate]).
  intros [= <-] Hb. pose proof (bind_params_length _ _ Hb) as Hlen.
  unfold on_conn at 1, insert_document. rewrite Hb.
  do 13 (destruct vals as [|? vals]; [discriminate Hlen|]).
  destruct vals; [|discriminate Hlen].
  unfold print at 1, modify at 1. cbv beta iota.
  destruct (py_get ocr_result "items" (VList [])) as [items|]; [|discriminate].
  intros Hit. destruct (py_iter_len _ _ Hit) as [n ->]. rewrite Hit.
  unfold print at 1, modify at 1. cbv beta iota.
  unfold print at 1, modify at 1. cbv beta iota.
  unfold with_local.
  match goal with
  | |- context [for_each elems (save_item ?i) ?st] =>
      destruct (save_items_total i elems st) as [[w2 m] Hloop]
  end.
  rewrite Hloop. do 2 eexists. reflexivity.
Qed.

(** What a run of [save_invoice_to_db] that returns has done. *)
Lemma save_invoice_to_db_ok (ocr_result : pyvalue) (w : world) (id : Z) (w' : world) :
  save_invoice_to_db ocr_result w = (Ok id, w') ->
  exists params c1 elems,
    document_params (VStr "") (VInt 0) ocr_result = Ok params
    /\ insert_document params (conn w) = (Ok id, c1)
    /\ items_of_record ocr_result = Ok elems.
Proof.
  unfold save_invoice_to_db, document_params, items_of_record, try_except.
  cbv beta iota delta [bind lift ret rbind].
  repeat (head_result; [|cbn; discriminate]).
  unfold on_conn at 1.
  match goal with
  | |- context [insert_document ?p (conn w)] =>
      destruct (insert_document p (conn w)) as [[id'|e] c1] eqn:Hins;
      [|cbn; discriminate]
  end.
  repeat (head_result; [|cbn; discriminate]).
  match goal with
  | |- context [for_each ?l ?b ?s] =>
      destruct (for_each l b s) as [[[]|e1] w3]; [|cbn; discriminate]
  end.
  cbn. intros [= <- <-]. do 3 eexists. repeat split. exact Hins.
Qed.

Lemma insert_document_binds (params : list pyvalue) (c c1 : connection) (id : Z) :
  insert_document params c = (Ok id, c1) -> exists vals, bind_params params = Ok vals.
Proof.
  unfold insert_document. destruct (bind_params params) as [vals|]; [|discriminate].
  intros _. eexists. reflexivity.
Qed.

(** The parameters of the primary path can be computed and bound whenever
    those of the backup path can. *)
Lemma document_params_transfer (ocr_result : pyvalue) (params : list pyvalue)
      (vals : list sqlval) :
  document_params (VStr "") (VInt 0) ocr_result = Ok params ->
  bind_params params = Ok vals ->
  exists params' vals',
    document_params (VStr "Unknown") (VFloat fzero) ocr_result = Ok params'
    /\ bind_params params' = Ok vals'.
Proof.
  unfold document_params, get_float.
  destruct (py_get ocr_result "vendor" (VDict [])) as [vendor|]; [|discriminate].
  destruct vendor as [| | | | | | | d]; try discriminate.
  cbn [py_get rbind].
  destruct (py_get ocr_result "order_details" (VDict [])) as [order|];
    [|discriminate].
  destruct order as [| | | | | | | o]; try discriminate.
  cbn [py_get rbind].
  destruct (py_get ocr_result "payment_details" (VDict [])) as [payment|];
    [|discriminate].
  destruct payment as [| | | | | | | p]; try discriminate.
  cbn [py_get rbind].
  destruct (dict_get d "name"), (dict_get p "subtotal"), (dict_get p "tax"),
    (dict_get p "total");
    cbn [py_float]; cbv beta iota delta [rbind];
    repeat (head_result; [|discriminate]);
    intros [= <-]; cbn [bind_params bind_param]; cbv beta iota delta [rbind];
    repeat (head_result; [|discriminate]);
    intros _; do 2 eexists; (split; [reflexivity|]);
    cbn [bind_params bind_param]; cbv beta iota delta [rbind];
    repeat match goal with
           | H : bind_param _ = Ok _ |- _ => rewrite H; clear H
           end;
    reflexivity.
Qed.

(** The backup path cannot return where the primary path has raised. *)
Lemma fallback_never_returns (ocr_result : pyvalue) (w w1 : world) (e : exn) :
  save_ocr_to_db ocr_result w = (Raise e, w1) ->
  exists e' w2, save_invoice_to_db ocr_result w1 = (Raise e', w2).
Proof.
  intros Hp.
  destruct (save_invoice_to_db ocr_result w1) as [[id|e'] w2] eqn:Hb.
  - exfalso.
    destruct (save_invoice_to_db_ok _ _ _ _ Hb) as (params & c1 & elems & Hd & Hins & Hit).
    destruct (insert_document_binds _ _ _ _ Hins) as [vals Hv].
    destruct (document_params_transfer _ _ _ Hd Hv) as (params' & vals' & Hd' & Hv').
    destruct (save_ocr_to_db_returns ocr_result w _ _ _ Hd' Hv' Hit) as (id' & w' & Hr).
    congruence.
  - eauto.
Qed.

(** The database step of [process_image] returns exactly when the primary
    path does, with what the primary path committed. *)
Lemma process_image_save_returns (ocr_result : pyvalue) (w w' : world) (id : Z) :
  process_image_save ocr_result w = (Ok id, w') ->
  exists w1, save_ocr_to_db ocr_result w = (Ok id, w1) /\ conn w' = conn w1.
Proof.
  unfold process_image_save, try_finally, try_except.
  destruct (save_ocr_to_db ocr_result w) as [[id1|e] w1] eqn:Hp.
  - destruct (save_ocr_to_db_ok _ _ _ _ Hp)
      as (_ & _ & _ & _ & w2 & _ & _ & _ & _ & _ & Hc & _).
    cbn. intros [= <- <-]. exists w1. split; [reflexivity|].
    cbn. rewrite Hc. reflexivity.
  - destruct (fallback_never_returns _ _ _ _ Hp) as (e' & w2 & Hb).
    rewrite Hb. cbn. discriminate.
Qed.

(** A degraded record is persisted like any other. *)
Lemma degraded_records_are_saved (text msg : string) (w : world) :
  (exists id w', save_ocr_to_db (no_json_record text) w = (Ok id, w'))
  /\ (exists id w', save_ocr_to_db (parse_error_record msg text) w = (Ok id, w')).
Proof.
  split; eapply save_ocr_to_db_returns; reflexivity.
Qed.
End Fallback.


(** C4.  On the record that [parse_ocr_response] returns for
    [{"items": null}], [save_ocr_to_db] inserts the [documents] row, fails
    on [len(items)] and leaves: the [TypeError] reaches the caller as it
    is, and the row stays pending on the connection, which is not rolled
    back.  (The fallback of [process_image] then runs
    [save_invoice_to_db] on the same connection, which fails as well and
    rolls both rows back.) *)
Theorem save_ocr_to_db_leaves_pending_row :
  exists r,
    parse_ocr_response (L := ref_lib) (VStr ("{" ++ Sample.q "items" ++ ": null}"))
    = Ok r
    /\ fst (save_ocr_to_db r (open_world empty_tables)) = Raise TypeError
    /\ List.length (documents (committed (conn (snd
         (save_ocr_to_db r (open_world empty_tables)))))) = 0%nat
    /\ List.length (documents (working (conn (snd
         (save_ocr_to_db r (open_world empty_tables)))))) = 1%nat
    /\ fst (process_image_save r (open_world empty_tables))
       = Raise (Exception "Database save failed: " TypeError)
    /\ List.length (documents (working (conn (snd
         (process_image_save r (open_world empty_tables)))))) = 0%nat.
Proof.
  eexists. split; [vm_compute; reflexivity|].
  repeat split; vm_compute; reflexivity.
Qed.

(** The end-to-end example of the specification. *)
Example end_to_end :
  exists r,
    parse_ocr_response (L := ref_lib) (VStr Sample.fenced_invoice) = Ok r
    /\ field_of r "vendor" = Some (VDict [("name", VStr "Acme")])
    /\ fst (process_image_save r (open_world empty_tables)) = Ok 1
    /\ List.map vendor_name (documents (committed (conn (snd
         (process_image_save r (open_world empty_tables))))))
       = [SqlText "Acme"]
    /\ List.map (fun i => (description i, quantity i, amount i))
         (items (committed (conn (snd
            (process_image_save r (open_world empty_tables))))))
       = [(SqlText "Widget", SqlInt 2, SqlReal (Ref.mk_dec 10 0))].
Proof.
  eexists. split; [vm_compute; reflexivity|].
  repeat split; reflexivity.
Qed.

(** * Further properties of the code *)

(** ** Persistence: what a save leaves in the tables *)
Section SaveFacts.
Context {L : PyLib}.

Lemma document_params_shape (name_default zero ocr_result : pyvalue)
      (params : list pyvalue) :
  document_params name_default zero ocr_result = Ok params ->
  exists name p2 p3 p4 p5 p6 p7 p8 p9 p10 p11 p12,
    vendor_name_of ocr_result name_default = Ok name
    /\ params = [name; p2; p3; p4; p5; p6; p7; p8; p9; p10; p11; p12;
                 VStr (json_dumps ocr_result)].
Proof.
  unfold document_params, vendor_name_of.
  cbv beta iota delta [rbind].
  repeat (head_result; [|discriminate]).
  intros [= <-]. do 12 eexists. split; reflexivity.
Qed.

Lemma insert_document_row (p1 p2 p3 p4 p5 p6 p7 p8 p9 p10 p11 p12 p13 : pyvalue)
      (c c1 : connection) (id : Z) :
  insert_document [p1; p2; p3; p4; p5; p6; p7; p8; p9; p10; p11; p12; p13] c
  = (Ok id, c1) ->
  exists row,
    documents (working c1) = (documents (working c) ++ [row])%list
    /\ doc_id row = id
    /\ bind_param p1 = Ok (vendor_name row)
    /\ bind_param p13 = Ok (raw_data row).
Proof.
  unfold insert_document. cbn [bind_params]. cbv beta iota delta [rbind].
  repeat (head_result; [|discriminate]).
  intros [= <- <-]. eexists. cbn. repeat split.
Qed.

(** The tables after a run of [save_ocr_to_db] that returns. *)
Lemma save_ocr_to_db_tables (ocr_result : pyvalue) (w : world) (id : Z) (w' : world) :
  tables_ok (working (conn w)) ->
  save_ocr_to_db ocr_result w = (Ok id, w') ->
  exists row rows name elems,
    working (conn w') = committed (conn w')
    /\ committed (conn w')
       = mk_tables (documents (working (conn w)) ++ [row])
                   (items (working (conn w)) ++ rows)
                   id
                   (items_seq (working (conn w)) + Z.of_nat (List.length rows))
    /\ id = documents_seq (working (conn w)) + 1
    /\ doc_id row = id
    /\ vendor_name_of ocr_result (VStr "Unknown") = Ok name
    /\ bind_param name = Ok (vendor_name row)
    /\ raw_data row = SqlText (json_dumps ocr_result)
    /\ items_of_record ocr_result = Ok elems
    /\ List.length rows = List.length (filter item_saved elems)
    /\ Forall (fun r => document_id r = SqlInt id) rows.
Proof.
  intros Hok Hrun.
  destruct (save_ocr_to_db_conn _ _ _ _ Hok Hrun)
    as (params & c1 & elems & Hp & Hins & Hit & Hc).
  destruct (document_params_shape _ _ _ _ Hp)
    as (name & p2 & p3 & p4 & p5 & p6 & p7 & p8 & p9 & p10 & p11 & p12 & Hn & ->).
  destruct (insert_document_row _ _ _ _ _ _ _ _ _ _ _ _ _ _ _ _ Hins)
    as (row & Hdocs & Hrow & Hname & Hraw).
  destruct (insert_document_ok _ _ _ _ Hins) as (Hid & _ & Hitems & Hseq & _).
  assert (Hitseq : items_seq (working c1) = items_seq (working (conn w))).
  { revert Hins. unfold insert_document.
    destruct (bind_params _) as [vals|]; [|discriminate].
    do 13 (destruct vals as [|? vals]; [discriminate|]).
    destruct vals; [|discriminate]. intros [= _ <-]. reflexivity. }
  assert (Hr : int64_range id = true) by (rewrite Hid; apply next_id_in_range, Hok).
  destruct (store_items_tables id elems Hr c1) as (rows & Hw & _ & Hlen & Hrows).
  exists row, rows, name, elems.
  rewrite Hc. unfold stored. cbn [working committed]. rewrite Hw.
  rewrite Hdocs, Hitems, Hseq, Hitseq.
  cbn [bind_param] in Hraw. injection Hraw as Hraw.
  repeat split; auto.
Qed.

End SaveFacts.



(** X2.  Two saves in a row on one connection get consecutive ids: the
    second document id is the first plus one. *)
Theorem successive_saves_get_consecutive_ids
  (L : PyLib) (r1 r2 : pyvalue) (w w1 w2 : world) (id1 id2 : Z) :
  tables_ok (working (conn w)) ->
  save_ocr_to_db r1 w = (Ok id1, w1) ->
  save_ocr_to_db r2 w1 = (Ok id2, w2) ->
  id2 = id1 + 1.
Proof.
  intros Hok H1 H2.
  destruct (save_ocr_to_db_tables _ _ _ _ Hok H1)
    as (row & rows & name & elems & Hw & Hc & _).
  destruct (save_ocr_to_db_ok _ _ _ _ H2)
    as (params & c1 & _ & _ & _ & _ & _ & Hins & _).
  destruct (insert_document_ok _ _ _ _ Hins) as (-> & _).
  rewrite Hw, Hc. reflexivity.
Qed.

Lemma successive_saves_get_consecutive_ids_witness :
  let r := @VDict Ref.dec [("vendor", VDict [("name", VStr "Acme")])] in
  let w := open_world (L := ref_lib) empty_tables in
  let w1 := snd (save_ocr_to_db (L := ref_lib) r w) in
  let w2 := snd (save_ocr_to_db (L := ref_lib) r w1) in
  tables_ok (working (conn w))
  /\ save_ocr_to_db (L := ref_lib) r w = (Ok 1, w1)
  /\ save_ocr_to_db (L := ref_lib) r w1 = (Ok 2, w2)
  /\ 2 = 1 + 1.
Proof.
  intros r w w1 w2.
  assert (Hok : tables_ok (working (conn w))) by (split; [cbn; lia|reflexivity]).
  assert (H1 : save_ocr_to_db (L := ref_lib) r w = (Ok 1, w1)).
  { apply run_result. vm_compute. reflexivity. }
  assert (H2 : save_ocr_to_db (L := ref_lib) r w1 = (Ok 2, w2)).
  { apply run_result. vm_compute. reflexivity. }
  repeat (split; [assumption|]).
  apply (successive_saves_get_consecutive_ids ref_lib r r w w1 w2 1 2 Hok H1 H2).
Defined.

Section InvariantFacts.
Context {L : PyLib}.

Lemma well_formed_refs (t : tables) :
  ids_bounded t = true -> referential t = true ->
  forallb (item_ref_ok (documents_seq t)) (items t) = true.
Proof.
  unfold ids_bounded, referential. intros Hb Hr.
  apply forallb_forall. intros r Hin.
  rewrite forallb_forall in Hr. specialize (Hr r Hin).
  apply existsb_exists in Hr as (d & Hd & Heq).
  rewrite forallb_forall in Hb. specialize (Hb d Hd).
  unfold item_ref_ok. unfold sqlval_is_int in Heq.
  destruct (document_id r) as [|m| |]; try reflexivity.
  apply Z.eqb_eq in Heq. subst m. exact Hb.
Qed.

Lemma well_formed_tables_ok (t : tables) :
  well_formed t -> documents_seq t < 2 ^ 63 - 1 -> tables_ok t.
Proof.
  intros (H0 & Hb & Hr) Hlt. split; [lia|]. apply well_formed_refs; assumption.
Qed.

End InvariantFacts.

(** X3.  Saving keeps the tables well formed: no document id is beyond the
    counter, and every [items] row has its parent in [documents] (the
    document row is inserted before its items, with the id they are bound
    to). *)
Theorem save_keeps_tables_well_formed
  (L : PyLib) (ocr_result : pyvalue) (w : world) (id : Z) (w' : world) :
  well_formed (working (conn w)) ->
  documents_seq (working (conn w)) < 2 ^ 63 - 1 ->
  save_ocr_to_db ocr_result w = (Ok id, w') ->
  well_formed (committed (conn w')).
Proof.
  intros Hwf Hlt Hrun.
  pose proof (well_formed_tables_ok _ Hwf Hlt) as Hok.
  destruct (save_ocr_to_db_tables _ _ _ _ Hok Hrun)
    as (row & rows & name & elems & _ & Hc & Hid & Hrow & _ & _ & _ & _ & _ & Hf).
  destruct Hwf as (H0 & Hb & Hr).
  rewrite Hc. unfold well_formed, ids_bounded, referential.
  cbn [documents items documents_seq].
  split; [lia|]. split.
  - rewrite forallb_app. apply andb_true_iff. split.
    + unfold ids_bounded in Hb. rewrite forallb_forall in *.
      intros d Hd. specialize (Hb d Hd). apply Z.leb_le in Hb. apply Z.leb_le. lia.
    + cbn. rewrite Hrow, Z.leb_refl. reflexivity.
  - rewrite forallb_app. apply andb_true_iff. split.
    + unfold referential in Hr. rewrite forallb_forall in *.
      intros r Hin. specialize (Hr r Hin). rewrite existsb_app, Hr. reflexivity.
    + apply forallb_forall. intros r Hin.
      rewrite Forall_forall in Hf. rewrite (Hf r Hin).
      rewrite existsb_app. cbn. rewrite Hrow, Z.eqb_refl.
      rewrite orb_true_r. reflexivity.
Qed.

Lemma save_keeps_tables_well_formed_witness :
  let r := @VDict Ref.dec
             [("items", VList [VDict [("description", VStr "Widget");
                                      ("quantity", VInt 2)]])] in
  let w := open_world (L := ref_lib) empty_tables in
  well_formed (working (conn w))
  /\ documents_seq (working (conn w)) < 2 ^ 63 - 1
  /\ exists w', save_ocr_to_db (L := ref_lib) r w = (Ok 1, w')
                /\ well_formed (committed (conn w')).
Proof.
  intros r w.
  assert (Hwf : well_formed (working (conn w))).
  { split; [cbn; lia|]. split; reflexivity. }
  assert (Hlt : documents_seq (working (conn w)) < 2 ^ 63 - 1) by (cbn; lia).
  assert (Hrun : save_ocr_to_db (L := ref_lib) r w
                 = (Ok 1, snd (save_ocr_to_db (L := ref_lib) r w))).
  { apply run_result. vm_compute. reflexivity. }
  split; [exact Hwf|]. split; [exact Hlt|].
  exists (snd (save_ocr_to_db (L := ref_lib) r w)). split; [exact Hrun|].
  apply (save_keeps_tables_well_formed ref_lib r w 1 _ Hwf Hlt Hrun).
Defined.
Section DegradedFacts.
Context {L : PyLib}.

Lemma save_no_json_record (text : string) (w : world) :
  let id := documents_seq (working (conn w)) + 1 in
  let r := no_json_record text in
  exists w',
    save_ocr_to_db r w = (Ok id, w')
    /\ documents (committed (conn w'))
       = (documents (working (conn w)) ++ [degraded_row id "Unknown" r])%list
    /\ items (committed (conn w')) = items (working (conn w)).
Proof.
  intros id r. subst id r. unfold no_json_record, parse_error_record.
  eexists. split; [cbn; reflexivity|]. split; reflexivity.
Qed.

Lemma save_parse_error_record (msg text : string) (w : world) :
  let id := documents_seq (working (conn w)) + 1 in
  let r := parse_error_record msg text in
  exists w',
    save_ocr_to_db r w = (Ok id, w')
    /\ documents (committed (conn w'))
       = (documents (working (conn w)) ++ [degraded_row id "Parse Error" r])%list
    /\ items (committed (conn w')) = items (working (conn w)).
Proof.
  intros id r. subst id r. unfold no_json_record, parse_error_record.
  eexists. split; [cbn; reflexivity|]. split; reflexivity.
Qed.
End DegradedFacts.

(** X4.  Degraded results go through the pipeline: for every text on which
    normalisation degrades, the record it returns is saved by
    [save_ocr_to_db] as one [documents] row whose vendor name is the
    sentinel (["Unknown"] or ["Parse Error"]), whose other text fields are
    empty, whose amounts are 0.0 and whose currency is ["USD"], with no
    [items] row. *)
Theorem degraded_text_is_saved (L : PyLib) (s : string) (w : world) :
  degrades s ->
  let id := documents_seq (working (conn w)) + 1 in
  exists r sentinel w',
    parse_ocr_response (VStr s) = Ok r
    /\ (sentinel = "Unknown" \/ sentinel = "Parse Error")
    /\ save_ocr_to_db r w = (Ok id, w')
    /\ documents (committed (conn w'))
       = (documents (working (conn w)) ++ [degraded_row id sentinel r])%list
    /\ items (committed (conn w')) = items (working (conn w)).
Proof.
  unfold degrades. cbn [parse_ocr_response]. rewrite parse_text_cases.
  destruct (json_candidate (clean_response s)) as [c|].
  - intros [msg ->].
    destruct (save_parse_error_record msg (clean_response s) w) as (w' & H).
    exists (parse_error_record msg (clean_response s)), "Parse Error", w'. auto.
  - intros _.
    destruct (save_no_json_record (clean_response s) w) as (w' & H).
    exists (no_json_record (clean_response s)), "Unknown", w'. auto.
Qed.

Lemma degraded_text_is_saved_witness :
  let w := open_world (L := ref_lib) empty_tables in
  @degrades ref_lib "total: 12 {x}"
  /\ exists r sentinel w',
       parse_ocr_response (VStr "total: 12 {x}") = Ok r
       /\ (sentinel = "Unknown" \/ sentinel = "Parse Error")
       /\ save_ocr_to_db r w = (Ok (documents_seq (working (conn w)) + 1), w')
       /\ documents (committed (conn w'))
          = (documents (working (conn w))
             ++ [degraded_row (documents_seq (working (conn w)) + 1) sentinel r])%list
       /\ items (committed (conn w')) = items (working (conn w)).
Proof.
  intros w.
  assert (Hd : @degrades ref_lib "total: 12 {x}").
  { vm_compute. eexists. reflexivity. }
  split; [exact Hd|].
  apply (degraded_text_is_saved ref_lib "total: 12 {x}" w Hd).
Defined.

Section VerificationFacts.
Context {L : PyLib}.

(** The rows for a new id, once its items are stored. *)
Lemma stored_count (params elems : list pyvalue) (c c1 : connection) (id : Z) :
  tables_ok (working c) ->
  insert_document params c = (Ok id, c1) ->
  count_items id (working (fold_left (store_item id) elems c1))
  = Z.of_nat (List.length (filter item_saved elems)).
Proof.
  intros Hok Hins.
  destruct (insert_document_ok _ _ _ _ Hins) as (Hid & _ & Hitems & Hseq & _).
  assert (Hr : int64_range id = true) by (rewrite Hid; apply next_id_in_range, Hok).
  destruct (store_items_tables id elems Hr c1) as (rows & Hw & _ & Hlen & Hrows).
  rewrite Hw, (count_items_app _ _ _ _ _ _ Hrows), Hlen, Hitems.
  replace (count_items id _) with (count_items id (working c)) by reflexivity.
  rewrite (count_items_fresh _ id Hok) by lia. reflexivity.
Qed.

End VerificationFacts.

(** X5.  The warning of the verification is a false alarm: the two numbers
    it prints are the same number, the count of inserted items and the
    count the database reports for the new id (the second one inside a
    tuple). *)
Theorem warning_numbers_agree
  (L : PyLib) (ocr_result : pyvalue) (w : world) (id : Z) (w' : world) :
  tables_ok (working (conn w)) ->
  save_ocr_to_db ocr_result w = (Ok id, w') ->
  exists out n,
    stdout w' = (out ++ [Committed n id; Verified (VTuple [VInt n]) id;
                         Warning n (VTuple [VInt n])])%list
    /\ n = count_items id (committed (conn w')).
Proof.
  intros Hok Hrun.
  destruct (save_ocr_to_db_ok _ _ _ _ Hrun)
    as (params & c1 & elems & out & w2 & n & _ & Hins & _ & Hloop & Hc & Hout).
  destruct (insert_document_ok _ _ _ _ Hins) as (Hid & _).
  assert (Hr : int64_range id = true) by (rewrite Hid; apply next_id_in_range, Hok).
  destruct (save_items_spec id elems Hr (mk_world c1 out) 0) as [out' Hspec].
  rewrite Hspec in Hloop. injection Hloop as <- <-.
  exists out', (Z.of_nat (List.length (filter item_saved elems))).
  rewrite Hout, Hc. cbn [conn stdout committed].
  rewrite (stored_count params elems (conn w) c1 id Hok Hins).
  split; reflexivity.
Qed.

Lemma warning_numbers_agree_witness :
  let r := @VDict Ref.dec
             [("items", VList [VDict [("description", VStr "Widget");
                                      ("quantity", VInt 2)]])] in
  let w := open_world (L := ref_lib) empty_tables in
  tables_ok (working (conn w))
  /\ exists w' out n,
       save_ocr_to_db (L := ref_lib) r w = (Ok 1, w')
       /\ stdout w' = (out ++ [Committed n 1; Verified (VTuple [VInt n]) 1;
                               Warning n (VTuple [VInt n])])%list
       /\ n = count_items 1 (committed (conn w')).
Proof.
  intros r w.
  assert (Hok : tables_ok (working (conn w))) by (split; [cbn; lia|reflexivity]).
  assert (Hrun : save_ocr_to_db (L := ref_lib) r w
                 = (Ok 1, snd (save_ocr_to_db (L := ref_lib) r w))).
  { apply run_result. vm_compute. reflexivity. }
  split; [exact Hok|].
  destruct (warning_numbers_agree ref_lib r w 1 _ Hok Hrun) as (out & n & H).
  exists (snd (save_ocr_to_db (L := ref_lib) r w)), out, n.
  split; [exact Hrun|exact H].
Defined.

(** ** The backup path and the database step of [process_image] *)
Section BackupFacts.
Context {L : PyLib}.

Lemma insert_item_appends (params : list pyvalue) (c c1 : connection) :
  insert_item params c = (Ok tt, c1) ->
  exists row p rest,
    params = p :: rest
    /\ bind_param p = Ok (document_id row)
    /\ committed c1 = committed c
    /\ working c1
       = mk_tables (documents (working c)) (items (working c) ++ [row])
                   (documents_seq (working c)) (items_seq (working c) + 1).
Proof.
  unfold insert_item.
  destruct params as [|p rest]; [cbn; discriminate|].
  cbn [bind_params]. cbv beta iota delta [rbind].
  destruct (bind_param p) as [di|] eqn:Hb; [|discriminate].
  destruct (bind_params rest) as [vals|]; [|discriminate].
  do 4 (destruct vals as [|? vals]; [discriminate|]).
  destruct vals; [|discriminate].
  intros [= <-]. eexists (mk_item _ di _ _ _ _). exists p, rest.
  repeat split; try reflexivity. exact Hb.
Qed.

(** One turn of the loop of [save_invoice_to_db] that does not raise has
    stored the item. *)
Lemma save_invoice_item_appends (doc_id : Z) (item : pyvalue) (w w1 : world) :
  save_invoice_item doc_id item w = (Ok tt, w1) ->
  exists row,
    document_id row = SqlInt doc_id
    /\ committed (conn w1) = committed (conn w)
    /\ working (conn w1)
       = mk_tables (documents (working (conn w))) (items (working (conn w)) ++ [row])
                   (documents_seq (working (conn w)))
                   (items_seq (working (conn w)) + 1).
Proof.
  unfold save_invoice_item.
  cbv beta iota delta [bind lift ret rbind].
  repeat (head_result; [|discriminate]).
  unfold on_conn.
  match goal with
  | |- context [insert_item ?p (conn w)] =>
      destruct (insert_item p (conn w)) as [[[]|e] c'] eqn:Hins; [|discriminate]
  end.
  intros [= <-]. cbn [conn].
  destruct (insert_item_appends _ _ _ Hins) as (row & p & rest & Hp & Hb & Hc & Hw).
  injection Hp as <- _. cbn [bind_param] in Hb.
  destruct (int64_range doc_id); [|discriminate]. injection Hb as Hb.
  exists row. auto.
Qed.

Lemma save_invoice_items_append (doc_id : Z) (elems : list pyvalue) :
  forall w w1 : world,
    for_each elems (save_invoice_item doc_id) w = (Ok tt, w1) ->
    exists rows,
      List.length rows = List.length elems
      /\ Forall (fun r => document_id r = SqlInt doc_id) rows
      /\ committed (conn w1) = committed (conn w)
      /\ working (conn w1)
         = mk_tables (documents (working (conn w))) (items (working (conn w)) ++ rows)
                     (documents_seq (working (conn w)))
                     (items_seq (working (conn w)) + Z.of_nat (List.length rows)).
Proof.
  induction elems as [|item elems IH]; intros w w1.
  - intros [= <-]. exists []. cbn. rewrite app_nil_r, Z.add_0_r.
    destruct (working (conn w)). repeat split. constructor.
  - cbn [for_each]. unfold bind.
    destruct (save_invoice_item doc_id item w) as [[[]|e] w0] eqn:H0; [|discriminate].
    intros H1.
    destruct (save_invoice_item_appends _ _ _ _ H0) as (row & Hrow & Hc0 & Hw0).
    destruct (IH _ _ H1) as (rows & Hlen & Hf & Hc1 & Hw1).
    exists (row :: rows). rewrite Hw1, Hc1, Hw0, Hc0.
    cbn [documents items documents_seq items_seq List.length].
    rewrite <- app_assoc, Hlen. cbn [app].
    repeat split; [constructor; assumption|].
    f_equal. lia.
Qed.

(** What a run of [save_invoice_to_db] that returns has done. *)
Lemma save_invoice_to_db_tables (ocr_result : pyvalue) (w : world) (id : Z)
      (w' : world) :
  save_invoice_to_db ocr_result w = (Ok id, w') ->
  exists params c1 elems rows,
    document_params (VStr "") (VInt 0) ocr_result = Ok params
    /\ insert_document params (conn w) = (Ok id, c1)
    /\ items_of_record ocr_result = Ok elems
    /\ List.length rows = List.length elems
    /\ Forall (fun r => document_id r = SqlInt id) rows
    /\ working (conn w') = committed (conn w')
    /\ committed (conn w')
       = mk_tables (documents (working c1)) (items (working c1) ++ rows)
                   (documents_seq (working c1))
                   (items_seq (working c1) + Z.of_nat (List.length rows)).
Proof.
  unfold save_invoice_to_db, document_params, items_of_record, try_except.
  cbv beta iota delta [bind lift ret rbind].
  repeat (head_result; [|cbn; discriminate]).
  unfold on_conn at 1.
  match goal with
  | |- context [insert_document ?p (conn w)] =>
      destruct (insert_document p (conn w)) as [[id'|e] c1] eqn:Hins;
      [|cbn; discriminate]
  end.
  repeat (head_result; [|cbn; discriminate]).
  match goal with
  | |- context [for_each ?l ?b ?s] =>
      destruct (for_each l b s) as [[[]|e1] w3] eqn:Hloop; [|cbn; discriminate]
  end.
  cbn. intros [= <- <-].
  destruct (save_invoice_items_append _ _ _ _ Hloop) as (rows & Hlen & Hf & _ & Hw).
  cbn [conn] in Hw.
  eexists. exists c1. eexists. exists rows. cbn [conn working committed].
  repeat split; try reflexivity; try assumption.
Qed.

End BackupFacts.

(** X6.  [save_invoice_to_db] stores every element of [items] or nothing:
    when it returns, the row count for the new id is the number of
    elements of [record.items], the (empty, 0) ones included. *)
Theorem backup_stores_every_item
  (L : PyLib) (ocr_result : pyvalue) (elems : list pyvalue)
  (w : world) (id : Z) (w' : world) :
  tables_ok (working (conn w)) ->
  items_of_record ocr_result = Ok elems ->
  save_invoice_to_db ocr_result w = (Ok id, w') ->
  count_items id (committed (conn w')) = Z.of_nat (List.length elems).
Proof.
  intros Hok Hit Hrun.
  destruct (save_invoice_to_db_tables _ _ _ _ Hrun)
    as (params & c1 & elems' & rows & _ & Hins & Hit' & Hlen & Hf & _ & Hc).
  rewrite Hit in Hit'. injection Hit' as <-.
  destruct (insert_document_ok _ _ _ _ Hins) as (Hid & _ & Hitems & Hseq & _).
  rewrite Hc, (count_items_app _ _ _ _ _ _ Hf), Hlen, Hitems.
  replace (count_items id _) with (count_items id (working (conn w))) by reflexivity.
  rewrite (count_items_fresh _ id Hok) by lia. reflexivity.
Qed.

Lemma backup_stores_every_item_witness :
  let item := @VDict Ref.dec [("description", VStr ""); ("quantity", VInt 0)] in
  let r := VDict [("items", VList [item; item])] in
  let w := open_world (L := ref_lib) empty_tables in
  tables_ok (working (conn w))
  /\ items_of_record r = Ok [item; item]
  /\ exists w', save_invoice_to_db (L := ref_lib) r w = (Ok 1, w')
                /\ count_items 1 (committed (conn w')) = Z.of_nat (List.length [item; item]).
Proof.
  intros item r w.
  assert (Hok : tables_ok (working (conn w))) by (split; [cbn; lia|reflexivity]).
  assert (Hit : items_of_record r = Ok [item; item]) by reflexivity.
  assert (Hrun : save_invoice_to_db (L := ref_lib) r w
                 = (Ok 1, snd (save_invoice_to_db (L := ref_lib) r w))).
  { apply run_result. vm_compute. reflexivity. }
  split; [exact Hok|]. split; [exact Hit|].
  exists (snd (save_invoice_to_db (L := ref_lib) r w)). split; [exact Hrun|].
  apply (backup_stores_every_item ref_lib r _ w 1 _ Hok Hit Hrun).
Defined.

(** X7.  When [save_invoice_to_db] raises, what it raises is
    [Exception("Database save failed: ...")] around the cause, and the
    connection is rolled back: what is committed has not changed and nothing
    is pending, neither its own rows nor rows that were pending before the
    call. *)
Theorem backup_failure_rolls_back
  (L : PyLib) (ocr_result : pyvalue) (w w' : world) (e : exn) :
  save_invoice_to_db ocr_result w = (Raise e, w') ->
  (exists cause, e = Exception "Database save failed: " cause)
  /\ committed (conn w') = committed (conn w)
  /\ working (conn w') = committed (conn w).
Proof.
  intros Hrun.
  destruct (save_invoice_to_db_rolls_back _ _ _ _ Hrun) as (Hc & Hconn & _).
  rewrite Hconn. auto.
Qed.

Lemma backup_failure_rolls_back_witness :
  let r := @VDict Ref.dec [("items", VList [VDict [("quantity", VStr "two")]])] in
  let w := open_world (L := ref_lib) empty_tables in
  exists e w',
    save_invoice_to_db (L := ref_lib) r w = (Raise e, w')
    /\ (exists cause, e = Exception "Database save failed: " cause)
    /\ committed (conn w') = committed (conn w)
    /\ working (conn w') = committed (conn w).
Proof.
  intros r w.
  assert (Hrun : save_invoice_to_db (L := ref_lib) r w
                 = (Raise (Exception "Database save failed: "
                             (ValueError "invalid literal for int() with base 10")),
                    snd (save_invoice_to_db (L := ref_lib) r w))).
  { apply run_result. vm_compute. reflexivity. }
  do 2 eexists. split; [exact Hrun|].
  apply (backup_failure_rolls_back ref_lib r w _ _ Hrun).
Defined.

Section PrimaryFailureFacts.
Context {L : PyLib}.

Lemma insert_document_raises (params : list pyvalue) (c c1 : connection) (e : exn) :
  insert_document params c = (Raise e, c1) -> c1 = c.
Proof.
  unfold insert_document.
  destruct (bind_params params) as [vals|]; [|intros [= _ <-]; reflexivity].
  do 13 (destruct vals as [|? vals]; [intros [= _ <-]; reflexivity|]).
  destruct vals; [discriminate|intros [= _ <-]; reflexivity].
Qed.

(** The connection a failing run of [save_ocr_to_db] leaves. *)
Lemma save_ocr_to_db_raises_conn (ocr_result : pyvalue) (w w' : world) (e : exn) :
  save_ocr_to_db ocr_result w = (Raise e, w') ->
  conn w' = conn w
  \/ exists params id,
       document_params (VStr "Unknown") (VFloat fzero) ocr_result = Ok params
       /\ insert_document params (conn w) = (Ok id, conn w')
       /\ items_of_record ocr_result = Raise e.
Proof.
  unfold save_ocr_to_db, document_params, items_of_record.
  cbv beta iota delta [bind lift ret rbind].
  repeat (head_result; [|intros [= _ <-]; left; reflexivity]).
  unfold on_conn at 1.
  match goal with
  | |- context [insert_document ?p (conn w)] =>
      destruct (insert_document p (conn w)) as [[id|e0] c1] eqn:Hins
  end.
  2:{ intros [= _ <-]. left. cbn. apply (insert_document_raises _ _ _ _ Hins). }
  unfold print at 1, modify at 1. cbv beta iota.
  destruct (py_get ocr_result "items" (VList [])) as [items|e1];
    [|intros [= <- <-]; right; do 2 eexists; repeat split; exact Hins].
  destruct (py_len items) as [n|e1] eqn:Hlen.
  2:{ intros [= <- <-]. right. do 2 eexists. split; [reflexivity|].
      split; [exact Hins|].
      destruct items; try discriminate; injection Hlen as <-; reflexivity. }
  unfold print at 1, modify at 1. cbv beta iota.
  unfold print at 1, modify at 1. cbv beta iota.
  destruct (py_iter items) as [elems|e1];
    [|intros [= <- <-]; right; do 2 eexists; repeat split; exact Hins].
  unfold with_local.
  match goal with
  | |- context [for_each ?l (save_item id) ?st] =>
      destruct (save_items_total id l st) as [[w2 m] Hloop]
  end.
  rewrite Hloop. cbn. discriminate.
Qed.

End PrimaryFailureFacts.

(** X8.  A failing [save_ocr_to_db] neither commits nor rolls back: what is
    committed has not changed, no [items] row has been added, and the
    [documents] row, if the failure came after its insertion, is left
    pending on the connection. *)
Theorem primary_failure_leaves_pending
  (L : PyLib) (ocr_result : pyvalue) (w w' : world) (e : exn) :
  save_ocr_to_db ocr_result w = (Raise e, w') ->
  committed (conn w') = committed (conn w)
  /\ items (working (conn w')) = items (working (conn w))
  /\ exists pending,
       documents (working (conn w')) = (documents (working (conn w)) ++ pending)%list
       /\ (List.length pending <= 1)%nat.
Proof.
  intros Hrun.
  destruct (save_ocr_to_db_raises_conn _ _ _ _ Hrun)
    as [->|(params & id & _ & Hins & _)].
  - repeat split. exists []. rewrite app_nil_r. split; [reflexivity|cbn; lia].
  - destruct (insert_document_ok _ _ _ _ Hins) as (_ & Hc & Hit & _ & row & Hd & _).
    repeat split; try assumption.
    exists [row]. split; [exact Hd|cbn; lia].
Qed.

Lemma primary_failure_leaves_pending_witness :
  let r := @VDict Ref.dec [("items", VNone)] in
  let w := open_world (L := ref_lib) empty_tables in
  exists w',
    save_ocr_to_db (L := ref_lib) r w = (Raise TypeError, w')
    /\ committed (conn w') = committed (conn w)
    /\ items (working (conn w')) = items (working (conn w))
    /\ exists pending,
         documents (working (conn w')) = (documents (working (conn w)) ++ pending)%list
         /\ (List.length pending <= 1)%nat.
Proof.
  intros r w.
  assert (Hrun : save_ocr_to_db (L := ref_lib) r w
                 = (Raise TypeError, snd (save_ocr_to_db (L := ref_lib) r w))).
  { apply run_result. vm_compute. reflexivity. }
  eexists. split; [exact Hrun|].
  apply (primary_failure_leaves_pending ref_lib r w _ _ Hrun).
Defined.

(** X9.  The fallback of [process_image] cannot rescue a save: on a record
    on which [save_ocr_to_db] has raised, [save_invoice_to_db], run on the
    connection as the failure left it, raises too, and its rollback also
    discards the row that the first attempt left pending. *)
Theorem backup_fails_after_primary
  (L : PyLib) (ocr_result : pyvalue) (w w1 : world) (e : exn) :
  save_ocr_to_db ocr_result w = (Raise e, w1) ->
  exists cause w2,
    save_invoice_to_db ocr_result w1
    = (Raise (Exception "Database save failed: " cause), w2)
    /\ committed (conn w2) = committed (conn w)
    /\ working (conn w2) = committed (conn w).
Proof.
  intros Hp.
  destruct (fallback_never_returns _ _ _ _ Hp) as (e' & w2 & Hb).
  destruct (save_invoice_to_db_rolls_back _ _ _ _ Hb) as ((cause & ->) & Hc & _).
  exists cause, w2. split; [exact Hb|].
  rewrite Hc. cbn [committed working].
  rewrite (save_ocr_to_db_raises_uncommitted _ _ _ _ Hp). split; reflexivity.
Qed.

Lemma backup_fails_after_primary_witness :
  let r := @VDict Ref.dec [("items", VNone)] in
  let w := open_world (L := ref_lib) empty_tables in
  exists w1 cause w2,
    save_ocr_to_db (L := ref_lib) r w = (Raise TypeError, w1)
    /\ save_invoice_to_db r w1
       = (Raise (Exception "Database save failed: " cause), w2)
    /\ committed (conn w2) = committed (conn w)
    /\ working (conn w2) = committed (conn w).
Proof.
  intros r w.
  assert (Hrun : save_ocr_to_db (L := ref_lib) r w
                 = (Raise TypeError, snd (save_ocr_to_db (L := ref_lib) r w))).
  { apply run_result. vm_compute. reflexivity. }
  destruct (backup_fails_after_primary ref_lib r w _ _ Hrun) as (cause & w2 & H).
  exists (snd (save_ocr_to_db (L := ref_lib) r w)), cause, w2.
  split; [exact Hrun|exact H].
Defined.

(** X10.  The database step of [process_image] (primary path, backup path
    on failure, then [close]) has two outcomes.  It returns the id exactly
    as the primary path returned it, with what the primary path committed.
    Or it raises [Exception("Database save failed: ...")], the primary path
    having raised, and the database is as it was: nothing committed, nothing
    pending. *)
Theorem database_step_outcome (L : PyLib) (ocr_result : pyvalue) (w : world) :
  match process_image_save ocr_result w with
  | (Ok id, w') =>
      exists w1, save_ocr_to_db ocr_result w = (Ok id, w1) /\ conn w' = conn w1
  | (Raise e, w') =>
      (exists cause, e = Exception "Database save failed: " cause)
      /\ (exists e0 w1, save_ocr_to_db ocr_result w = (Raise e0, w1))
      /\ committed (conn w') = committed (conn w)
      /\ working (conn w') = committed (conn w)
  end.
Proof.
  destruct (process_image_save ocr_result w) as [[id|e] w'] eqn:Hrun.
  - apply process_image_save_returns. exact Hrun.
  - destruct (process_image_save_raises _ _ _ _ Hrun) as (Hcause & Hc).
    split; [exact Hcause|]. rewrite Hc. cbn [committed working].
    split; [|split; reflexivity].
    destruct (save_ocr_to_db ocr_result w) as [[id|e0] w1] eqn:Hp.
    + exfalso. revert Hrun. unfold process_image_save, try_finally, try_except.
      rewrite Hp. cbn. discriminate.
    + eauto.
Qed.

(** ** The Response Normalizer: full records and fences *)
Section MergeFacts.
Context {L : PyLib}.

Lemma dict_set_new (d : pydict) (k : string) (v : pyvalue) :
  dict_get d k = None -> dict_set d k v = (d ++ [(k, v)])%list.
Proof.
  induction d as [|[k0 v0] d IH]; cbn [dict_get dict_set app]; [reflexivity|].
  destruct (String.eqb k0 k); [discriminate|].
  intros H. rewrite (IH H). reflexivity.
Qed.

Lemma dict_has_app_other (d : pydict) (k k' : string) (v : pyvalue) :
  k <> k' -> dict_has (d ++ [(k, v)])%list k' = dict_has d k'.
Proof.
  intros Hne. unfold dict_has.
  induction d as [|[k0 v0] d IH]; cbn [dict_get app].
  - destruct (String.eqb_spec k k'); [contradiction|reflexivity].
  - destruct (String.eqb k0 k'); [reflexivity|exact IH].
Qed.

Lemma merge_defaults_appends (defaults d : pydict) :
  NoDup (List.map fst defaults) ->
  merge_defaults defaults (VDict d)
  = Ok (VDict (d ++ filter (fun kv => negb (dict_has d (fst kv))) defaults)%list).
Proof.
  revert d. induction defaults as [|[k v] rest IH]; intros d Hnd.
  - cbn. rewrite app_nil_r. reflexivity.
  - cbn [List.map fst] in Hnd. apply NoDup_cons_iff in Hnd as [Hk Hnd].
    cbn [merge_defaults py_in py_setitem rbind filter fst].
    destruct (dict_has d k) eqn:Hhas.
    + cbn [negb]. apply IH. exact Hnd.
    + cbn [negb]. unfold dict_has in Hhas.
      destruct (dict_get d k) eqn:Hget; [discriminate|].
      rewrite (dict_set_new _ _ _ Hget), (IH _ Hnd), <- app_assoc. cbn [app].
      do 4 f_equal. apply filter_ext_in. intros [k' v'] Hin. cbn [fst].
      rewrite dict_has_app_other; [reflexivity|].
      intros ->. apply Hk. apply in_map_iff. exists (k', v'). auto.
Qed.

Lemma default_keys_distinct : NoDup (List.map fst default_structure).
Proof.
  cbn. repeat constructor; cbn; intuition discriminate.
Qed.

Lemma missing_defaults_none (p : pydict) :
  has_groups (VDict p) = true -> missing_defaults p = [].
Proof.
  unfold has_groups, missing_defaults, group_keys, default_structure.
  cbn [forallb filter fst]. intros H.
  repeat (apply andb_true_iff in H as [? H]).
  repeat match goal with Hk : dict_has p _ = true |- _ => rewrite Hk; clear Hk end.
  reflexivity.
Qed.

End MergeFacts.

(** X11.  On a text whose candidate is a JSON object, the record is the
    parsed object itself, every entry in place, followed by the default
    groups it lacks, in the order [vendor], [order_details], [items],
    [payment_details]; an object that has the four groups comes back
    unchanged. *)
Theorem full_record_is_parsed_object
  (L : PyLib) (s c : string) (p : pydict) :
  json_candidate (clean_response s) = Some c ->
  json_loads c = Ok (VDict p) ->
  parse_ocr_response (VStr s) = Ok (VDict (p ++ missing_defaults p)%list)
  /\ (has_groups (VDict p) = true -> parse_ocr_response (VStr s) = Ok (VDict p)).
Proof.
  intros Hc Hl.
  assert (H : parse_ocr_response (VStr s) = Ok (VDict (p ++ missing_defaults p)%list)).
  { cbn [parse_ocr_response]. rewrite parse_text_cases, Hc, Hl.
    apply merge_defaults_appends, default_keys_distinct. }
  split; [exact H|].
  intros Hg. rewrite H, (missing_defaults_none _ Hg), app_nil_r. reflexivity.
Qed.

Lemma full_record_is_parsed_object_witness :
  exists c p,
    json_candidate (clean_response Sample.fenced_invoice) = Some c
    /\ @json_loads ref_lib c = Ok (VDict p)
    /\ parse_ocr_response (VStr Sample.fenced_invoice)
       = Ok (VDict (p ++ missing_defaults p)%list)
    /\ (has_groups (VDict p) = true ->
        parse_ocr_response (VStr Sample.fenced_invoice) = Ok (VDict p)).
Proof.
  eexists. eexists.
  assert (Hc : json_candidate (clean_response Sample.fenced_invoice)
               = Some (PyStr.strip
                         (PyStr.replace
                            (PyStr.replace Sample.fenced_invoice "```json" "")
                            "```" ""))).
  { vm_compute. reflexivity. }
  split; [exact Hc|].
  assert (Hl : @json_loads ref_lib
                 (PyStr.strip
                    (PyStr.replace
                       (PyStr.replace Sample.fenced_invoice "```json" "") "```" ""))
               = Ok (VDict [("vendor", VDict [("name", VStr "Acme")]);
                            ("items",
                             VList [VDict [("description", VStr "Widget");
                                           ("quantity", VInt 2);
                                           ("unit_price", VInt 5);
                                           ("amount", VInt 10)]])])).
  { vm_compute. reflexivity. }
  split; [exact Hl|].
  apply (full_record_is_parsed_object ref_lib Sample.fenced_invoice _ _ Hc Hl).
Defined.

Section FenceFacts.
Context {L : PyLib}.

Lemma has_char_lstrip (c : ascii) (s : string) :
  has_char c s = false -> has_char c (PyStr.lstrip s) = false.
Proof.
  induction s as [|a s IH]; cbn [PyStr.lstrip has_char]; [reflexivity|].
  intros H. destruct (PyStr.isspace a); [|exact H].
  apply orb_false_iff in H as [_ H]. exact (IH H).
Qed.

Lemma has_char_rstrip (c : ascii) (s : string) :
  has_char c s = false -> has_char c (PyStr.rstrip s) = false.
Proof.
  induction s as [|a s IH]; cbn [PyStr.rstrip has_char]; [reflexivity|].
  intros H. apply orb_false_iff in H as [Ha H]. specialize (IH H).
  destruct (PyStr.rstrip s) as [|b r].
  - destruct (PyStr.isspace a); cbn [has_char]; [reflexivity|].
    rewrite Ha. reflexivity.
  - cbn [has_char] in *. rewrite Ha. exact IH.
Qed.

Lemma has_char_strip (c : ascii) (s : string) :
  has_char c s = false -> has_char c (PyStr.strip s) = false.
Proof.
  intros H. apply has_char_rstrip, has_char_lstrip, H.
Qed.

Lemma prefix_absent_char (c : ascii) (o s : string) :
  has_char c s = false -> prefix (String c o) s = false.
Proof.
  destruct s as [|a s]; cbn [prefix has_char]; [reflexivity|].
  intros H. apply orb_false_iff in H as [Ha _].
  destruct (ascii_dec c a) as [->|]; [|reflexivity].
  rewrite Ascii.eqb_refl in Ha. discriminate.
Qed.

Lemma replace_go_absent_char (c : ascii) (o new x t : string) :
  has_char c x = false ->
  PyStr.replace_go (String c o) new 0 (x ++ t)
  = x ++ PyStr.replace_go (String c o) new 0 t.
Proof.
  induction x as [|a x IH]; intros H; [reflexivity|].
  cbn [has_char] in H. apply orb_false_iff in H as [Ha H].
  cbn [append PyStr.replace_go prefix].
  destruct (ascii_dec c a) as [->|].
  - rewrite Ascii.eqb_refl in Ha. discriminate.
  - rewrite (IH H). reflexivity.
Qed.

Lemma replace_go_skip (old new p s : string) :
  PyStr.replace_go old new (String.length p) (p ++ s)
  = PyStr.replace_go old new 0 s.
Proof.
  induction p as [|a p IH]; [reflexivity|].
  cbn [String.length append PyStr.replace_go]. exact IH.
Qed.

Lemma prefix_app (p s : string) : prefix p (p ++ s) = true.
Proof.
  induction p as [|a p IH]; cbn [append prefix]; [apply prefix_empty|].
  destruct (ascii_dec a a); [exact IH|congruence].
Qed.

(** Replacing a marker that opens a text made of the marker, a body without
    its first character, and a tail. *)
Lemma replace_leading (c : ascii) (o new body t : string) :
  has_char c body = false ->
  PyStr.replace (String c o ++ body ++ t) (String c o) new
  = new ++ body ++ PyStr.replace_go (String c o) new 0 t.
Proof.
  intros H. unfold PyStr.replace.
  change (String c o ++ body ++ t) with (String c (o ++ body ++ t)).
  cbn [PyStr.replace_go].
  change (String c (o ++ body ++ t)) with (String c o ++ body ++ t).
  rewrite prefix_app.
  replace (String.length (String c o) - 1)%nat with (String.length o)
    by (cbn [String.length]; lia).
  rewrite replace_go_skip, (replace_go_absent_char _ _ _ _ _ H). reflexivity.
Qed.

Lemma rstrip_app_kept (x y : string) :
  y <> "" -> PyStr.rstrip y = y -> PyStr.rstrip (x ++ y) = x ++ y.
Proof.
  intros Hy Hr. induction x as [|a x IH]; [exact Hr|].
  cbn [append PyStr.rstrip]. rewrite IH.
  destruct (x ++ y) eqn:E; [|reflexivity].
  destruct x; [|discriminate]. cbn in E. contradiction.
Qed.

Lemma clean_response_plain (s : string) :
  has_char "`" s = false -> clean_response s = PyStr.strip s.
Proof.
  intros H. unfold clean_response, PyStr.startswith.
  rewrite !(prefix_absent_char _ _ _ (has_char_strip _ _ H)). reflexivity.
Qed.

Lemma clean_response_json_fence (body : string) :
  has_char "`" body = false ->
  clean_response ("```json" ++ body ++ "```") = PyStr.strip body.
Proof.
  intros H. unfold clean_response.
  assert (Hs : PyStr.strip ("```json" ++ body ++ "```")
               = "```json" ++ body ++ "```").
  { unfold PyStr.strip.
    change (PyStr.lstrip ("```json" ++ body ++ "```"))
      with ("```json" ++ body ++ "```").
    rewrite <- append_assoc. apply rstrip_app_kept; [discriminate|reflexivity]. }
  rewrite Hs. unfold PyStr.startswith. rewrite prefix_app.
  rewrite (replace_leading _ _ _ _ _ H).
  change (PyStr.replace_go "```json" "" 0 "```") with "```".
  change ("" ++ body ++ "```") with (body ++ "```").
  unfold PyStr.replace.
  rewrite (replace_go_absent_char _ _ _ _ _ H).
  change (PyStr.replace_go "```" "" 0 "```") with "".
  rewrite append_empty. reflexivity.
Qed.

Lemma clean_response_bare_fence (body : string) :
  has_char "`" body = false ->
  PyStr.startswith body "json" = false ->
  clean_response ("```" ++ body ++ "```") = PyStr.strip body.
Proof.
  intros H Hj. unfold clean_response.
  assert (Hs : PyStr.strip ("```" ++ body ++ "```") = "```" ++ body ++ "```").
  { unfold PyStr.strip.
    change (PyStr.lstrip ("```" ++ body ++ "```")) with ("```" ++ body ++ "```").
    rewrite <- append_assoc. apply rstrip_app_kept; [discriminate|reflexivity]. }
  rewrite Hs. unfold PyStr.startswith in *.
  assert (Hn : prefix "```json" ("```" ++ body ++ "```") = false).
  { change ("```json") with ("```" ++ "json").
    assert (G : forall p a b, prefix (p ++ a) (p ++ b) = prefix a b).
    { induction p as [|c p IH]; intros a b; [reflexivity|].
      cbn [append prefix]. destruct (ascii_dec c c); [apply IH|congruence]. }
    rewrite G. destruct body as [|c body]; [reflexivity|].
    cbn [append prefix] in *.
    destruct (ascii_dec "j" c); [|reflexivity].
    destruct body as [|c1 body]; [reflexivity|]. cbn [append prefix] in *.
    destruct (ascii_dec "s" c1); [|reflexivity].
    destruct body as [|c2 body]; [reflexivity|]. cbn [append prefix] in *.
    destruct (ascii_dec "o" c2); [|reflexivity].
    destruct body as [|c3 body]; [reflexivity|]. cbn [append prefix] in *.
    destruct (ascii_dec "n" c3); [|reflexivity].
    rewrite prefix_empty in Hj. discriminate. }
  rewrite Hn, prefix_app.
  rewrite (replace_leading _ _ _ _ _ H).
  change (PyStr.replace_go "```" "" 0 "```") with "".
  change ("" ++ body ++ "") with (body ++ "").
  rewrite append_empty. reflexivity.
Qed.

End FenceFacts.

(** X12.  A Markdown fence around the reply changes nothing: for a body
    without a backquote, the record of the body wrapped as [```json ... ```],
    or as [``` ... ```] when the body does not itself begin with [json], is
    the record of the bare body. *)
Theorem fenced_reply_parses_as_bare
  (L : PyLib) (body : string) :
  has_char "`" body = false ->
  parse_ocr_response (VStr ("```json" ++ body ++ "```"))
  = parse_ocr_response (VStr body)
  /\ (PyStr.startswith body "json" = false ->
      parse_ocr_response (VStr ("```" ++ body ++ "```"))
      = parse_ocr_response (VStr body)).
Proof.
  intros H. cbn [parse_ocr_response]. rewrite !parse_text_cases.
  rewrite (clean_response_json_fence body H), (clean_response_plain body H).
  split; [reflexivity|].
  intros Hj. rewrite (clean_response_bare_fence body H Hj). reflexivity.
Qed.

Lemma fenced_reply_parses_as_bare_witness :
  has_char "`" (PyStr.nl ++ "{}" ++ PyStr.nl) = false
  /\ parse_ocr_response (L := ref_lib)
       (VStr ("```json" ++ (PyStr.nl ++ "{}" ++ PyStr.nl) ++ "```"))
     = parse_ocr_response (VStr (PyStr.nl ++ "{}" ++ PyStr.nl))
  /\ (PyStr.startswith (PyStr.nl ++ "{}" ++ PyStr.nl) "json" = false ->
      parse_ocr_response (L := ref_lib)
        (VStr ("```" ++ (PyStr.nl ++ "{}" ++ PyStr.nl) ++ "```"))
      = parse_ocr_response (VStr (PyStr.nl ++ "{}" ++ PyStr.nl))).
Proof.
  split; [reflexivity|].
  apply (fenced_reply_parses_as_bare ref_lib (PyStr.nl ++ "{}" ++ PyStr.nl)).
  reflexivity.
Defined.

Section NoBraceFacts.
Context {L : PyLib}.

Lemma has_char_replace_go (c : ascii) (old : string) (k : nat) (s : string) :
  has_char c s = false -> has_char c (PyStr.replace_go old "" k s) = false.
Proof.
  revert k. induction s as [|a s IH]; intros k H; [reflexivity|].
  cbn [has_char] in H. apply orb_false_iff in H as [Ha H].
  cbn [PyStr.replace_go]. destruct k as [|k]; [|apply IH, H].
  destruct (prefix old (String a s)).
  - cbn [append]. apply IH, H.
  - cbn [has_char]. rewrite Ha. apply IH, H.
Qed.

Lemma has_char_replace (c a : ascii) (o s : string) :
  has_char c s = false ->
  has_char c (PyStr.replace s (String a o) "") = false.
Proof. apply has_char_replace_go. Qed.

Lemma has_char_clean_response (c : ascii) (s : string) :
  has_char c s = false -> has_char c (clean_response s) = false.
Proof.
  intros H. unfold clean_response.
  repeat match goal with
         | |- context [if ?b then _ else _] => destruct b
         end;
    repeat first [apply has_char_strip | apply has_char_replace]; exact H.
Qed.

Lemma find_absent_char (c : ascii) (s : string) (i : Z) :
  has_char c s = false -> PyStr.find_from (String c "") s i = -1.
Proof.
  revert i. induction s as [|a s IH]; intros i H; [reflexivity|].
  cbn [PyStr.find_from]. rewrite (prefix_absent_char _ _ _ H).
  cbn [has_char] in H. apply orb_false_iff in H as [_ H]. apply IH, H.
Qed.

Lemma rfind_absent_char (c : ascii) (s : string) (i : Z) :
  has_char c s = false -> PyStr.rfind_from (String c "") s i = -1.
Proof.
  revert i. induction s as [|a s IH]; intros i H; [reflexivity|].
  cbn [PyStr.rfind_from]. rewrite (prefix_absent_char _ _ _ H).
  cbn [has_char] in H. apply orb_false_iff in H as [_ H].
  rewrite (IH _ H). reflexivity.
Qed.

Lemma find_from_lower_bound (sub s : string) (i : Z) :
  PyStr.find_from sub s i = -1 \/ i <= PyStr.find_from sub s i.
Proof.
  revert i. induction s as [|a s IH]; intros i; cbn [PyStr.find_from].
  - destruct (prefix sub ""); [right; lia|left; reflexivity].
  - destruct (prefix sub (String a s)); [right; lia|].
    destruct (IH (i + 1)) as [H|H]; [left; exact H|right; lia].
Qed.

Lemma json_candidate_needs_braces (s : string) :
  has_char "{" s = false \/ has_char "}" s = false -> json_candidate s = None.
Proof.
  intros H. unfold json_candidate, PyStr.find, PyStr.rfind.
  destruct H as [H|H].
  - rewrite (find_absent_char _ _ _ H). reflexivity.
  - rewrite (rfind_absent_char _ _ _ H).
    destruct (find_from_lower_bound "{" s 0) as [E|E].
    + rewrite E. reflexivity.
    + destruct (PyStr.find_from "{" s 0 =? -1); [reflexivity|].
      cbn [negb andb]. destruct (Z.gtb_spec (-1 + 1) (PyStr.find_from "{" s 0));
        [lia|reflexivity].
Qed.

End NoBraceFacts.

(** X13.  A reply that lacks an opening or a closing brace never reaches
    [json.loads]: whatever the library does, the record is the no-JSON
    record, holding the whole cleaned text, vendor name ["Unknown"], no items
    and empty order and payment groups. *)
Theorem reply_without_braces_is_unknown
  (L : PyLib) (s : string) :
  has_char "{" s = false \/ has_char "}" s = false ->
  parse_ocr_response (VStr s) = Ok (no_json_record (clean_response s)).
Proof.
  intros H. cbn [parse_ocr_response]. rewrite parse_text_cases.
  rewrite json_candidate_needs_braces; [reflexivity|].
  destruct H as [H|H]; [left|right]; apply has_char_clean_response, H.
Qed.

Lemma reply_without_braces_is_unknown_witness :
  parse_ocr_response (L := ref_lib) (VStr "Total due: 12.50 }")
  = Ok (no_json_record (clean_response "Total due: 12.50 }")).
Proof.
  apply (reply_without_braces_is_unknown ref_lib "Total due: 12.50 }").
  left. reflexivity.
Defined.

(** ** The Extraction Adapter, call by call *)
Section GenerateFacts.
Context {L : PyLib}.
Variable read_file : string -> result string.
Variable b64encode : string -> string.
Variable llm_invoke : message -> result pyvalue.

Lemma mime_subtype_supported (path : string) :
  supported_format path = true -> exists fmt, mime_subtype path = Some fmt.
Proof.
  unfold supported_format, mime_subtype. intros H.
  destruct (PyStr.endswith (PyStr.lower path) ".jpg"
            || PyStr.endswith (PyStr.lower path) ".jpeg"); [eauto|].
  cbn [orb] in H. rewrite H. eauto.
Qed.

(** [generate] on a file that reads, of a format it takes. *)
Lemma generate_supported (path bytes fmt : string) (tr : list call) :
  read_file path = Ok bytes ->
  mime_subtype path = Some fmt ->
  generate read_file b64encode llm_invoke path tr
  = (match rbind (llm_invoke (image_message fmt (b64encode bytes)))
                 parse_ocr_response with
     | Ok r => Ok r
     | Raise e => Raise (Exception "Failed to process image with NVIDIA NIM: " e)
     end,
     (tr ++ [CreateModel "meta/llama-3.2-90b-vision-instruct"; ReadFile path;
             Invoke (image_message fmt (b64encode bytes))])%list).
Proof.
  unfold mime_subtype. intros Hr Hm.
  unfold generate, try_except, bind, encode_image_to_base64, record_call,
    modify, lift, bind, raise, ret, image_message. rewrite Hr.
  destruct (PyStr.endswith (PyStr.lower path) ".jpg"
            || PyStr.endswith (PyStr.lower path) ".jpeg").
  - injection Hm as <-. cbn [fst snd]. rewrite <- !app_assoc. cbn [app].
    destruct (llm_invoke _) as [content|e]; cbn [rbind]; [|reflexivity].
    destruct (parse_ocr_response content); reflexivity.
  - destruct (PyStr.endswith (PyStr.lower path) ".png"); [|discriminate].
    injection Hm as <-. cbn [fst snd]. rewrite <- !app_assoc. cbn [app].
    destruct (llm_invoke _) as [content|e]; cbn [rbind]; [|reflexivity].
    destruct (parse_ocr_response content); reflexivity.
Qed.

Lemma mime_subtype_unsupported (path : string) :
  mime_subtype path = None -> supported_format path = false.
Proof.
  unfold supported_format, mime_subtype.
  destruct (PyStr.endswith (PyStr.lower path) ".jpg"
            || PyStr.endswith (PyStr.lower path) ".jpeg"); [discriminate|].
  destruct (PyStr.endswith (PyStr.lower path) ".png"); [discriminate|reflexivity].
Qed.

Lemma parse_text_groups (H : loads_contract) (s : string) :
  exists d, parse_text s = Ok (VDict d) /\ has_groups (VDict d) = true.
Proof.
  pose proof (parse_text_result H s) as Hr.
  destruct (json_candidate (clean_response s)) as [c|].
  - destruct Hr as [(msg & _ & ->)|(p & d & _ & -> & Hget)].
    + eexists. split; reflexivity.
    + eexists. split; [reflexivity|].
      cbn [has_groups group_keys forallb]. unfold dict_has.
      rewrite !Hget.
      repeat match goal with
             | |- context [dict_get p ?k] => destruct (dict_get p k)
             end; reflexivity.
  - rewrite Hr. eexists. split; reflexivity.
Qed.

End GenerateFacts.

(** X14.  What [generate] did, read off its outcome.  When it returns a
    record, the file was read, its extension is one of the three taken, the
    model was invoked once, on the data URL of the base64 text of the bytes
    read under the subtype [jpeg] or [png], and the record is the
    normalisation of the model's answer.  When it raises, the exception is
    the ["Failed to process image with NVIDIA NIM: "] wrapper around the
    cause.  Either way the model is invoked at most once. *)
Theorem generate_outcome
  (L : PyLib) (read_file : string -> result string) (b64encode : string -> string)
  (llm_invoke : message -> result pyvalue) (path : string) (tr : list call) :
  exists calls,
    snd (generate read_file b64encode llm_invoke path tr) = (tr ++ calls)%list
    /\ (length (filter is_invoke calls) <= 1)%nat
    /\ match fst (generate read_file b64encode llm_invoke path tr) with
       | Ok r =>
           exists bytes fmt content,
             read_file path = Ok bytes
             /\ mime_subtype path = Some fmt
             /\ (fmt = "jpeg" \/ fmt = "png")
             /\ llm_invoke (image_message fmt (b64encode bytes)) = Ok content
             /\ parse_ocr_response content = Ok r
             /\ calls = [CreateModel "meta/llama-3.2-90b-vision-instruct";
                         ReadFile path;
                         Invoke (image_message fmt (b64encode bytes))]
       | Raise e =>
           exists cause,
             e = Exception "Failed to process image with NVIDIA NIM: " cause
       end.
Proof.
  destruct (mime_subtype path) as [fmt|] eqn:Hm.
  - destruct (read_file path) as [bytes|e] eqn:Hr.
    + rewrite (generate_supported _ _ _ _ _ _ tr Hr Hm). cbn [fst snd].
      eexists. split; [reflexivity|]. split; [cbn; lia|].
      destruct (llm_invoke _) as [content|e] eqn:Hi; cbn [rbind]; [|eauto].
      destruct (parse_ocr_response content) as [r|e] eqn:Hp; [|eauto].
      exists bytes, fmt, content. repeat split; try assumption.
      unfold mime_subtype in Hm.
      destruct (_ || _) in Hm; [injection Hm as <-; auto|].
      destruct (PyStr.endswith _ _) in Hm; [injection Hm as <-; auto|discriminate].
    + exists [CreateModel "meta/llama-3.2-90b-vision-instruct"; ReadFile path].
      unfold generate, try_except, bind, encode_image_to_base64, record_call,
        modify, lift, bind, raise, ret. rewrite Hr. cbn [fst snd].
      rewrite <- app_assoc. cbn [app].
      split; [reflexivity|]. split; [cbn; lia|]. eauto.
  - rewrite (generate_unsupported _ _ _ _ tr (mime_subtype_unsupported _ Hm)).
    cbn [fst snd]. eexists. split; [reflexivity|]. split; [cbn; lia|].
    unfold rejection. eauto.
Qed.

(** X15.  With a [json.loads] that keeps its contract, a readable image of a
    supported format and a model that answers with any text at all give a
    record: [generate] returns a [dict] holding the four groups. *)
Theorem generate_returns_record_on_any_reply
  (L : PyLib) (H : loads_contract)
  (read_file : string -> result string) (b64encode : string -> string)
  (llm_invoke : message -> result pyvalue) (path bytes : string) (tr : list call) :
  supported_format path = true ->
  read_file path = Ok bytes ->
  (forall m, exists reply, llm_invoke m = Ok (VStr reply)) ->
  exists d,
    fst (generate read_file b64encode llm_invoke path tr) = Ok (VDict d)
    /\ has_groups (VDict d) = true.
Proof.
  intros Hs Hr Hreply.
  destruct (mime_subtype_supported _ Hs) as [fmt Hm].
  rewrite (generate_supported _ _ _ _ _ _ tr Hr Hm). cbn [fst].
  destruct (Hreply (image_message fmt (b64encode bytes))) as [reply ->].
  cbn [rbind parse_ocr_response].
  destruct (parse_text_groups H reply) as (d & -> & Hg). eauto.
Qed.

Lemma generate_returns_record_on_any_reply_witness :
  exists d,
    fst (generate (L := ref_lib) (fun _ => Ok "bytes") (fun b => b)
           (fun _ => Ok (VStr "not an invoice")) "/srv/app/uploads/Scan.JPG" [])
    = Ok (VDict d)
    /\ has_groups (VDict d) = true.
Proof.
  apply (generate_returns_record_on_any_reply ref_lib ref_loads_contract
           (fun _ => Ok "bytes") (fun b => b)
           (fun _ => Ok (VStr "not an invoice")) "/srv/app/uploads/Scan.JPG"
           "bytes" []).
  - reflexivity.
  - reflexivity.
  - intros m. eexists. reflexivity.
Defined.

(** ** The upload widget against the adapter *)
Section BoundaryFacts.

Lemma prefix_app_r (q n r : string) :
  prefix q n = true -> prefix q (n ++ r) = true.
Proof.
  revert n. induction q as [|c q IH]; intros n H; [apply prefix_empty|].
  destruct n as [|a n]; [discriminate|]. cbn [append prefix] in *.
  destruct (ascii_dec c a); [auto|discriminate].
Qed.

Lemma endswith_under_directory (dir name ext : string) :
  PyStr.endswith (PyStr.lower name) ext = true ->
  PyStr.endswith (PyStr.lower (dir ++ "/" ++ name)) ext = true.
Proof.
  unfold PyStr.endswith. rewrite !lower_app, !rev_app, append_assoc.
  apply prefix_app_r.
Qed.

Lemma endswith_stored (cwd name ext : string) :
  has_char "/" (PyStr.rev ext) = false ->
  PyStr.endswith (PyStr.lower (cwd ++ "/uploads/" ++ name)) ext
  = PyStr.endswith (PyStr.lower name) ext.
Proof.
  intros Hext.
  change (cwd ++ "/uploads/" ++ name) with (cwd ++ "/uploads" ++ "/" ++ name).
  rewrite <- (append_assoc cwd "/uploads").
  destruct (PyStr.endswith (PyStr.lower ((cwd ++ "/uploads") ++ "/" ++ name)) ext)
    eqn:E'.
  - symmetry. apply endswith_in_directory in E'; [exact E'|exact Hext].
  - destruct (PyStr.endswith (PyStr.lower name) ext) eqn:E; [|reflexivity].
    apply (endswith_under_directory (cwd ++ "/uploads")) in E. congruence.
Qed.

Lemma mime_subtype_stored (cwd name : string) :
  mime_subtype (cwd ++ "/uploads/" ++ name) = mime_subtype name.
Proof.
  unfold mime_subtype. rewrite !endswith_stored by reflexivity. reflexivity.
Qed.

(** Two extensions that differ in their last letter exclude each other. *)
Lemma endswith_exclusive (s : string) (a b : ascii) (p q : string) :
  a <> b ->
  PyStr.endswith s (p ++ String a "") = true ->
  PyStr.endswith s (q ++ String b "") = false.
Proof.
  unfold PyStr.endswith. intros Hab. rewrite !rev_app. cbn [PyStr.rev append].
  destruct (PyStr.rev s) as [|c r]; [discriminate|]. cbn [prefix].
  destruct (ascii_dec a c) as [<-|]; [|discriminate].
  intros _. destruct (ascii_dec b a); [congruence|reflexivity].
Qed.

End BoundaryFacts.

(** X16.  The upload widget and the adapter disagree on PDF only: a name
    the adapter takes is always accepted by the widget, and for an accepted
    name the stored file [cwd/uploads/name] has no subtype for [generate]
    exactly when the name ends in [.pdf], whatever its case. *)
Theorem widget_admits_images_and_pdf (cwd name : string) :
  (supported_format name = true ->
   file_uploader_accepts uploader_types name = true)
  /\ (file_uploader_accepts uploader_types name = true ->
      (mime_subtype (cwd ++ "/uploads/" ++ name) = None
       <-> PyStr.endswith (PyStr.lower name) ".pdf" = true)).
Proof.
  rewrite mime_subtype_stored.
  unfold supported_format, file_uploader_accepts, uploader_types, mime_subtype.
  cbn [existsb].
  change ("." ++ "png") with ".png". change ("." ++ "jpg") with ".jpg".
  change ("." ++ "jpeg") with ".jpeg". change ("." ++ "pdf") with ".pdf".
  pose proof (endswith_exclusive (PyStr.lower name) "f" "g" ".pd" ".jp") as Hjpg.
  pose proof (endswith_exclusive (PyStr.lower name) "f" "g" ".jpe" ".pn") as Hdummy.
  pose proof (endswith_exclusive (PyStr.lower name) "f" "g" ".pd" ".jpe") as Hjpeg.
  pose proof (endswith_exclusive (PyStr.lower name) "f" "g" ".pd" ".pn") as Hpng.
  clear Hdummy.
  cbn [append] in Hjpg, Hjpeg, Hpng.
  destruct (PyStr.endswith (PyStr.lower name) ".jpg") eqn:E1;
    destruct (PyStr.endswith (PyStr.lower name) ".jpeg") eqn:E2;
    destruct (PyStr.endswith (PyStr.lower name) ".png") eqn:E3;
    destruct (PyStr.endswith (PyStr.lower name) ".pdf") eqn:E4;
    cbn [orb]; (split; [intros; try reflexivity; try discriminate|]);
    intros Ha; try discriminate Ha;
    try (split; intros; try reflexivity; try discriminate);
    try (specialize (Hjpg ltac:(discriminate) eq_refl); discriminate);
    try (specialize (Hjpeg ltac:(discriminate) eq_refl); discriminate);
    try (specialize (Hpng ltac:(discriminate) eq_refl); discriminate).
Qed.

Lemma widget_admits_images_and_pdf_witness :
  file_uploader_accepts uploader_types "Invoice.PDF" = true
  /\ mime_subtype ("/srv/app" ++ "/uploads/" ++ "Invoice.PDF") = None
  /\ supported_format "scan.jpeg" = true
  /\ file_uploader_accepts uploader_types "scan.jpeg" = true.
Proof.
  split; [reflexivity|]. split.
  - apply (widget_admits_images_and_pdf "/srv/app" "Invoice.PDF"); reflexivity.
  - split; [reflexivity|].
    apply (widget_admits_images_and_pdf "/srv/app" "scan.jpeg"). reflexivity.
Defined.

(** ** The NL2SQL Translator: what [convert] hands back *)
Section ConvertFacts.

Lemma rstrip_idempotent (s : string) :
  PyStr.rstrip (PyStr.rstrip s) = PyStr.rstrip s.
Proof.
  induction s as [|a s IH]; [reflexivity|].
  cbn [PyStr.rstrip].
  destruct (PyStr.rstrip s) as [|b r] eqn:E.
  - destruct (PyStr.isspace a) eqn:Ha; [reflexivity|].
    cbn [PyStr.rstrip]. rewrite Ha. reflexivity.
  - change (PyStr.rstrip (String a (String b r)))
      with (match PyStr.rstrip (String b r) with
            | "" => if PyStr.isspace a then "" else String a ""
            | String c r' => String a (String c r')
            end).
    rewrite IH. reflexivity.
Qed.

Lemma lstrip_head (s : string) :
  PyStr.lstrip s = ""
  \/ exists c t, PyStr.lstrip s = String c t /\ PyStr.isspace c = false.
Proof.
  induction s as [|a s IH]; [left; reflexivity|].
  cbn [PyStr.lstrip]. destruct (PyStr.isspace a) eqn:Ha; [exact IH|].
  right. eauto.
Qed.

Lemma strip_idempotent (s : string) :
  PyStr.strip (PyStr.strip s) = PyStr.strip s.
Proof.
  unfold PyStr.strip.
  destruct (lstrip_head s) as [->|(c & t & -> & Hc)]; [reflexivity|].
  assert (Hl : PyStr.lstrip (PyStr.rstrip (String c t)) = PyStr.rstrip (String c t)).
  { cbn [PyStr.rstrip]. destruct (PyStr.rstrip t).
    - rewrite Hc. cbn [PyStr.lstrip]. rewrite Hc. reflexivity.
    - cbn [PyStr.lstrip]. rewrite Hc. reflexivity. }
  rewrite Hl. apply rstrip_idempotent.
Qed.

End ConvertFacts.

(** X17.  What [convert] hands back.  A returned statement is the model's
    answer, a [str], after the clean-up (stripped, the markers [```sql] and
    [```] replaced by nothing, stripped again); it begins with [SELECT] in
    some mix of cases and has no white space around it.  Every
    failure, the model's, an answer that is no [str], or a statement
    refused by the [SELECT] check, leaves as the
    ["Failed to convert question to SQL: "] exception around its cause. *)
Theorem convert_outcome
  (L : PyLib) (chat_invoke : string -> result pyvalue) (question : string) :
  match convert chat_invoke question with
  | Ok sql =>
      exists content,
        chat_invoke question = Ok (VStr content)
        /\ sql = clean_sql content
        /\ PyStr.startswith (PyStr.upper sql) "SELECT" = true
        /\ PyStr.strip sql = sql
  | Raise e =>
      exists cause, e = Exception "Failed to convert question to SQL: " cause
  end.
Proof.
  unfold convert.
  destruct (chat_invoke question) as [[| | | |content| | |]|e]; cbn [rbind]; eauto.
  unfold check_sql.
  destruct (PyStr.startswith (PyStr.upper (clean_sql content)) "SELECT") eqn:E;
    cbn [negb]; [|eauto].
  exists content. repeat split; try assumption.
  unfold clean_sql. apply strip_idempotent.
Qed.

(** ** [init_db], the converter's key, and the query path *)
Section ApplicationFacts.
Context {L : PyLib}.
Variable chat : converter -> string -> result pyvalue.
Variable sqlite_query : db_file -> string -> result (list (list sqlval)).

(** The file [init_db] leaves. *)
Lemma init_db_run (a : app_state) :
  init_db a
  = (Ok tt,
     match documents_table (disk a) with
     | Some (rows, seq) =>
         mk_app (disk a)
           (events a ++ [DatabasePath; TablesAlreadyExist;
                         DatabaseHas (Z.of_nat (List.length rows))])
           (query_history a)
     | None =>
         mk_app (file_of empty_tables)
           (events a ++ [DatabasePath; CreatingNewTables; DatabaseHas 0])
           (query_history a)
     end).
Proof.
  unfold init_db, bind, log, on_disk, modify, get, count_documents,
    documents_exists.
  destruct a as [[[[rows seq]|] it] ev h]; cbn; rewrite <- !app_assoc; reflexivity.
Qed.

Lemma NL2SQLConverter_default (env : option string) (a : app_state) :
  NL2SQLConverter env default_api_key default_model a
  = (Ok (mk_converter default_api_key default_model),
     mk_app (disk a) (events a ++ [InitializedWithModel default_model])
       (query_history a)).
Proof.
  unfold NL2SQLConverter, bind, log, modify, ret. cbn. reflexivity.
Qed.

Lemma upper_app (x y : string) :
  PyStr.upper (x ++ y) = PyStr.upper x ++ PyStr.upper y.
Proof.
  unfold PyStr.upper. induction x as [|c x IH]; simpl; [reflexivity|].
  rewrite IH. reflexivity.
Qed.

Lemma upper_prefix_cons (c0 : ascii) (p : string) (c : ascii) (s : string) :
  prefix (String c0 p) (PyStr.upper (String c s)) = true ->
  PyStr.upper_char c = c0 /\ prefix p (PyStr.upper s) = true.
Proof.
  unfold PyStr.upper. cbn [PyStr.map prefix].
  destruct (ascii_dec c0 (PyStr.upper_char c)); [auto|discriminate].
Qed.

Lemma prefix_other_head (c0 : ascii) (p : string) (c : ascii) (s : string) :
  PyStr.upper_char c0 = c0 -> PyStr.upper_char c <> c0 ->
  prefix (String c0 p) (String c s) = false.
Proof.
  intros H0 Hc. cbn [prefix].
  destruct (ascii_dec c0 c) as [<-|]; [contradiction|reflexivity].
Qed.

(** Replacing ["SELECT *"] keeps a leading [SELECT], whatever its case. *)
Lemma replace_keeps_select (sql new : string) :
  prefix "SELECT" (PyStr.upper sql) = true ->
  prefix "SELECT" (PyStr.upper new) = true ->
  prefix "SELECT" (PyStr.upper (PyStr.replace sql "SELECT *" new)) = true.
Proof.
  intros H Hnew. unfold PyStr.replace.
  destruct sql as [|c1 sql]; [discriminate|].
  apply upper_prefix_cons in H as [H1 H].
  destruct sql as [|c2 sql]; [discriminate|].
  apply upper_prefix_cons in H as [H2 H].
  destruct sql as [|c3 sql]; [discriminate|].
  apply upper_prefix_cons in H as [H3 H].
  destruct sql as [|c4 sql]; [discriminate|].
  apply upper_prefix_cons in H as [H4 H].
  destruct sql as [|c5 sql]; [discriminate|].
  apply upper_prefix_cons in H as [H5 H].
  destruct sql as [|c6 sql]; [discriminate|].
  apply upper_prefix_cons in H as [H6 _].
  remember "SELECT *" as old eqn:Hold.
  cbn [PyStr.replace_go].
  destruct (prefix old (String c1 _)).
  - rewrite upper_app. apply prefix_app_r, Hnew.
  - subst old.
    rewrite (prefix_other_head "S" _ c2) by (rewrite ?H2; first [reflexivity|discriminate]).
    rewrite (prefix_other_head "S" _ c3) by (rewrite ?H3; first [reflexivity|discriminate]).
    rewrite (prefix_other_head "S" _ c4) by (rewrite ?H4; first [reflexivity|discriminate]).
    rewrite (prefix_other_head "S" _ c5) by (rewrite ?H5; first [reflexivity|discriminate]).
    rewrite (prefix_other_head "S" _ c6) by (rewrite ?H6; first [reflexivity|discriminate]).
    unfold PyStr.upper. cbn [PyStr.map]. rewrite H1, H2, H3, H4, H5, H6.
    apply (prefix_app "SELECT").
Qed.

Lemma sanitize_keeps_select (sql : string) :
  PyStr.startswith (PyStr.upper sql) "SELECT" = true ->
  PyStr.startswith (PyStr.upper (sanitize sql)) "SELECT" = true.
Proof.
  unfold PyStr.startswith, sanitize. intros H.
  destruct (_ && _); [|exact H].
  destruct (_ && _); [|exact H].
  apply replace_keeps_select; [exact H|reflexivity].
Qed.

Lemma convert_content (question sql : string) :
  convert (chat (mk_converter default_api_key default_model)) question = Ok sql ->
  exists content,
    chat (mk_converter default_api_key default_model) question = Ok (VStr content)
    /\ sql = clean_sql content.
Proof.
  unfold convert.
  destruct (chat _ question) as [[| | | |content| | |]|e]; cbn [rbind];
    try discriminate.
  unfold check_sql. destruct (negb _); [discriminate|].
  intros [= <-]. eauto.
Qed.

Lemma convert_select (question sql : string) :
  convert (chat (mk_converter default_api_key default_model)) question = Ok sql ->
  PyStr.startswith (PyStr.upper sql) "SELECT" = true.
Proof.
  unfold convert.
  destruct (chat _ question) as [[| | | |content| | |]|e]; cbn [rbind];
    try discriminate.
  unfold check_sql.
  destruct (PyStr.startswith (PyStr.upper (clean_sql content)) "SELECT") eqn:E;
    cbn [negb]; [|discriminate].
  intros [= <-]. exact E.
Qed.

(** [execute_nl_query] with the converter imported, step by step. *)
Lemma execute_nl_query_run (env : option string) (question : string)
  (a : app_state) :
  execute_nl_query chat sqlite_query true env question a
  = let a0 := mk_app (disk a) (events a ++ [InitializedWithModel default_model])
                (query_history a) in
    match convert (chat (mk_converter default_api_key default_model)) question with
    | Raise e => (Ok (Failed e), a0)
    | Ok sql0 =>
        let a1 := snd (init_db a0) in
        let a2 := mk_app (disk a1) (events a1 ++ [Execute (sanitize sql0)])
                    (query_history a1) in
        match sqlite_query (disk a1) (sanitize sql0) with
        | Ok results =>
            (Ok (Answered (sanitize sql0) results),
             mk_app (disk a2) (events a2)
               (query_history a2 ++ [mk_entry question (sanitize sql0) results]))
        | Raise e => (Ok (Failed e), a2)
        end
    end.
Proof.
  unfold execute_nl_query, try_except, bind at 1.
  rewrite NL2SQLConverter_default. cbv zeta.
  unfold bind at 1, lift.
  destruct (convert _ question) as [sql0|e]; [|reflexivity].
  unfold get_db_connection, bind at 1. rewrite init_db_run. cbn [snd].
  unfold bind, log, modify, get, ret.
  destruct (documents_table _) as [[rows seq]|]; cbn [disk events query_history];
    destruct (sqlite_query _ _); reflexivity.
Qed.

End ApplicationFacts.

(** X18.  [init_db] on any file: it does not raise and leaves a [documents]
    table; a file that has one is left as it is, rows and counters, even when
    its [items] table is missing; a file without one gets two empty tables,
    and the rows an [items] table held are gone; the count it prints is the
    number of document rows; the session is not touched; and a second call
    changes nothing on disk. *)
Theorem init_db_keeps_or_creates (L : PyLib) (a : app_state) :
  let a' := snd (init_db a) in
  fst (init_db a) = Ok tt
  /\ (forall t, documents_table (disk a) = Some t -> disk a' = disk a)
  /\ (documents_table (disk a) = None -> disk a' = file_of empty_tables)
  /\ (exists rows seq,
        documents_table (disk a') = Some (rows, seq)
        /\ exists printed,
             events a' = (events a ++ printed
                          ++ [DatabaseHas (Z.of_nat (List.length rows))])%list)
  /\ query_history a' = query_history a
  /\ disk (snd (init_db a')) = disk a'.
Proof.
  cbv zeta. rewrite !init_db_run. cbn [fst snd].
  destruct (documents_table (disk a)) as [[rows seq]|] eqn:E.
  - cbn [disk events query_history]. rewrite E.
    repeat split; try reflexivity; try discriminate.
    exists rows, seq. split; [reflexivity|].
    exists [DatabasePath; TablesAlreadyExist]. reflexivity.
  - cbn [disk events query_history file_of documents_table empty_tables
         documents documents_seq].
    repeat split; try reflexivity; try discriminate.
    exists [], 0. split; [reflexivity|].
    exists [DatabasePath; CreatingNewTables]. reflexivity.
Qed.

(** X19.  The converter built without arguments never reads the
    environment.  In general the constructor takes the key passed when it is
    truthy, the variable [NVIDIA_API_KEY] otherwise, and raises when both
    are missing or empty; but the default of the parameter is the text
    ["your_nvidia_api_key"], so [nl_to_sql] always asks the model with that
    placeholder, whatever the environment holds, and never raises the
    missing-key error. *)
Theorem converter_key_is_placeholder
  (L : PyLib) (chat : converter -> string -> result pyvalue)
  (env : option string) (question : string) (a : app_state) :
  (forall key model,
     match fst (NL2SQLConverter env key model a) with
     | Ok c =>
         llm c = model
         /\ api_key c = (if py_truthy key then key else getenv env)
         /\ py_truthy (api_key c) = true
     | Raise e =>
         e = missing_key /\ py_truthy key = false
         /\ (env = None \/ env = Some "")
     end)
  /\ nl_to_sql chat env question a
     = (convert (chat (mk_converter default_api_key default_model)) question,
        mk_app (disk a) (events a ++ [InitializedWithModel default_model])
          (query_history a))
  /\ fst (nl_to_sql chat env question a) <> Raise missing_key.
Proof.
  assert (Hrun : nl_to_sql chat env question a
     = (convert (chat (mk_converter default_api_key default_model)) question,
        mk_app (disk a) (events a ++ [InitializedWithModel default_model])
          (query_history a))).
  { unfold nl_to_sql, bind. rewrite NL2SQLConverter_default. reflexivity. }
  split; [|split; [exact Hrun|]].
  - intros key model. unfold NL2SQLConverter, py_or, bind, log, modify, ret, raise.
    destruct (py_truthy key) eqn:Hk.
    + rewrite Hk. cbn. auto.
    + destruct (py_truthy (getenv env)) eqn:He; cbn; [auto|].
      repeat split. destruct env as [s|]; [|auto].
      right. cbn in He. apply negb_false_iff, String.eqb_eq in He. congruence.
  - rewrite Hrun. cbn [fst]. unfold convert.
    destruct (rbind _ _); discriminate.
Qed.

(** X20.  Whatever [execute_nl_query] hands to [cursor.execute] begins with
    [SELECT] in some mix of cases, the join clean-up included, and it
    executes at most one statement. *)
Theorem only_select_is_executed
  (L : PyLib) (chat : converter -> string -> result pyvalue)
  (sqlite_query : db_file -> string -> result (list (list sqlval)))
  (USE_NL2SQL_CLASS : bool) (env : option string) (question : string)
  (a : app_state) :
  exists added,
    events (snd (execute_nl_query chat sqlite_query USE_NL2SQL_CLASS env
                   question a))
    = (events a ++ added)%list
    /\ (forall sql, In (Execute sql) added ->
                    PyStr.startswith (PyStr.upper sql) "SELECT" = true)
    /\ (length (filter (fun e => match e with Execute _ => true | _ => false end)
                  added) <= 1)%nat.
Proof.
  destruct USE_NL2SQL_CLASS.
  - rewrite execute_nl_query_run. cbv zeta.
    pose proof (convert_select chat question) as Hsel.
    destruct (convert _ question) as [sql0|e].
    + rewrite init_db_run. cbn [snd disk events query_history].
      specialize (Hsel _ eq_refl). apply sanitize_keeps_select in Hsel.
      destruct (documents_table (disk a)) as [[rows seq]|];
        cbn [disk events query_history];
        destruct (sqlite_query _ _); cbn [snd events];
        rewrite <- !app_assoc; cbn [List.app];
        (eexists; split; [reflexivity|]; split; [|cbn; lia]);
        intros sql Hin; cbn [In] in Hin;
        repeat (destruct Hin as [Hin|Hin]; try discriminate Hin);
        try contradiction; injection Hin as <-; exact Hsel.
    + cbn [snd events]. eexists. split; [reflexivity|]. split; [|cbn; lia].
      intros sql [Hin|[]]. discriminate.
  - exists [ImportErrorShown]. split; [reflexivity|]. split; [|cbn; lia].
    intros sql [Hin|[]]. discriminate.
Qed.

(** X21.  [execute_nl_query] never raises, and its answer tells what it did.
    With [(True, sql, results)] the model answered with a text, [sql] is that
    text cleaned by [convert] and passed through the join clean-up, [results]
    is what the database returned for it, and the history has grown by the
    one entry [(question, sql, results)].  With any other answer the history
    is as it was; without the converter class nothing was printed by the
    database and the file is untouched. *)
Theorem execute_nl_query_outcome
  (L : PyLib) (chat : converter -> string -> result pyvalue)
  (sqlite_query : db_file -> string -> result (list (list sqlval)))
  (USE_NL2SQL_CLASS : bool) (env : option string) (question : string)
  (a : app_state) :
  match execute_nl_query chat sqlite_query USE_NL2SQL_CLASS env question a with
  | (Ok (Answered sql results), a') =>
      USE_NL2SQL_CLASS = true
      /\ (exists content,
            chat (mk_converter default_api_key default_model) question
            = Ok (VStr content)
            /\ sql = sanitize (clean_sql content))
      /\ sqlite_query (disk a') sql = Ok results
      /\ query_history a'
         = (query_history a ++ [mk_entry question sql results])%list
  | (Ok ImportError, a') =>
      USE_NL2SQL_CLASS = false
      /\ query_history a' = query_history a /\ disk a' = disk a
  | (Ok (Failed e), a') =>
      USE_NL2SQL_CLASS = true /\ query_history a' = query_history a
  | (Raise _, _) => False
  end.
Proof.
  destruct USE_NL2SQL_CLASS; [|cbn; auto].
  rewrite execute_nl_query_run. cbv zeta.
  pose proof (convert_content chat question) as Hc.
  destruct (convert _ question) as [sql0|e]; [|cbn; auto].
  destruct (Hc _ eq_refl) as (content & Hchat & ->).
  rewrite init_db_run. cbn [snd disk events query_history].
  destruct (documents_table (disk a)) as [[rows seq]|];
    cbn [disk events query_history];
    destruct (sqlite_query _ _) eqn:Hq; cbn [disk events query_history];
    repeat split; eauto.
Qed.

(** ** The database over the life of the app *)
Section LifetimeFacts.
Context {L : PyLib}.

Lemma ids_up_to_length (n : nat) : List.length (ids_up_to n) = n.
Proof.
  induction n as [|n IH]; [reflexivity|].
  cbn [ids_up_to]. rewrite length_app, IH. cbn. lia.
Qed.

(** One more document on tables that hold the documents [1 .. n]. *)
Lemma numbered_after_save (t : tables) (row : document_row)
  (rows : list item_row) (id its : Z) :
  well_formed t ->
  List.map doc_id (documents t) = ids_up_to (List.length (documents t)) ->
  documents_seq t = Z.of_nat (List.length (documents t)) ->
  id = documents_seq t + 1 ->
  doc_id row = id ->
  Forall (fun r => document_id r = SqlInt id) rows ->
  let t' := mk_tables (documents t ++ [row]) (items t ++ rows) id its in
  well_formed t'
  /\ List.map doc_id (documents t') = ids_up_to (List.length (documents t'))
  /\ documents_seq t' = Z.of_nat (List.length (documents t')).
Proof.
  intros (H0 & Hb & Hr) Hids Hseq Hid Hrow Hf. cbv zeta.
  cbn [documents items documents_seq].
  assert (Hlen : List.length (documents t ++ [row]) = S (List.length (documents t))).
  { rewrite length_app. cbn. lia. }
  split; [|split].
  - unfold well_formed, ids_bounded, referential.
    cbn [documents items documents_seq].
    split; [lia|]. split.
    + rewrite forallb_app. apply andb_true_iff. split.
      * unfold ids_bounded in Hb. rewrite forallb_forall in *.
        intros d Hd. specialize (Hb d Hd). apply Z.leb_le in Hb.
        apply Z.leb_le. lia.
      * cbn. rewrite Hrow, Z.leb_refl. reflexivity.
    + rewrite forallb_app. apply andb_true_iff. split.
      * unfold referential in Hr. rewrite forallb_forall in *.
        intros r Hin. specialize (Hr r Hin). rewrite existsb_app, Hr.
        reflexivity.
      * apply forallb_forall. intros r Hin.
        rewrite Forall_forall in Hf. rewrite (Hf r Hin).
        rewrite existsb_app. cbn. rewrite Hrow, Z.eqb_refl.
        rewrite orb_true_r. reflexivity.
  - rewrite Hlen. cbn [ids_up_to]. rewrite map_app, Hids. cbn [List.map].
    rewrite Hrow, Hid, Hseq. do 2 f_equal. lia.
  - rewrite Hlen, Hid, Hseq. lia.
Qed.

End LifetimeFacts.

(** X22.  Whatever invoices were processed since [init_db] created the
    tables, [documents] holds the ids [1, 2, ..., n] in order, without gap
    or repetition, [n] being the number of its rows and the value of its
    counter (a failed save gives out no id); and every [items] row carries
    the id of a row of [documents]. *)
Theorem stored_documents_are_numbered (L : PyLib) (t : tables) :
  reachable t ->
  List.map doc_id (documents t) = ids_up_to (List.length (documents t))
  /\ documents_seq t = Z.of_nat (List.length (documents t))
  /\ referential t = true.
Proof.
  intros H.
  assert (G : well_formed t
              /\ List.map doc_id (documents t)
                 = ids_up_to (List.length (documents t))
              /\ documents_seq t = Z.of_nat (List.length (documents t))).
  { induction H as [|t ocr_result r w' Hreach IH Hlt Hrun].
    - split; [|split; reflexivity]. split; [cbn; lia|]. split; reflexivity.
    - destruct IH as (Hwf & Hids & Hseq).
      destruct r as [id|e].
      + destruct (process_image_save_returns _ _ _ _ Hrun) as (w1 & Hsave & ->).
        pose proof (well_formed_tables_ok t Hwf Hlt) as Hok.
        destruct (save_ocr_to_db_tables ocr_result (open_world t) id w1 Hok Hsave)
          as (row & rows & name & elems & _ & -> & Hid & Hrow & _ & _ & _ & _ & _ & Hf).
        cbn [working conn open_world] in Hid |- *.
        exact (numbered_after_save t row rows id _ Hwf Hids Hseq Hid Hrow Hf).
      + destruct (process_image_save_raises _ _ _ _ Hrun) as (_ & ->).
        cbn [committed conn open_world]. auto. }
  destruct G as ((_ & _ & Hr) & Hids & Hseq). auto.
Qed.

Lemma stored_documents_are_numbered_witness :
  let r := @VDict Ref.dec
             [("items", VList [VDict [("description", VStr "Widget");
                                      ("quantity", VInt 2)]])] in
  let t := committed (conn (snd (process_image_save (L := ref_lib) r
                                   (open_world empty_tables)))) in
  reachable (L := ref_lib) t
  /\ List.map doc_id (documents t) = ids_up_to (List.length (documents t))
  /\ documents_seq t = Z.of_nat (List.length (documents t))
  /\ referential t = true.
Proof.
  intros r t.
  assert (Hr : reachable (L := ref_lib) t).
  { apply (reach_processed (L := ref_lib) empty_tables r
             (fst (process_image_save (L := ref_lib) r (open_world empty_tables)))
             (snd (process_image_save (L := ref_lib) r (open_world empty_tables)))).
    - apply reach_created.
    - cbn. lia.
    - apply surjective_pairing. }
  split; [exact Hr|].
  apply (stored_documents_are_numbered ref_lib t Hr).
Defined.

(** ** The Response Normalizer: an object inside prose *)
Section ProseFacts.
Context {L : PyLib}.

Lemma lstrip_app_nonspace (x : string) (c : ascii) (t : string) :
  PyStr.isspace c = false ->
  PyStr.lstrip (x ++ String c t) = PyStr.lstrip x ++ String c t.
Proof.
  intros Hc. induction x as [|a x IH]; cbn [append PyStr.lstrip].
  - rewrite Hc. reflexivity.
  - destruct (PyStr.isspace a); [exact IH|reflexivity].
Qed.

Lemma rstrip_app_nonspace (x : string) (c : ascii) (y : string) :
  PyStr.isspace c = false ->
  PyStr.rstrip (x ++ String c y) = x ++ String c (PyStr.rstrip y).
Proof.
  intros Hc. induction x as [|a x IH]; cbn [append PyStr.rstrip].
  - destruct (PyStr.rstrip y); [rewrite Hc|]; reflexivity.
  - rewrite IH. destruct x; reflexivity.
Qed.

Lemma find_from_first (c : ascii) (x r : string) (i : Z) :
  has_char c x = false ->
  PyStr.find_from (String c "") (x ++ String c r) i
  = i + Z.of_nat (String.length x).
Proof.
  revert i. induction x as [|a x IH]; intros i H.
  - cbn [append PyStr.find_from prefix String.length].
    destruct (ascii_dec c c); [|congruence]. rewrite prefix_empty. cbn. lia.
  - cbn [has_char] in H. apply orb_false_iff in H as [Ha H].
    cbn [append PyStr.find_from prefix].
    destruct (ascii_dec c a) as [->|].
    + rewrite Ascii.eqb_refl in Ha. discriminate.
    + rewrite (IH _ H). cbn [String.length]. lia.
Qed.

Lemma rfind_from_last (c : ascii) (u y : string) (i : Z) :
  0 <= i ->
  has_char c y = false ->
  PyStr.rfind_from (String c "") (u ++ String c y) i
  = i + Z.of_nat (String.length u).
Proof.
  revert i. induction u as [|a u IH]; intros i Hi H.
  - cbn [append PyStr.rfind_from prefix String.length].
    rewrite (rfind_absent_char _ _ _ H). cbn [Z.eqb].
    destruct (ascii_dec c c); [|congruence]. rewrite prefix_empty. cbn. lia.
  - cbn [append PyStr.rfind_from]. rewrite (IH (i + 1)) by (lia || exact H).
    cbn [String.length].
    destruct (Z.eqb_spec (i + 1 + Z.of_nat (String.length u)) (-1)); lia.
Qed.

Lemma substring_app_skip (x s : string) (n : nat) :
  substring (String.length x) n (x ++ s) = substring 0 n s.
Proof. induction x as [|a x IH]; [reflexivity|exact IH]. Qed.

Lemma substring_app_take (b y : string) :
  substring 0 (String.length b) (b ++ y) = b.
Proof.
  induction b as [|a b IH]; cbn [String.length append substring].
  - destruct y; reflexivity.
  - rewrite IH. reflexivity.
Qed.

Lemma length_append (a b : string) :
  String.length (a ++ b) = (String.length a + String.length b)%nat.
Proof. induction a as [|c a IH]; cbn; [reflexivity|]. rewrite IH. reflexivity. Qed.

(** The candidate of a text made of an object between two texts without
    the brace that would extend it. *)
Lemma json_candidate_between (x mid y : string) :
  has_char "{" x = false -> has_char "}" y = false ->
  json_candidate (x ++ String "{" (mid ++ String "}" y))
  = Some (String "{" (mid ++ "}")).
Proof.
  intros Hx Hy. unfold json_candidate, PyStr.find, PyStr.rfind.
  rewrite (find_from_first _ _ _ _ Hx).
  assert (E : x ++ String "{" (mid ++ String "}" y)
              = (x ++ String "{" mid) ++ String "}" y).
  { rewrite append_assoc. reflexivity. }
  assert (R : PyStr.rfind_from "}" (x ++ String "{" (mid ++ String "}" y)) 0
              = 0 + Z.of_nat (String.length (x ++ String "{" mid))).
  { rewrite E. apply rfind_from_last; [lia|exact Hy]. }
  rewrite R. clear E R.
  rewrite length_append. cbn [String.length].
  destruct (Z.eqb_spec (0 + Z.of_nat (String.length x)) (-1)); [lia|].
  cbn [negb andb].
  destruct (Z.gtb_spec (0 + Z.of_nat (String.length x + S (String.length mid)) + 1)
                       (0 + Z.of_nat (String.length x))); [|lia].
  f_equal. unfold PyStr.slice, PyStr.clamp, PyStr.len.
  rewrite !length_append. cbn [String.length]. rewrite length_append.
  cbn [String.length].
  repeat match goal with
         | |- context [?a <? 0] =>
             replace (a <? 0) with false by (symmetry; apply Z.ltb_ge; lia)
         end.
  match goal with
  | |- substring ?a ?b ?s = _ =>
      replace a with (String.length x) by lia;
      replace b with (String.length (String "{" (mid ++ "}")))
        by (cbn [String.length]; rewrite length_append; cbn [String.length]; lia)
  end.
  rewrite substring_app_skip.
  change (String "{" (mid ++ String "}" y))
    with (String "{" (mid ++ "}" ++ y)).
  rewrite <- append_assoc.
  change (String "{" ((mid ++ "}") ++ y)) with (String "{" (mid ++ "}") ++ y).
  apply substring_app_take.
Qed.

Lemma clean_response_prose (pre mid post : string) :
  has_char "`" pre = false ->
  clean_response (pre ++ String "{" (mid ++ String "}" post))
  = PyStr.lstrip pre ++ String "{" (mid ++ String "}" (PyStr.rstrip post)).
Proof.
  intros Hq.
  assert (Hs : PyStr.strip (pre ++ String "{" (mid ++ String "}" post))
               = PyStr.lstrip pre
                 ++ String "{" (mid ++ String "}" (PyStr.rstrip post))).
  { unfold PyStr.strip. rewrite lstrip_app_nonspace by reflexivity.
    replace (PyStr.lstrip pre ++ String "{" (mid ++ String "}" post))
      with ((PyStr.lstrip pre ++ String "{" mid) ++ String "}" post)
      by (rewrite append_assoc; reflexivity).
    rewrite rstrip_app_nonspace by reflexivity.
    rewrite append_assoc. reflexivity. }
  unfold clean_response. rewrite Hs. unfold PyStr.startswith.
  assert (Hp : forall o,
             prefix (String "`" o)
               (PyStr.lstrip pre
                ++ String "{" (mid ++ String "}" (PyStr.rstrip post))) = false).
  { intros o. pose proof (has_char_lstrip _ _ Hq) as Hl.
    destruct (PyStr.lstrip pre) as [|a x]; [reflexivity|].
    cbn [has_char] in Hl. apply orb_false_iff in Hl as [Ha _].
    cbn [append prefix]. destruct (ascii_dec "`" a) as [<-|]; [|reflexivity].
    discriminate Ha. }
  rewrite !Hp. reflexivity.
Qed.

End ProseFacts.

(** X23.  Commentary around the object is ignored: when the reply is an
    object [{...}] with text before it that has no opening brace and no
    backquote, and text after it that has no closing brace, what goes to
    [json.loads] is the object alone; when that decodes to a [dict], the
    record is this [dict] followed by the default groups it lacks. *)
Theorem prose_around_object_is_ignored
  (L : PyLib) (pre mid post : string) (p : pydict) :
  has_char "{" pre = false ->
  has_char "`" pre = false ->
  has_char "}" post = false ->
  json_loads (String "{" (mid ++ "}")) = Ok (VDict p) ->
  json_candidate (clean_response (pre ++ String "{" (mid ++ String "}" post)))
  = Some (String "{" (mid ++ "}"))
  /\ parse_ocr_response (VStr (pre ++ String "{" (mid ++ String "}" post)))
     = Ok (VDict (p ++ missing_defaults p)%list).
Proof.
  intros Hpre Hq Hpost Hl.
  assert (Hc : json_candidate
                 (clean_response (pre ++ String "{" (mid ++ String "}" post)))
               = Some (String "{" (mid ++ "}"))).
  { rewrite (clean_response_prose _ _ _ Hq).
    apply json_candidate_between.
    - apply has_char_lstrip, Hpre.
    - apply has_char_rstrip, Hpost. }
  split; [exact Hc|].
  cbn [parse_ocr_response]. rewrite parse_text_cases, Hc, Hl.
  apply merge_defaults_appends, default_keys_distinct.
Qed.

Lemma prose_around_object_is_ignored_witness :
  parse_ocr_response (L := ref_lib)
    (VStr ("Here is the invoice: "
           ++ String "{" ("" ++ String "}" " Let me know if you need more.")))
  = Ok (VDict ([] ++ missing_defaults [])%list).
Proof.
  apply (prose_around_object_is_ignored ref_lib "Here is the invoice: " ""
           " Let me know if you need more." []); reflexivity.
Defined.
